(** * Identity and authorization core of the alias service API

    A shallow embedding of [app/api/base.py], [app/api/views/auth.py],
    [app/api/views/auth_mfa.py], [app/api/views/sudo.py] and the
    [create_api_key] view of [app/api/views/user_info.py].

    - Database rows are records; a table is the list of its rows in
      insertion order, so that duplicates stay visible.
    - The SQLAlchemy session is a pair of databases: the rows the request
      works on and the rows already committed.
    - A view is a computation in a state-and-exception monad over the
      [World] a request can observe or change.
    - Every reading of the clock and every draw of the random source is an
      explicit argument of the view that performs it.
    - A Python [str] is held as the bytes of its UTF-8 encoding; its
      length in characters is [py_len]. *)

From Stdlib Require Import ZArith List Ascii String Bool Lia.
Import ListNotations.

Local Open Scope Z_scope.
Local Open Scope string_scope.

(** Instants on the UTC time line, counted in microseconds (the resolution
    of Python's [datetime], which [arrow] wraps). *)
Definition timestamp := Z.

Definition seconds (n : Z) : Z := n * 1000000.
Definition minutes (n : Z) : Z := seconds (n * 60).

(** [arrow.Arrow.shift(minutes=n)] on an instant of the time line. *)
Definition shift_minutes (t : timestamp) (n : Z) : timestamp := t + minutes n.

(** ** Python values *)

(** Truth value of an [Optional[str]]: [None] and [""] are falsy. *)
Definition truthy (v : option string) : bool :=
  match v with
  | Some s => negb (s =? "")
  | None => false
  end.

(** Python's [all] over a list of truth values. *)
Definition all (l : list bool) : bool := forallb (fun b => b) l.

Definition option_eqb {A} (eqb : A -> A -> bool) (x y : option A) : bool :=
  match x, y with
  | Some a, Some b => eqb a b
  | None, None => true
  | _, _ => false
  end.

(** [a or b] on optional objects that are truthy whenever present. *)
Definition or_else {A} (a b : option A) : option A :=
  match a with
  | Some _ => a
  | None => b
  end.

(** A byte of the form [10xxxxxx]: in UTF-8 it continues a character. *)
Definition continuation_byte (c : ascii) : bool :=
  ((128 <=? nat_of_ascii c) && (nat_of_ascii c <? 192))%nat.

(** [len(s)] for a [str]: the number of its characters (code points), that
    is of the bytes of its encoding that start one. *)
Fixpoint py_len (s : string) : nat :=
  match s with
  | EmptyString => 0%nat
  | String c rest =>
      ((if continuation_byte c then 0 else 1) + py_len rest)%nat
  end.

(** The parsed body of a request when it is a JSON object whose values
    are strings, as a Python [dict]. The views are embedded on such
    bodies: on a body that is another JSON value which is not falsy
    (a list, a number), [data.get] raises [AttributeError] in the views
    that call it, and a value that is not a string reaches helpers of
    [app.utils] that are not among the sources. *)
Definition json := list (string * string).

Fixpoint dict_get (d : json) (k : string) : option string :=
  match d with
  | [] => None
  | (k', v) :: d' => if k' =? k then Some v else dict_get d' k
  end.

Definition dict_contains (d : json) (k : string) : bool :=
  match dict_get d k with
  | Some _ => true
  | None => false
  end.

(** ** The models of [app.models] used by the views *)

Module User.

Record t := mk
  { id : Z;
    email : string;
    name : option string;
    password : option string;
    activated : bool;
    disabled : bool;
    delete_on : option timestamp;
    enable_otp : bool;
    otp_secret : option string }.

Definition set_activated (b : bool) (u : t) : t :=
  mk (id u) (email u) (name u) (password u) b (disabled u)
     (delete_on u) (enable_otp u) (otp_secret u).

(** Modelled from the spec: [User.get_by(email=...)] is absent from the
    sources; it is the lookup of a user by its unique email, and a null
    email matches no user. *)
Definition get_by_email (tbl : list t) (e : option string) : option t :=
  match e with
  | Some s => find (fun u => email u =? s) tbl
  | None => None
  end.

(** Modelled from the spec: [User.get(id)], the lookup by primary key. *)
Definition get (tbl : list t) (i : Z) : option t :=
  find (fun u => (id u =? i)%Z) tbl.

(** An attribute assignment on a loaded row, flushed by primary key. *)
Definition update_where_id (i : Z) (f : t -> t) (tbl : list t) : list t :=
  map (fun u => if (id u =? i)%Z then f u else u) tbl.

(** [user.name or ""] *)
Definition name_or_empty (u : t) : string :=
  match name u with
  | Some s => s
  | None => ""
  end.

End User.

Module ApiKey.

Record t := mk
  { id : Z;
    user_id : Z;
    code : string;
    name : option string;
    times : Z;
    last_used : option timestamp;
    sudo_mode_at : option timestamp }.

Definition set_usage (now : timestamp) (n : Z) (k : t) : t :=
  mk (id k) (user_id k) (code k) (name k) n (Some now) (sudo_mode_at k).

Definition set_sudo_mode_at (now : timestamp) (k : t) : t :=
  mk (id k) (user_id k) (code k) (name k) (times k) (last_used k) (Some now).

(** Modelled from the spec: [ApiKey.get_by(code=...)] is absent from the
    sources; it is the lookup of a bearer credential by its exact code,
    and a missing header matches no key. *)
Definition get_by_code (tbl : list t) (c : option string) : option t :=
  match c with
  | Some s => find (fun k => code k =? s) tbl
  | None => None
  end.

Definition owned_by (uid : Z) (device : option string) (k : t) : bool :=
  (user_id k =? uid)%Z && option_eqb String.eqb (name k) device.

(** Modelled from the spec: [ApiKey.get_by(user_id=..., name=...)], the
    lookup by (user, device) that returns the existing key if present. *)
Definition get_by_user_name (tbl : list t) (uid : Z) (device : option string)
  : option t :=
  find (owned_by uid device) tbl.

(** Modelled from the spec: the row [ApiKey.create(user_id, name)] adds,
    with a fresh high-entropy code, zeroed usage counters and null
    elevation state. The code is drawn by the caller's random source. *)
Definition fresh (new_id uid : Z) (device : option string) (new_code : string)
  : t :=
  mk new_id uid new_code device 0 None None.

Definition update_where_id (i : Z) (f : t -> t) (tbl : list t) : list t :=
  map (fun k => if (id k =? i)%Z then f k else k) tbl.

(** The (user, device-name) pair a key is issued for. *)
Definition pair_of (k : t) : Z * option string := (user_id k, name k).

End ApiKey.

Module AccountActivation.

Record t := mk
  { id : Z;
    user_id : Z;
    code : string;
    tries : Z }.

Definition set_tries (n : Z) (a : t) : t := mk (id a) (user_id a) (code a) n.

(** Modelled from the spec: [AccountActivation.get_by(user_id=...)], the
    lookup of the live activation record of a user. *)
Definition get_by_user_id (tbl : list t) (uid : Z) : option t :=
  find (fun a => (user_id a =? uid)%Z) tbl.

(** Modelled from the spec: [AccountActivation.delete(id)] removes the
    record with that primary key. *)
Definition delete (i : Z) (tbl : list t) : list t :=
  filter (fun a => negb (id a =? i)%Z) tbl.

Definition update_where_id (i : Z) (f : t -> t) (tbl : list t) : list t :=
  map (fun a => if (id a =? i)%Z then f a else a) tbl.

End AccountActivation.

(** ** The database and the world of a request *)

Record DB := mkDB
  { users : list User.t;
    api_keys : list ApiKey.t;
    account_activations : list AccountActivation.t;
    api_key_seq : Z;
    account_activation_seq : Z }.

Definition with_users (f : list User.t -> list User.t) (d : DB) : DB :=
  mkDB (f (users d)) (api_keys d) (account_activations d)
       (api_key_seq d) (account_activation_seq d).

Definition with_api_keys (f : list ApiKey.t -> list ApiKey.t) (d : DB) : DB :=
  mkDB (users d) (f (api_keys d)) (account_activations d)
       (api_key_seq d) (account_activation_seq d).

Definition with_account_activations
  (f : list AccountActivation.t -> list AccountActivation.t) (d : DB) : DB :=
  mkDB (users d) (api_keys d) (f (account_activations d))
       (api_key_seq d) (account_activation_seq d).

(** An insertion takes the next value of the sequence of the table. *)
Definition add_api_key (k : ApiKey.t) (d : DB) : DB :=
  mkDB (users d) (api_keys d ++ [k]) (account_activations d)
       (api_key_seq d + 1) (account_activation_seq d).

Definition add_account_activation (a : AccountActivation.t) (d : DB) : DB :=
  mkDB (users d) (api_keys d) (account_activations d ++ [a])
       (api_key_seq d) (account_activation_seq d + 1).

(** [LoginEvent.ActionType], for the events [auth_login] sends. *)
Module LoginEvent.

Inductive ActionType :=
| failed
| disabled_login
| scheduled_to_be_deleted
| not_activated
| success.

End LoginEvent.

(** Messages handed to [app.email_utils]. *)
Inductive Mail :=
| CodeActivationMail (to : option string) (user : Z) (code : string)
| InvalidTotpLoginMail (user : Z) (kind : string).

(** Entries handed to [emit_user_audit_log]. *)
Inductive AuditEntry :=
| ActivateUser (user : Z) (email : string).

Record World := mkWorld
  { committed : DB;              (* rows a later request will see *)
    session : DB;                (* rows of the SQLAlchemy session *)
    login_session : option Z;    (* user of the flask-login session *)
    g_user : option User.t;      (* flask.g.user *)
    g_api_key : option ApiKey.t; (* flask.g.api_key *)
    outbox : list Mail;
    login_events : list LoginEvent.ActionType;
    audit_log : list AuditEntry }.

Definition with_session (f : DB -> DB) (w : World) : World :=
  mkWorld (committed w) (f (session w)) (login_session w) (g_user w)
          (g_api_key w) (outbox w) (login_events w) (audit_log w).

Definition commit (w : World) : World :=
  mkWorld (session w) (session w) (login_session w) (g_user w)
          (g_api_key w) (outbox w) (login_events w) (audit_log w).

Definition set_login_session (u : option Z) (w : World) : World :=
  mkWorld (committed w) (session w) u (g_user w)
          (g_api_key w) (outbox w) (login_events w) (audit_log w).

Definition set_g_user (u : option User.t) (w : World) : World :=
  mkWorld (committed w) (session w) (login_session w) u
          (g_api_key w) (outbox w) (login_events w) (audit_log w).

Definition set_g_api_key (k : option ApiKey.t) (w : World) : World :=
  mkWorld (committed w) (session w) (login_session w) (g_user w)
          k (outbox w) (login_events w) (audit_log w).

Definition push_mail (m : Mail) (w : World) : World :=
  mkWorld (committed w) (session w) (login_session w) (g_user w)
          (g_api_key w) (outbox w ++ [m]) (login_events w) (audit_log w).

Definition push_login_event (a : LoginEvent.ActionType) (w : World) : World :=
  mkWorld (committed w) (session w) (login_session w) (g_user w)
          (g_api_key w) (outbox w) (login_events w ++ [a]) (audit_log w).

Definition push_audit (a : AuditEntry) (w : World) : World :=
  mkWorld (committed w) (session w) (login_session w) (g_user w)
          (g_api_key w) (outbox w) (login_events w) (audit_log w ++ [a]).

(** ** Requests and responses *)

Record Request := mkRequest
  { header_Authentication : option string; (* request.headers.get("Authentication") *)
    get_json : option json }.              (* request.get_json() *)

(** [not data] for the parsed body: no body, or the empty object. *)
Definition empty_body (data : option json) : bool :=
  match data with
  | Some (_ :: _) => false
  | _ => true
  end.

Definition data_get (data : option json) (k : string) : option string :=
  match data with
  | Some d => dict_get d k
  | None => None
  end.

(** The argument of [jsonify]. *)
Inductive Body :=
| JError (error : string)
| JMsg (msg : string)
| JOk
| JApiKey (api_key : string)
| JAuthPayload (name email : string) (mfa_enabled : bool)
               (mfa_key api_key : option string)
| JMfaPayload (name email api_key : string).

(** A view returns a body and an HTTP status. *)
Definition Response := (Body * Z)%type.

(** ** The monad of views *)

Inductive exn :=
| AttributeError (attribute : string)
| KeyError (key : string).

Inductive result (A : Type) :=
| Return (a : A)
| Raise (e : exn).
Arguments Return {A} a.
Arguments Raise {A} e.

Definition M (A : Type) := World -> result A * World.

Definition ret {A} (a : A) : M A := fun w => (Return a, w).

Definition raise {A} (e : exn) : M A := fun w => (Raise e, w).

Definition bind {A B} (m : M A) (f : A -> M B) : M B :=
  fun w =>
    match m w with
    | (Return a, w') => f a w'
    | (Raise e, w') => (Raise e, w')
    end.

Definition gets {A} (f : World -> A) : M A := fun w => (Return (f w), w).

Definition modify (f : World -> World) : M unit := fun w => (Return tt, f w).

Declare Scope view_scope.
Delimit Scope view_scope with view.
Notation "x <- m ;; k" := (bind m (fun x => k))
  (at level 61, m at next level, right associativity) : view_scope.
Notation "m ;; k" := (bind m (fun _ => k))
  (at level 61, right associativity) : view_scope.
Local Open Scope view_scope.

(** [Session.commit()] *)
Definition Session_commit : M unit := modify commit.

(** [flask_login.login_user(user)] *)
Definition login_user (u : User.t) : M unit :=
  modify (set_login_session (Some (User.id u))).

(** [flask_login.current_user]: the user of the session cookie, anonymous
    (not authenticated) when there is none. *)
Definition current_user : M (option User.t) :=
  gets (fun w =>
          match login_session w with
          | Some i => User.get (users (session w)) i
          | None => None
          end).

(** ** Collaborators outside the sources

    The views call helpers of [app.utils], [app.config], methods of
    [app.models.User] and the libraries [itsdangerous] and [pyotp]. None of
    them is in the sources: they are the operations of this interface. *)
Class Collaborators := mkCollaborators
  { sanitize_email : option string -> option string;
    canonicalize_email : option string -> option string;
    check_password : User.t -> string -> bool;   (* user.check_password(p) *)
    is_active : User.t -> bool;                  (* user.is_active() *)
    fido_enabled : User.t -> bool;               (* user.fido_enabled() *)
    FLASK_SECRET : string;
    sign : string -> string -> string;           (* Signer(secret).sign(v) *)
    unsign : string -> string -> option string;  (* None: BadSignature *)
    py_str : Z -> string;                        (* str(n) *)
    py_int : string -> option Z;                 (* None: ValueError *)
    totp_at : option string -> timestamp -> Z -> string;
                                   (* pyotp.TOTP(secret).at(for_time, offset) *)
    initial_tries : Z }.           (* column default of AccountActivation.tries *)

Section Views.

Context `{Collaborators}.

(** *** app/api/base.py *)

Definition SUDO_MODE_VALID : Z := 5. (* minutes *)

(** Lines 25-31 of [authorize_request]: the account-status checks on
    [g.user], then the publication of the credential in [g.api_key]. *)
Definition account_status_checks (api_key : option ApiKey.t)
  : M (option Response) :=
  u <- gets g_user ;;
  match u with
  | None => raise (AttributeError "disabled")
  | Some u =>
      if User.disabled u then ret (Some (JError "Disabled account", 403))
      else if negb (is_active u) then ret (Some (JError "Account inactive", 401))
      else
        modify (set_g_api_key api_key) ;; (* None for session auth *)
        ret None
  end.

Definition authorize_request (req : Request) (now : timestamp)
  : M (option Response) :=
  api_key <- gets (fun w => ApiKey.get_by_code (api_keys (session w))
                              (header_Authentication req)) ;;
  match api_key with
  | None =>
      cu <- current_user ;;
      match cu with
      | None => ret (Some (JError "Wrong API key", 401))
      | Some u =>
          modify (set_g_user (Some u)) ;;
          account_status_checks None
      end
  | Some k =>
      let update := ApiKey.set_usage now (ApiKey.times k + 1) in
      modify (with_session (with_api_keys
                (ApiKey.update_where_id (ApiKey.id k) update))) ;;
      Session_commit ;;
      owner <- gets (fun w => User.get (users (session w)) (ApiKey.user_id k)) ;;
      modify (set_g_user owner) ;;
      account_status_checks (Some (update k))
  end.

Definition check_sudo (now : timestamp) (api_key : option ApiKey.t) : bool :=
  match api_key with
  | None => false
  | Some k =>
      match ApiKey.sudo_mode_at k with
      | None => false
      | Some at_ => (shift_minutes now (- SUDO_MODE_VALID) <=? at_)%Z
      end
  end.

Definition require_api_auth (f : M Response) (req : Request)
  (now : timestamp) : M Response :=
  err <- authorize_request req now ;;
  match err with
  | Some e => ret e
  | None => f
  end.

(** [now] is the clock reading of [authorize_request], [now_check] the
    later one of [check_sudo]. *)
Definition require_api_sudo (f : M Response) (req : Request)
  (now now_check : timestamp) : M Response :=
  err <- authorize_request req now ;;
  match err with
  | Some e => ret e
  | None =>
      k <- gets g_api_key ;;
      if check_sudo now_check k then f
      else ret (JError "Sudo required", 440)
  end.

(** *** app/api/views/sudo.py *)

Definition validate_password (user : User.t) (password : option string)
  : bool :=
  match password with
  | Some p => if p =? "" then false else check_password user p
  | None => false
  end.

(** The body of [enter_sudo], under its [require_api_auth] decorator
    in [sudo_view]. *)
Definition enter_sudo (req : Request) (now : timestamp) : M Response :=
  user <- gets g_user ;;
  match user with
  | None => raise (AttributeError "email")
  | Some user =>
      let password := data_get (get_json req) "password" in
      if negb (validate_password user password) then
        ret (JError "Invalid password or missing password", 403)
      else
        k <- gets g_api_key ;;
        match k with
        | None => raise (AttributeError "sudo_mode_at")
        | Some k =>
            modify (with_session (with_api_keys
                      (ApiKey.update_where_id (ApiKey.id k)
                         (ApiKey.set_sudo_mode_at now)))) ;;
            modify (set_g_api_key (Some (ApiKey.set_sudo_mode_at now k))) ;;
            Session_commit ;;
            ret (JOk, 200)
        end
  end.

Definition sudo_view (req : Request) (now_auth now : timestamp) : M Response :=
  require_api_auth (enter_sudo req now) req now_auth.

(** *** Row creation *)

(** Modelled from the spec: [ApiKey.create(user_id, name)] is absent from
    the sources; it adds a key with a fresh code, zeroed usage counters
    and null elevation state, whatever keys the table holds. *)
Definition ApiKey_create (uid : Z) (device : option string)
  (new_code : string) : M ApiKey.t :=
  new_id <- gets (fun w => api_key_seq (session w)) ;;
  let k := ApiKey.fresh new_id uid device new_code in
  modify (with_session (add_api_key k)) ;;
  ret k.

(** Modelled from the spec: [AccountActivation.create(user_id, code)] is
    absent from the sources; it persists a fresh record with the full
    retry budget. *)
Definition AccountActivation_create (uid : Z) (code : string)
  : M AccountActivation.t :=
  new_id <- gets (fun w => account_activation_seq (session w)) ;;
  let a := AccountActivation.mk new_id uid code initial_tries in
  modify (with_session (add_account_activation a)) ;;
  ret a.

Definition AccountActivation_delete (i : Z) : M unit :=
  modify (with_session (with_account_activations (AccountActivation.delete i))).

(** [User.get_by(email=email) or User.get_by(email=canonical_email)] *)
Definition user_by_emails (email canonical_email : option string)
  : M (option User.t) :=
  gets (fun w =>
          or_else (User.get_by_email (users (session w)) email)
                  (User.get_by_email (users (session w)) canonical_email)).

(** *** app/api/views/auth.py *)

(** [new_code] is the code [ApiKey.create] draws if it is called. *)
Definition auth_payload (user : User.t) (device : option string)
  (new_code : string) : M Body :=
  (* do not give api_key, user can only obtain api_key after OTP verification *)
  if User.enable_otp user then
    ret (JAuthPayload (User.name_or_empty user) (User.email user)
           (User.enable_otp user)
           (Some (sign FLASK_SECRET (py_str (User.id user)))) None)
  else
    found <- gets (fun w => ApiKey.get_by_user_name (api_keys (session w))
                              (User.id user) device) ;;
    api_key <- match found with
               | Some k => ret k
               | None =>
                   k <- ApiKey_create (User.id user) device new_code ;;
                   Session_commit ;;
                   ret k
               end ;;
    (* so user is automatically logged in on the web *)
    login_user user ;;
    ret (JAuthPayload (User.name_or_empty user) (User.email user)
           (User.enable_otp user) None (Some (ApiKey.code api_key))).

Definition LoginEvent_send (a : LoginEvent.ActionType) : M unit :=
  modify (push_login_event a).

Definition auth_login (req : Request) (new_code : string) : M Response :=
  let data := get_json req in
  if empty_body data then ret (JError "Request body cannot be empty", 400)
  else
    let email := data_get data "email" in
    let password := data_get data "password" in
    let device := data_get data "device" in
    match password with
    | None =>
        (* all([email, password, device]) is false *)
        LoginEvent_send LoginEvent.failed ;;
        ret (JError "Missing required fields", 400)
    | Some pw =>
        if negb (all [truthy email; truthy password; truthy device]) then
          LoginEvent_send LoginEvent.failed ;;
          ret (JError "Missing required fields", 400)
        else
          let email := sanitize_email email in
          let canonical_email := canonicalize_email email in
          user <- user_by_emails email canonical_email ;;
          match user with
          | None =>
              LoginEvent_send LoginEvent.failed ;;
              ret (JError "Email or password incorrect", 400)
          | Some user =>
              if negb (check_password user pw) then
                LoginEvent_send LoginEvent.failed ;;
                ret (JError "Email or password incorrect", 400)
              else if User.disabled user then
                LoginEvent_send LoginEvent.disabled_login ;;
                ret (JError "Account disabled", 400)
              else if match User.delete_on user with
                      | Some _ => true
                      | None => false
                      end
              then
                LoginEvent_send LoginEvent.scheduled_to_be_deleted ;;
                ret (JError "Account scheduled for deletion", 400)
              else if negb (User.activated user) then
                LoginEvent_send LoginEvent.not_activated ;;
                ret (JError "Account not activated", 403)
              else if fido_enabled user && negb (User.enable_otp user) then
                ret (JError "FIDO authentication is not supported for this application",
                     403)
              else
                LoginEvent_send LoginEvent.success ;;
                payload <- auth_payload user device new_code ;;
                ret (payload, 200)
          end
    end.

Definition auth_activate (req : Request) : M Response :=
  let data := get_json req in
  if empty_body data then ret (JError "Request body cannot be empty", 400)
  else
    let email := data_get data "email" in
    let code := data_get data "code" in
    if negb (all [truthy email; truthy code]) then
      ret (JError "Missing required fields", 400)
    else
      let email := sanitize_email email in
      let canonical_email := canonicalize_email email in
      user <- user_by_emails email canonical_email ;;
      (* Do not use a different message to avoid exposing existing email *)
      match user with
      | None => ret (JError "Wrong email or code", 400)
      | Some user =>
          if User.activated user then ret (JError "Wrong email or code", 400)
          else
            account_activation <-
              gets (fun w => AccountActivation.get_by_user_id
                               (account_activations (session w)) (User.id user)) ;;
            match account_activation with
            | None => ret (JError "Wrong email or code", 400)
            | Some aa =>
                if negb (option_eqb String.eqb
                           (Some (AccountActivation.code aa)) code)
                then
                  (* Decrement number of tries *)
                  let tries := AccountActivation.tries aa - 1 in
                  modify (with_session (with_account_activations
                            (AccountActivation.update_where_id
                               (AccountActivation.id aa)
                               (AccountActivation.set_tries tries)))) ;;
                  Session_commit ;;
                  (* Check if too many wrong tries *)
                  if (tries =? 0)%Z then
                    AccountActivation_delete (AccountActivation.id aa) ;;
                    Session_commit ;;
                    ret (JError "Too many wrong tries", 410)
                  else ret (JError "Wrong email or code", 400)
                else
                  modify (with_session (with_users
                            (User.update_where_id (User.id user)
                               (User.set_activated true)))) ;;
                  modify (push_audit
                            (ActivateUser (User.id user) (User.email user))) ;;
                  AccountActivation_delete (AccountActivation.id aa) ;;
                  Session_commit ;;
                  ret (JMsg "Account is activated, user can login now", 200)
            end
      end.

(** [new_code] is the six digits drawn from [secrets]. *)
Definition auth_reactivate (req : Request) (new_code : string) : M Response :=
  let data := get_json req in
  if empty_body data then ret (JError "request body cannot be empty", 400)
  else
    let email := sanitize_email (data_get data "email") in
    let canonical_email := canonicalize_email (data_get data "email") in
    user <- user_by_emails email canonical_email ;;
    (* do not use a different message to avoid exposing existing email *)
    match user with
    | None => ret (JError "Something went wrong", 400)
    | Some user =>
        if User.activated user then ret (JError "Something went wrong", 400)
        else
          account_activation <-
            gets (fun w => AccountActivation.get_by_user_id
                             (account_activations (session w)) (User.id user)) ;;
          match account_activation with
          | Some aa =>
              AccountActivation_delete (AccountActivation.id aa) ;;
              Session_commit
          | None => ret tt
          end ;;
          (* create activation code *)
          AccountActivation_create (User.id user) new_code ;;
          Session_commit ;;
          modify (push_mail (CodeActivationMail email (User.id user) new_code)) ;;
          ret (JMsg "User needs to confirm their account", 200)
    end.

(** *** app/api/views/auth_mfa.py *)

(** The offsets [range(-valid_window, valid_window + 1)]. *)
Definition window_offsets (valid_window : Z) : list Z :=
  map (fun i => Z.of_nat i - valid_window)
      (seq 0 (Z.to_nat (2 * valid_window + 1))).

(** [pyotp.TOTP(secret).verify(otp, valid_window=...)] at the clock
    reading [for_time]: the submitted code is compared with the code of
    every time step of the window. *)
Definition TOTP_verify (secret : option string) (otp : string)
  (for_time : timestamp) (valid_window : Z) : bool :=
  existsb (fun i => otp =? totp_at secret for_time i)
          (window_offsets valid_window).

(** [int(s.unsign(mfa_key))]; [None] stands for the handled
    [BadSignature] and [ValueError]. *)
Definition unsign_user_id (mfa_key : string) : option Z :=
  match unsign FLASK_SECRET mfa_key with
  | Some payload => py_int payload
  | None => None
  end.

Definition auth_mfa (req : Request) (now : timestamp) (new_code : string)
  : M Response :=
  let data := get_json req in
  if empty_body data then ret (JError "Request body cannot be empty", 400)
  else
    let mfa_token := data_get data "mfa_token" in
    let mfa_key := data_get data "mfa_key" in
    let device := data_get data "device" in
    match mfa_token, mfa_key with
    | Some token, Some key =>
        if negb (all [truthy mfa_token; truthy mfa_key; truthy device]) then
          ret (JError "Missing required fields", 400)
        else
          match unsign_user_id key with
          | None => ret (JError "Invalid mfa_key", 400)
          | Some user_id =>
              user <- gets (fun w => User.get (users (session w)) user_id) ;;
              match user with
              | None => ret (JError "Invalid mfa_key", 400)
              | Some user =>
                  if negb (User.enable_otp user) then
                    ret (JError "This endpoint should only be used by users who enable MFA",
                         400)
                  else if negb (TOTP_verify (User.otp_secret user) token now 2)
                  then
                    modify (push_mail (InvalidTotpLoginMail (User.id user) "TOTP")) ;;
                    ret (JError "Wrong TOTP Token", 400)
                  else
                    found <- gets (fun w => ApiKey.get_by_user_name
                                              (api_keys (session w))
                                              (User.id user) device) ;;
                    api_key <- match found with
                               | Some k => ret k
                               | None =>
                                   k <- ApiKey_create (User.id user) device new_code ;;
                                   Session_commit ;;
                                   ret k
                               end ;;
                    (* Log the user in automatically on the web *)
                    login_user user ;;
                    ret (JMfaPayload (User.name_or_empty user) (User.email user)
                           (ApiKey.code api_key), 200)
              end
          end
    | _, _ => ret (JError "Missing required fields", 400)
    end.

(** *** app/api/views/user_info.py *)

(** The body of [create_api_key], under its [require_api_auth]
    decorator in [api_key_view]. *)
Definition create_api_key (req : Request) (new_code : string) : M Response :=
  match get_json req with
  | Some ((_ :: _) as data) =>
      if negb (dict_contains data "device") then
        ret (JError "Device name is required", 400)
      else
        user <- gets g_user ;;
        match user with
        | None => raise (AttributeError "id")
        | Some user =>
            api_key <- ApiKey_create (User.id user) (dict_get data "device")
                         new_code ;;
            Session_commit ;;
            ret (JApiKey (ApiKey.code api_key), 201)
        end
  | _ => ret (JError "Device name is required", 400)
  end.

Definition api_key_view (req : Request) (now : timestamp) (new_code : string)
  : M Response :=
  require_api_auth (create_api_key req new_code) req now.

End Views.

(** ** Properties of states *)

(** At most one key per (user, device-name) pair. *)
Definition one_key_per_device (tbl : list ApiKey.t) : Prop :=
  NoDup (map ApiKey.pair_of tbl).

Definition keys_invariant (w : World) : Prop :=
  one_key_per_device (api_keys (session w)) /\
  one_key_per_device (api_keys (committed w)).

(** A view keeps a property of the world, whatever it answers. *)
Definition preserves {A} (I : World -> Prop) (m : M A) : Prop :=
  forall w, I w -> I (snd (m w)).

(** A request that submits the non-empty strings [e] and [c] in the fields
    [email] and [code] of its body. *)
Definition submits (req : Request) (e c : string) : Prop :=
  empty_body (get_json req) = false /\
  data_get (get_json req) "email" = Some e /\ e <> "" /\
  data_get (get_json req) "code" = Some c /\ c <> "".

(** A login request with its three required fields. *)
Definition logs_in (req : Request) (e pw d : string) : Prop :=
  empty_body (get_json req) = false /\
  data_get (get_json req) "email" = Some e /\ e <> "" /\
  data_get (get_json req) "password" = Some pw /\ pw <> "" /\
  data_get (get_json req) "device" = Some d /\ d <> "".

(** An MFA submission with its three required fields. *)
Definition submits_mfa (req : Request) (token key d : string) : Prop :=
  empty_body (get_json req) = false /\
  data_get (get_json req) "mfa_token" = Some token /\ token <> "" /\
  data_get (get_json req) "mfa_key" = Some key /\ key <> "" /\
  data_get (get_json req) "device" = Some d /\ d <> "".

Section Resolution.

Context `{Collaborators}.

(** The user the views [auth_login] and [auth_activate] resolve for a
    submitted email: the lookup by the sanitized email, then by its
    canonical form. *)
Definition resolved_user (w : World) (e : string) : option User.t :=
  or_else
    (User.get_by_email (users (session w)) (sanitize_email (Some e)))
    (User.get_by_email (users (session w))
       (canonicalize_email (sanitize_email (Some e)))).

(** The user [auth_reactivate] resolves: both lookups start from the
    submitted email as it is. *)
Definition reactivation_user (w : World) (req : Request) : option User.t :=
  or_else
    (User.get_by_email (users (session w))
       (sanitize_email (data_get (get_json req) "email")))
    (User.get_by_email (users (session w))
       (canonicalize_email (data_get (get_json req) "email"))).

End Resolution.

(** ** A concrete deployment, for running the views *)

Module Demo.

Definition signed_prefix (secret : string) : string := secret ++ ".".

Definition demo_unsign (secret token : string) : option string :=
  if prefix (signed_prefix secret) token then
    Some (substring (length (signed_prefix secret))
                    (length token - length (signed_prefix secret)) token)
  else None.

Definition demo_int (s : string) : option Z :=
  match s with
  | "1" => Some 1%Z
  | "2" => Some 2%Z
  | "3" => Some 3%Z
  | "4" => Some 4%Z
  | _ => None
  end.

Definition demo_str (n : Z) : string :=
  match n with
  | 1%Z => "1"
  | 2%Z => "2"
  | 3%Z => "3"
  | 4%Z => "4"
  | _ => "0"
  end.

(** The code of a time step is the secret followed by a letter that
    names the step, thirty seconds long. *)
Definition demo_totp (secret : option string) (t : timestamp) (i : Z)
  : string :=
  (match secret with Some s => s | None => "" end)
  ++ (if (Z.even (t / seconds 30 + i)) then "e" else "o").

#[export] Instance collaborators : Collaborators :=
  {| sanitize_email := fun e => e;
     canonicalize_email := fun e => e;
     check_password := fun u p => option_eqb String.eqb (User.password u) (Some p);
     is_active := fun u =>
       match User.delete_on u with Some _ => false | None => true end;
     fido_enabled := fun _ => false;
     FLASK_SECRET := "s3cr3t";
     sign := fun secret v => signed_prefix secret ++ v;
     unsign := demo_unsign;
     py_str := demo_str;
     py_int := demo_int;
     totp_at := demo_totp;
     initial_tries := 3 |}.

(** Ann is activated and has no second factor. *)
Definition ann : User.t :=
  User.mk 1 "ann@example.org" (Some "Ann") (Some "hunter22")
          true false None false None.

(** Bob registered and has not activated his account. *)
Definition bob : User.t :=
  User.mk 2 "bob@example.org" None (Some "correct horse")
          false false None false None.

(** Eve is disabled. *)
Definition eve : User.t :=
  User.mk 3 "eve@example.org" None (Some "pa55word")
          true true None true (Some "JBSWY3DP").

(** Dan is activated and has enabled TOTP. *)
Definition dan : User.t :=
  User.mk 4 "dan@example.org" None (Some "pa55word")
          true false None true (Some "JBSWY3DP").

Definition ann_phone : ApiKey.t :=
  ApiKey.mk 1 1 "key-ann-phone" (Some "phone") 7 (Some 1000) None.

Definition eve_laptop : ApiKey.t :=
  ApiKey.mk 2 3 "key-eve-laptop" (Some "laptop") 4 None None.

Definition bob_activation : AccountActivation.t :=
  AccountActivation.mk 1 2 "123456" 1.

Definition db0 : DB :=
  mkDB [ann; bob; eve; dan] [ann_phone; eve_laptop] [bob_activation] 3 2.

Definition w0 : World := mkWorld db0 db0 None None None [] [] [].

(** The same deployment when Bob still has his three tries. *)
Definition bob_activation3 : AccountActivation.t :=
  AccountActivation.mk 1 2 "123456" 3.

Definition db3 : DB :=
  mkDB [ann; bob; eve; dan] [ann_phone; eve_laptop] [bob_activation3] 3 2.

Definition w3 : World := mkWorld db3 db3 None None None [] [] [].

Definition bearer (code : string) (body : json) : Request :=
  mkRequest (Some code) (Some body).

Definition anonymous (body : json) : Request := mkRequest None (Some body).

Definition activate (email code : string) : Request :=
  anonymous [("email", email); ("code", code)].

Definition reactivate (email : string) : Request :=
  anonymous [("email", email)].

Definition login (email pw device : string) : Request :=
  anonymous [("email", email); ("password", pw); ("device", device)].

Definition mfa (token key device : string) : Request :=
  anonymous [("mfa_token", token); ("mfa_key", key); ("device", device)].

End Demo.

(** ** Sequences of requests and further properties of states *)

Section Sequences.

Context `{Collaborators}.

(** The world after the gate has handled [req] at each of the clock
    readings [nows], in order. *)
Fixpoint authorize_requests (req : Request) (nows : list timestamp)
  (w : World) : World :=
  match nows with
  | [] => w
  | now :: rest => authorize_requests req rest (snd (authorize_request req now w))
  end.

(** The answers of [auth_activate] to the requests [reqs], handled in
    order, and the world after the last of them. *)
Fixpoint auth_activate_each (reqs : list Request) (w : World)
  : list (result Response) * World :=
  match reqs with
  | [] => ([], w)
  | req :: rest =>
      let (r, w1) := auth_activate req w in
      let (rs, w2) := auth_activate_each rest w1 in
      (r :: rs, w2)
  end.

End Sequences.

(** What a key is, apart from its usage telemetry: its primary key, its
    owner, its code, its device name and its elevation. *)
Definition credential (k : ApiKey.t)
  : Z * Z * string * option string * option timestamp :=
  (ApiKey.id k, ApiKey.user_id k, ApiKey.code k, ApiKey.name k,
   ApiKey.sudo_mode_at k).

(** At most one activation record per user. *)
Definition one_activation_per_user (tbl : list AccountActivation.t) : Prop :=
  NoDup (map AccountActivation.user_id tbl).

Definition activations_invariant (w : World) : Prop :=
  one_activation_per_user (account_activations (session w)) /\
  one_activation_per_user (account_activations (committed w)).

(** The world in which a view runs once the gate has let through a
    request that bears the code of the key [k] of the user [u]. *)
Definition passed_gate (now : timestamp) (k : ApiKey.t) (u : User.t)
  (w : World) : World :=
  set_g_api_key (Some (ApiKey.set_usage now (ApiKey.times k + 1) k))
    (set_g_user (Some u)
       (commit (with_session
                  (with_api_keys
                     (ApiKey.update_where_id (ApiKey.id k)
                        (ApiKey.set_usage now (ApiKey.times k + 1)))) w))).

(** ** The views outside the login flows

    [app/api/views/user.py], [app/api/views/notification.py],
    [app/api/views/phone.py] and the views [auth_register] and
    [handle_forgot_password] of [app/api/views/auth.py] use rows and sinks
    that the world of the login flows does not hold. *)

(** [RegisterEvent.ActionType], for the events [auth_register] sends. *)
Module RegisterEvent.

Inductive ActionType :=
| success
| failed
| invalid_email.

End RegisterEvent.

Module Job.

(** The arguments of [Job.create] in [delete_user]. *)
Record t := mk
  { name : string;
    payload_user_id : Z;
    run_at : timestamp }.

End Job.

Module ApiToCookieToken.

Record t := mk
  { user_id : Z;
    api_key_id : Z;
    code : string }.

End ApiToCookieToken.

Module Notification.

Record t := mk
  { id : Z;
    user_id : Z;
    title : option string;
    message : string;
    read : bool;
    created_at : timestamp }.

Definition set_read (b : bool) (n : t) : t :=
  mk (id n) (user_id n) (title n) (message n) b (created_at n).

(** Modelled from the spec: [Notification.get(id)], the lookup by primary
    key, absent from the sources like the other models. *)
Definition get (tbl : list t) (i : Z) : option t :=
  find (fun n => (id n =? i)%Z) tbl.

(** [Notification.filter_by(user_id=...)] *)
Definition filter_by_user_id (tbl : list t) (uid : Z) : list t :=
  filter (fun n => (user_id n =? uid)%Z) tbl.

Definition update_where_id (i : Z) (f : t -> t) (tbl : list t) : list t :=
  map (fun n => if (id n =? i)%Z then f n else n) tbl.

(** [order_by(Notification.read, Notification.created_at.desc())]: [a]
    may come before [b] when it is unread and [b] is read, or when both
    have the same flag and [a] is not older. *)
Definition precedes (a b : t) : bool :=
  if Bool.eqb (read a) (read b) then (created_at b <=? created_at a)%Z
  else negb (read a).

Fixpoint insert (n : t) (l : list t) : list t :=
  match l with
  | [] => [n]
  | m :: l' => if precedes n m then n :: l else m :: insert n l'
  end.

(** The rows in the order of the query; rows that the order does not
    tell apart keep the order of the table. *)
Definition ordered (l : list t) : list t := fold_right insert [] l.

End Notification.

Module PhoneReservation.

(** [number_id] is the key of [reservation.number]. *)
Record t := mk
  { id : Z;
    user_id : Z;
    number_id : Z;
    start : timestamp;
    end_ : timestamp }.

Definition get (tbl : list t) (i : Z) : option t :=
  find (fun r => (id r =? i)%Z) tbl.

End PhoneReservation.

Module PhoneMessage.

Record t := mk
  { id : Z;
    number_id : Z;
    from_number : string;
    body : string;
    created_at : timestamp }.

End PhoneMessage.

(** The world of the login flows, and beside it the rows and sinks of the
    other views. The three statements that write these rows commit at
    once ([commit=True]) or are followed by [Session.commit()] with
    nothing in between, so the rows are kept as the committed ones. *)
Record Site := mkSite
  { core : World;
    notifications : list Notification.t;
    phone_reservations : list PhoneReservation.t;
    phone_messages : list PhoneMessage.t;
    jobs : list Job.t;
    api_to_cookie_tokens : list ApiToCookieToken.t;
    register_events : list RegisterEvent.ActionType;
    reset_password_mails : list Z;       (* send_reset_password_email(user) *)
    deletion_audit_log : list (Z * string) }. (* UserMarkedForDeletion *)

Definition with_core (f : World -> World) (s : Site) : Site :=
  mkSite (f (core s)) (notifications s) (phone_reservations s)
         (phone_messages s) (jobs s) (api_to_cookie_tokens s)
         (register_events s) (reset_password_mails s) (deletion_audit_log s).

Definition with_notifications
  (f : list Notification.t -> list Notification.t) (s : Site) : Site :=
  mkSite (core s) (f (notifications s)) (phone_reservations s)
         (phone_messages s) (jobs s) (api_to_cookie_tokens s)
         (register_events s) (reset_password_mails s) (deletion_audit_log s).

Definition push_job (j : Job.t) (s : Site) : Site :=
  mkSite (core s) (notifications s) (phone_reservations s)
         (phone_messages s) (jobs s ++ [j]) (api_to_cookie_tokens s)
         (register_events s) (reset_password_mails s) (deletion_audit_log s).

Definition push_api_to_cookie_token (t : ApiToCookieToken.t) (s : Site) : Site :=
  mkSite (core s) (notifications s) (phone_reservations s)
         (phone_messages s) (jobs s) (api_to_cookie_tokens s ++ [t])
         (register_events s) (reset_password_mails s) (deletion_audit_log s).

Definition push_register_event (a : RegisterEvent.ActionType) (s : Site) : Site :=
  mkSite (core s) (notifications s) (phone_reservations s)
         (phone_messages s) (jobs s) (api_to_cookie_tokens s)
         (register_events s ++ [a]) (reset_password_mails s)
         (deletion_audit_log s).

Definition push_reset_password_mail (uid : Z) (s : Site) : Site :=
  mkSite (core s) (notifications s) (phone_reservations s)
         (phone_messages s) (jobs s) (api_to_cookie_tokens s)
         (register_events s) (reset_password_mails s ++ [uid])
         (deletion_audit_log s).

Definition push_deletion_audit (entry : Z * string) (s : Site) : Site :=
  mkSite (core s) (notifications s) (phone_reservations s)
         (phone_messages s) (jobs s) (api_to_cookie_tokens s)
         (register_events s) (reset_password_mails s)
         (deletion_audit_log s ++ [entry]).

(** A notification as [get_notifications] shows it. *)
Record NotificationItem := mkNotificationItem
  { item_id : Z;
    item_message : string;
    item_title : option string;
    item_read : bool;
    item_created_at : string }.

(** A message as [phone_messages] shows it. *)
Record MessageItem := mkMessageItem
  { message_id : Z;
    message_from_number : string;
    message_body : string;
    message_created_at : string }.

(** The argument of [jsonify] in these views. *)
Inductive SiteBody :=
| Core (b : Body)
| JToken (token : string)
| JDone
| JNotifications (more : bool) (notifications : list NotificationItem)
| JMessages (messages : list MessageItem) (ended : bool).

Definition SiteResponse := (SiteBody * Z)%type.

(** Views over the site: the monad of views, on the larger state. *)
Definition V (A : Type) := Site -> result A * Site.

Definition vret {A} (a : A) : V A := fun s => (Return a, s).

Definition vraise {A} (e : exn) : V A := fun s => (Raise e, s).

Definition vbind {A B} (m : V A) (f : A -> V B) : V B :=
  fun s =>
    match m s with
    | (Return a, s') => f a s'
    | (Raise e, s') => (Raise e, s')
    end.

Definition vgets {A} (f : Site -> A) : V A := fun s => (Return (f s), s).

Definition vmodify (f : Site -> Site) : V unit := fun s => (Return tt, f s).

(** [try: m except Exception as e: h e] *)
Definition vcatch {A} (m : V A) (h : exn -> V A) : V A :=
  fun s =>
    match m s with
    | (Return a, s') => (Return a, s')
    | (Raise e, s') => h e s'
    end.

(** A computation of the login flows, run on the world inside the site. *)
Definition lift {A} (m : M A) : V A :=
  fun s =>
    match m (core s) with
    | (r, w') => (r, with_core (fun _ => w') s)
    end.

Declare Scope site_scope.
Delimit Scope site_scope with site.
Notation "x <- m ;; k" := (vbind m (fun x => k))
  (at level 61, m at next level, right associativity) : site_scope.
Notation "m ;; k" := (vbind m (fun _ => k))
  (at level 61, right associativity) : site_scope.

(** Constants of [app.config] and [app.utils] and helpers of
    [app.email_utils] and [arrow] that the sources do not hold. *)
Class SiteCollaborators := mkSiteCollaborators
  { DISABLE_REGISTRATION : bool;
    email_can_be_used_as_mailbox : option string -> bool;
    personal_email_already_used : DB -> option string -> bool;
    hash_password : string -> string;  (* the hash User.create stores *)
    JOB_DELETE_ACCOUNT : string;
    HTTP_STATUS_OK : Z;
    HTTP_STATUS_SERVER_ERROR : Z;
    PAGE_LIMIT : nat;
    humanize : timestamp -> timestamp -> string }.
                     (* created_at.humanize(), read at the clock reading *)

Section SiteViews.

Context `{Collaborators} `{SiteCollaborators}.

Local Open Scope site_scope.

(** *** The decorators of app/api/base.py, around a view of the site *)

Definition site_require_api_auth (f : V SiteResponse) (req : Request)
  (now : timestamp) : V SiteResponse :=
  err <- lift (authorize_request req now) ;;
  match err with
  | Some (b, status) => vret (Core b, status)
  | None => f
  end.

Definition site_require_api_sudo (f : V SiteResponse) (req : Request)
  (now now_check : timestamp) : V SiteResponse :=
  err <- lift (authorize_request req now) ;;
  match err with
  | Some (b, status) => vret (Core b, status)
  | None =>
      k <- lift (gets g_api_key) ;;
      if check_sudo now_check k then f
      else vret (Core (JError "Sudo required"), 440)
  end.

(** *** app/api/views/user.py *)

(** [LOG_DELETE_USER % (user.id, user.email)] *)
Definition LOG_DELETE_USER (user : User.t) : string :=
  "User " ++ py_str (User.id user) ++ " (" ++ User.email user
  ++ ") marked for deletion from API".

(** Modelled from the spec: [Job.create(..., commit=True)] is absent from
    the sources; it adds the job and commits. *)
Definition Job_create (name : string) (uid : Z) (run_at : timestamp) : V unit :=
  vmodify (push_job (Job.mk name uid run_at)) ;;
  lift Session_commit.

(** The body of [delete_user], under [require_api_sudo] in
    [delete_user_view]. *)
Definition delete_user (now : timestamp) : V SiteResponse :=
  user <- lift (gets g_user) ;;
  match user with
  | None => vraise (AttributeError "id")
  | Some user =>
      vmodify (push_deletion_audit (User.id user, LOG_DELETE_USER user)) ;;
      vcatch
        (Job_create JOB_DELETE_ACCOUNT (User.id user) now ;;
         vret (Core JOk, HTTP_STATUS_OK))
        (fun _ =>
           vret (Core (JError "Failed to schedule delete job"),
                 HTTP_STATUS_SERVER_ERROR))
  end.

Definition delete_user_view (req : Request) (now_auth now_check now : timestamp)
  : V SiteResponse :=
  site_require_api_sudo (delete_user now) req now_auth now_check.

(** Modelled from the spec: [ApiToCookieToken.create(user, api_key_id,
    commit=True)] is absent from the sources; it adds a token with a
    fresh code, bound to the user and to the key, and commits. *)
Definition ApiToCookieToken_create (user : User.t) (api_key_id : Z)
  (new_code : string) : V ApiToCookieToken.t :=
  let t := ApiToCookieToken.mk (User.id user) api_key_id new_code in
  vmodify (push_api_to_cookie_token t) ;;
  lift Session_commit ;;
  vret t.

(** The body of [get_api_session_token], under [require_api_auth] in
    [cookie_token_view]. *)
Definition get_api_session_token (new_code : string) : V SiteResponse :=
  user <- lift (gets g_user) ;;
  api_key <- lift (gets g_api_key) ;;
  vcatch
    (match api_key, user with
     | Some k, Some u =>
         token <- ApiToCookieToken_create u (ApiKey.id k) new_code ;;
         vret (JToken (ApiToCookieToken.code token), HTTP_STATUS_OK)
     | _, _ => vraise (AttributeError "id")
     end)
    (fun _ =>
       match user with
       | Some _ =>
           vret (Core (JError "Failed to generate session token"),
                 HTTP_STATUS_SERVER_ERROR)
       | None => vraise (AttributeError "id")
       end).

Definition cookie_token_view (req : Request) (now : timestamp)
  (new_code : string) : V SiteResponse :=
  site_require_api_auth (get_api_session_token new_code) req now.

(** *** app/api/views/auth.py, continued *)

Definition RegisterEvent_send (a : RegisterEvent.ActionType) : V unit :=
  vmodify (push_register_event a).

(** The primary key of the next user: one more than the largest. *)
Definition next_user_id (tbl : list User.t) : Z :=
  1 + fold_right Z.max 0 (map User.id tbl).

(** Modelled from the spec: [User.create(email, name, password)] is
    absent from the sources; the user it adds is created unactivated, not
    disabled, without second factor, and holds the hash of the password. *)
Definition User_create (email name password : string) : V User.t :=
  tbl <- lift (gets (fun w => users (session w))) ;;
  let user := User.mk (next_user_id tbl) email (Some name)
                (Some (hash_password password)) false false None false None in
  lift (modify (with_session (with_users (fun t => (t ++ [user])%list)))) ;;
  vret user.

(** [f"{email}"] *)
Definition format_email (email : option string) : string :=
  match email with
  | Some s => s
  | None => "None"
  end.

(** [new_code] is the six digits drawn from [secrets]. *)
Definition auth_register (req : Request) (new_code : string) : V SiteResponse :=
  let data := get_json req in
  if empty_body data then vret (Core (JError "Request body cannot be empty"), 400)
  else
    let dirty_email := data_get data "email" in
    let password := data_get data "password" in
    match dirty_email, password with
    | Some dirty, Some pw =>
        if negb (all [truthy dirty_email; truthy password]) then
          RegisterEvent_send RegisterEvent.failed ;;
          vret (Core (JError "Missing required fields"), 400)
        else
          let email := canonicalize_email dirty_email in
          if DISABLE_REGISTRATION then
            RegisterEvent_send RegisterEvent.failed ;;
            vret (Core (JError "Registration is closed"), 403)
          else
            db <- lift (gets session) ;;
            if negb (email_can_be_used_as_mailbox email)
               || personal_email_already_used db email
            then
              RegisterEvent_send RegisterEvent.invalid_email ;;
              vret (Core (JError ("Cannot use " ++ format_email email
                                  ++ " as personal inbox")), 400)
            else if (py_len pw <? 8)%nat then
              RegisterEvent_send RegisterEvent.failed ;;
              vret (Core (JError "Password must be at least 8 characters long"),
                    400)
            else if (100 <? py_len pw)%nat then
              RegisterEvent_send RegisterEvent.failed ;;
              vret (Core (JError "Password must be at most 100 characters long"),
                    400)
            else
              match email with
              | None =>
                  (* [canonicalize_email] gives a string for a string; a
                     user without email is not a row of the table *)
                  vraise (AttributeError "email")
              | Some address =>
                  user <- User_create address dirty pw ;;
                  lift (AccountActivation_create (User.id user) new_code) ;;
                  lift Session_commit ;;
                  lift (modify (push_mail
                                  (CodeActivationMail email (User.id user)
                                     new_code))) ;;
                  RegisterEvent_send RegisterEvent.success ;;
                  vret (Core (JMsg "User needs to confirm their account"), 200)
              end
    | _, _ =>
        (* all([dirty_email, password]) is false *)
        RegisterEvent_send RegisterEvent.failed ;;
        vret (Core (JError "Missing required fields"), 400)
    end.

(** Modelled from the spec: [send_reset_password_email(user)] is absent
    from the sources; the user it is called with is recorded. *)
Definition send_reset_password_email (user : User.t) : V unit :=
  vmodify (push_reset_password_mail (User.id user)).

Definition handle_forgot_password (req : Request) : V SiteResponse :=
  let data := get_json req in
  if empty_body data || negb (truthy (data_get data "email")) then
    vret (Core (JError "Email is required"), 400)
  else
    let email := sanitize_email (data_get data "email") in
    let canonical_email := canonicalize_email email in
    user <- lift (user_by_emails email canonical_email) ;;
    match user with
    | Some u => send_reset_password_email u
    | None => vret tt
    end ;;
    (* Always return 200 to avoid revealing whether the email exists *)
    vret (Core JOk, 200).

(** *** app/api/views/notification.py *)

(** [int(request.args.get("page", 0))]; [None] stands for the handled
    [ValueError]. *)
Definition parse_page (page_arg : option string) : option Z :=
  match page_arg with
  | Some s => py_int s
  | None => Some 0%Z
  end.

Definition notification_item (now : timestamp) (n : Notification.t)
  : NotificationItem :=
  mkNotificationItem (Notification.id n) (Notification.message n)
    (Notification.title n) (Notification.read n)
    (humanize now (Notification.created_at n)).

(** The rows of the query of [get_notifications]: those of the user, in
    the order of the query, from [offset] on and at most [limit]. *)
Definition notifications_query (tbl : list Notification.t) (uid : Z)
  (limit offset : nat) : list Notification.t :=
  firstn limit
    (skipn offset
       (Notification.ordered (Notification.filter_by_user_id tbl uid))).

(** The body of [get_notifications], under [require_api_auth] in
    [notifications_view]; [page_arg] is [request.args.get("page")]. *)
Definition get_notifications (page_arg : option string) (now : timestamp)
  : V SiteResponse :=
  user <- lift (gets g_user) ;;
  match user with
  | None => vraise (AttributeError "email")
  | Some user =>
      match parse_page page_arg with
      | None => vret (Core (JError "Page must be a non-negative integer"), 400)
      | Some page =>
          if (page <? 0)%Z then
            vret (Core (JError "Page must be a non-negative integer"), 400)
          else
            rows <- vgets (fun s =>
                             notifications_query (notifications s) (User.id user)
                               (PAGE_LIMIT + 1) (Z.to_nat page * PAGE_LIMIT)) ;;
            let have_more := (PAGE_LIMIT <? List.length rows)%nat in
            vret (JNotifications have_more
                    (map (notification_item now) (firstn PAGE_LIMIT rows)),
                  200)
      end
  end.

Definition notifications_view (req : Request) (page_arg : option string)
  (now_auth now : timestamp) : V SiteResponse :=
  site_require_api_auth (get_notifications page_arg now) req now_auth.

(** The body of [mark_as_read], under [require_api_auth] in
    [mark_as_read_view]. *)
Definition mark_as_read (notification_id : Z) : V SiteResponse :=
  user <- lift (gets g_user) ;;
  match user with
  | None => vraise (AttributeError "id")
  | Some user =>
      notification <- vgets (fun s => Notification.get (notifications s)
                                        notification_id) ;;
      match notification with
      | None => vret (Core (JError "Forbidden"), 403)
      | Some n =>
          if negb (Notification.user_id n =? User.id user)%Z then
            vret (Core (JError "Forbidden"), 403)
          else
            vmodify (with_notifications
                       (Notification.update_where_id (Notification.id n)
                          (Notification.set_read true))) ;;
            lift Session_commit ;;
            vret (JDone, 200)
      end
  end.

Definition mark_as_read_view (req : Request) (notification_id : Z)
  (now_auth : timestamp) : V SiteResponse :=
  site_require_api_auth (mark_as_read notification_id) req now_auth.

(** *** app/api/views/phone.py *)

Definition get_reservation_for_user (reservation_id : Z) (user : User.t)
  : V (option PhoneReservation.t) :=
  vgets (fun s =>
           match PhoneReservation.get (phone_reservations s) reservation_id with
           | Some r =>
               if negb (PhoneReservation.user_id r =? User.id user)%Z then None
               else Some r
           | None => None
           end).

Definition get_messages_for_reservation (r : PhoneReservation.t)
  : V (list PhoneMessage.t) :=
  vgets (fun s =>
           filter (fun m =>
                     (PhoneMessage.number_id m =? PhoneReservation.number_id r)%Z
                     && (PhoneReservation.start r <? PhoneMessage.created_at m)%Z
                     && (PhoneMessage.created_at m <? PhoneReservation.end_ r)%Z)
                  (phone_messages s)).

Definition message_item (now : timestamp) (m : PhoneMessage.t) : MessageItem :=
  mkMessageItem (PhoneMessage.id m) (PhoneMessage.from_number m)
    (PhoneMessage.body m) (humanize now (PhoneMessage.created_at m)).

(** The body of [phone_messages], under [require_api_auth] in
    [phone_messages_view]; [now_humanize] is the clock as [humanize] reads
    it, [now] the later reading of [arrow.now()]. *)
Definition phone_messages_body (reservation_id : Z)
  (now_humanize now : timestamp) : V SiteResponse :=
  user <- lift (gets g_user) ;;
  match user with
  | None => vraise (AttributeError "id")
  | Some user =>
      reservation <- get_reservation_for_user reservation_id user ;;
      match reservation with
      | None =>
          vret (Core (JError "Invalid reservation or unauthorized access"), 403)
      | Some r =>
          messages <- get_messages_for_reservation r ;;
          match messages with
          | [] => vret (Core (JError "No messages found for this reservation"),
                        404)
          | _ :: _ =>
              vret (JMessages (map (message_item now_humanize) messages)
                      (PhoneReservation.end_ r <? now)%Z, 200)
          end
      end
  end.

Definition phone_messages_view (req : Request) (reservation_id : Z)
  (now_auth now_humanize now : timestamp) : V SiteResponse :=
  site_require_api_auth (phone_messages_body reservation_id now_humanize now)
    req now_auth.

End SiteViews.

(** Every row of the list comes after [n] in the order of the query. *)
Definition before_all (n : Notification.t) (l : list Notification.t) : Prop :=
  forall m, In m l -> Notification.precedes n m = true.

(** The list is in the order of the query: each row precedes the rows
    after it. *)
Fixpoint in_query_order (l : list Notification.t) : Prop :=
  match l with
  | [] => True
  | n :: l' => before_all n l' /\ in_query_order l'
  end.

(** Further states of the deployment of [Demo]. *)
Module Demo2.

(** Bob has registered and his activation record is gone. *)
Definition db_no_record : DB :=
  mkDB (users Demo.db0) (api_keys Demo.db0) [] 3 2.

Definition w_no_record : World :=
  mkWorld db_no_record db_no_record None None None [] [] [].

(** Ann is logged in on the web, without bearer credential. *)
Definition w_ann_session : World := set_login_session (Some 1%Z) Demo.w0.

End Demo2.

(** A deployment for the views outside the login flows. *)
Module SiteDemo.

Definition demo_humanize (now t : timestamp) : string :=
  if (now - t <? seconds 60)%Z then "just now" else "a while ago".

#[export] Instance site_collaborators : SiteCollaborators :=
  {| DISABLE_REGISTRATION := false;
     email_can_be_used_as_mailbox := fun e =>
       match e with
       | Some a => negb (prefix "mailer-daemon@" a)
       | None => false
       end;
     personal_email_already_used := fun db e =>
       match User.get_by_email (users db) e with
       | Some _ => true
       | None => false
       end;
     hash_password := fun p => p;
     JOB_DELETE_ACCOUNT := "delete-account";
     HTTP_STATUS_OK := 200;
     HTTP_STATUS_SERVER_ERROR := 500;
     PAGE_LIMIT := 2;
     humanize := demo_humanize |}.

(** Three notifications of Ann, one of them read, and one of Dan. *)
Definition notes : list Notification.t :=
  [ Notification.mk 1 1 None "welcome" false 100;
    Notification.mk 2 1 (Some "Update") "new release" true 300;
    Notification.mk 3 4 None "welcome" false 200;
    Notification.mk 4 1 None "alias created" false 400 ].

(** Ann has reserved number 7, Dan number 8. *)
Definition reservations : list PhoneReservation.t :=
  [ PhoneReservation.mk 1 1 7 1000 2000;
    PhoneReservation.mk 2 4 8 1000 2000 ].

(** The second message came at the very start of the reservation. *)
Definition messages : list PhoneMessage.t :=
  [ PhoneMessage.mk 1 7 "+33612345678" "your code is 1234" 1500;
    PhoneMessage.mk 2 7 "+33612345678" "too early" 1000;
    PhoneMessage.mk 3 8 "+4915112345678" "hello" 1500 ].

Definition s0 : Site := mkSite Demo.w0 notes reservations messages [] [] [] [] [].

(** Ann is logged in on the web, without bearer credential. *)
Definition s_session : Site :=
  mkSite Demo2.w_ann_session notes reservations messages [] [] [] [] [].

(** Ann's laptop has entered sudo mode at 1000. *)
Definition ann_laptop : ApiKey.t :=
  ApiKey.mk 3 1 "key-ann-laptop" (Some "laptop") 0 None (Some 1000%Z).

Definition db_sudo : DB :=
  mkDB (users Demo.db0) (api_keys Demo.db0 ++ [ann_laptop])%list
       (account_activations Demo.db0) 4 2.

Definition s_sudo : Site :=
  mkSite (mkWorld db_sudo db_sudo None None None [] [] [])
         notes reservations messages [] [] [] [] [].

Definition register (email pw : string) : Request :=
  Demo.anonymous [("email", email); ("password", pw)].

Definition forgot (email : string) : Request :=
  Demo.anonymous [("email", email)].

End SiteDemo.

(** ** Reasoning about views *)

Ltac unfold_view :=
  cbv beta delta
    [bind ret raise gets modify Session_commit login_user current_user
     LoginEvent_send AccountActivation_delete AccountActivation_create
     ApiKey_create user_by_emails] in *.

Lemma truthy_Some (s : string) : s <> "" -> truthy (Some s) = true.
Proof.
  intros Hs. unfold truthy.
  destruct (String.eqb_spec s ""); [contradiction | reflexivity].
Qed.

Lemma find_In {A} (p : A -> bool) (l : list A) (x : A) :
  find p l = Some x -> In x l /\ p x = true.
Proof. apply find_some. Qed.

Lemma In_update_where {A} (key : A -> Z) (i : Z) (f : A -> A) (l : list A) (x : A) :
  In x l -> key x = i ->
  In (f x) (map (fun y => if (key y =? i)%Z then f y else y) l).
Proof.
  intros Hin Hk. apply in_map_iff. exists x. split; [| assumption].
  rewrite Hk, Z.eqb_refl. reflexivity.
Qed.

Section Gate.

Context `{Collaborators}.

(** The account-status checks read the world and publish [g.api_key];
    they touch neither the session rows nor the committed rows. *)
Lemma account_status_checks_db (api_key : option ApiKey.t) (w : World) :
  committed (snd (account_status_checks api_key w)) = committed w /\
  session (snd (account_status_checks api_key w)) = session w.
Proof.
  unfold account_status_checks. unfold_view.
  destruct (g_user w) as [u |]; cbn; [| now split].
  destruct (User.disabled u); cbn; [now split |].
  destruct (is_active u); cbn; now split.
Qed.

(** With a bearer credential that matches the key [k], the gate records
    the usage, commits, and only then checks the account of the owner. *)
Lemma authorize_request_bearer (req : Request) (now : timestamp)
  (w : World) (k : ApiKey.t) :
  ApiKey.get_by_code (api_keys (session w)) (header_Authentication req)
    = Some k ->
  authorize_request req now w =
    account_status_checks
      (Some (ApiKey.set_usage now (ApiKey.times k + 1) k))
      (set_g_user (User.get (users (session w)) (ApiKey.user_id k))
         (commit (with_session
                    (with_api_keys
                       (ApiKey.update_where_id (ApiKey.id k)
                          (ApiKey.set_usage now (ApiKey.times k + 1))))
                    w))).
Proof.
  intros Hk. unfold authorize_request. unfold_view. rewrite Hk. reflexivity.
Qed.

(** Without a matching bearer credential the gate falls back to the
    session; the credential it publishes is [None]. *)
Lemma authorize_request_session (req : Request) (now : timestamp)
  (w w1 : World) :
  ApiKey.get_by_code (api_keys (session w)) (header_Authentication req)
    = None ->
  authorize_request req now w = (Return None, w1) ->
  g_api_key w1 = None.
Proof.
  intros Hk. unfold authorize_request, account_status_checks. unfold_view.
  rewrite Hk.
  destruct (login_session w) as [i |]; cbn; [| discriminate].
  destruct (User.get (users (session w)) i) as [u |]; cbn; [| discriminate].
  destruct (User.disabled u); cbn; [discriminate |].
  destruct (is_active u); cbn; [| discriminate].
  intros [= <-]. reflexivity.
Qed.

(** An error of the gate is a 401 or a 403. *)
Lemma authorize_request_error (req : Request) (now : timestamp)
  (w w1 : World) (e : Response) :
  authorize_request req now w = (Return (Some e), w1) ->
  e = (JError "Wrong API key", 401) \/
  e = (JError "Disabled account", 403) \/
  e = (JError "Account inactive", 401).
Proof.
  assert (Hchk : forall k w0,
             account_status_checks k w0 = (Return (Some e), w1) ->
             e = (JError "Disabled account", 403) \/
             e = (JError "Account inactive", 401)).
  { intros k w0. unfold account_status_checks. unfold_view.
    destruct (g_user w0) as [u |]; cbn; [| discriminate].
    destruct (User.disabled u); cbn; [intros [= <- _]; now left |].
    destruct (is_active u); cbn; [discriminate |].
    intros [= <- _]; now right. }
  destruct (ApiKey.get_by_code (api_keys (session w))
              (header_Authentication req)) as [k |] eqn:Hk.
  - rewrite (authorize_request_bearer _ _ _ _ Hk). intros Hr.
    right. eapply Hchk, Hr.
  - unfold authorize_request. unfold_view. rewrite Hk.
    destruct (login_session w) as [i |]; cbn.
    + destruct (User.get (users (session w)) i) as [u |]; cbn.
      * intros Hr. right. eapply Hchk. exact Hr.
      * intros [= <- _]. now left.
    + intros [= <- _]. now left.
Qed.


End Gate.

(** ** The elevation window *)

(** C2. [check_sudo] holds exactly when the credential is present, its
    [sudo_mode_at] is set, and the time elapsed since then is at most the
    five minutes of [SUDO_MODE_VALID]. An elevation stamped at [T] passes
    the check 4m59s later and fails it 5m01s later. *)
Theorem check_sudo_window :
  (forall (now : timestamp) (api_key : option ApiKey.t),
      check_sudo now api_key = true <->
      exists k at_,
        api_key = Some k /\ ApiKey.sudo_mode_at k = Some at_ /\
        (now - at_ <= minutes SUDO_MODE_VALID)%Z) /\
  (forall (T : timestamp) (k : ApiKey.t),
      check_sudo (T + (minutes 4 + seconds 59))
        (Some (ApiKey.set_sudo_mode_at T k)) = true /\
      check_sudo (T + (minutes 5 + seconds 1))
        (Some (ApiKey.set_sudo_mode_at T k)) = false).
Proof.
  split.
  - intros now [k |]; cbn.
    + destruct (ApiKey.sudo_mode_at k) as [at_ |] eqn:Hat.
      * unfold shift_minutes, minutes, seconds, SUDO_MODE_VALID.
        rewrite Z.leb_le. split.
        -- intros Hle. exists k, at_. repeat split; [exact Hat | lia].
        -- intros (k' & at' & [= <-] & Hat' & Hle).
           rewrite Hat in Hat'. injection Hat' as <-. lia.
      * split; [discriminate |].
        intros (k' & at' & [= <-] & Hat' & _). congruence.
    + split; [discriminate |]. intros (k' & at' & [=] & _).
  - intros T k.
    unfold check_sudo, shift_minutes, minutes, seconds, SUDO_MODE_VALID.
    cbn [ApiKey.sudo_mode_at ApiKey.set_sudo_mode_at].
    split; [apply Z.leb_le | apply Z.leb_gt]; lia.
Qed.

Section GateProperties.

Context `{Collaborators}.

(** C9. Once the gate has resolved an identity, a sudo-protected view
    whose credential holds no live elevation answers 440 "Sudo required"
    and is not run; a session-authenticated request carries no
    credential and always gets that answer; the errors of the gate
    itself are 401 or 403, never 440. *)
Theorem require_api_sudo_elevation_required :
  forall (f : M Response) (req : Request) (now now_check : timestamp)
         (w w1 : World),
    authorize_request req now w = (Return None, w1) ->
    (check_sudo now_check (g_api_key w1) = false ->
     require_api_sudo f req now now_check w
       = (Return (JError "Sudo required", 440), w1)) /\
    (ApiKey.get_by_code (api_keys (session w)) (header_Authentication req)
       = None ->
     require_api_sudo f req now now_check w
       = (Return (JError "Sudo required", 440), w1)) /\
    (forall req' now' w' w2 e,
        authorize_request req' now' w' = (Return (Some e), w2) ->
        require_api_sudo f req' now' now_check w' = (Return e, w2) /\
        (snd e = 401 \/ snd e = 403) /\
        e <> (JError "Sudo required", 440)).
Proof.
  intros f req now now_check w w1 Hauth.
  assert (Hsudo : check_sudo now_check (g_api_key w1) = false ->
                  require_api_sudo f req now now_check w
                    = (Return (JError "Sudo required", 440), w1)).
  { intros Hchk. unfold require_api_sudo. unfold_view.
    rewrite Hauth. cbn. rewrite Hchk. reflexivity. }
  split; [exact Hsudo | split].
  - intros Hnone. apply Hsudo.
    rewrite (authorize_request_session _ _ _ _ Hnone Hauth). reflexivity.
  - intros req' now' w' w2 e He. split.
    + unfold require_api_sudo. unfold_view. rewrite He. reflexivity.
    + destruct (authorize_request_error _ _ _ _ _ He) as [-> | [-> | ->]];
        cbn; (split; [auto | discriminate]).
Qed.

(** C3. When the bearer code of a request matches the key [k], the
    committed rows after the gate hold [k] with its counter incremented
    and its last use set to now, whatever the gate answers: also when it
    answers 403 for a disabled owner or 401 for an inactive one. *)
Theorem authorize_request_commits_usage :
  forall (req : Request) (now : timestamp) (w : World) (k : ApiKey.t),
    ApiKey.get_by_code (api_keys (session w)) (header_Authentication req)
      = Some k ->
    let k' := ApiKey.set_usage now (ApiKey.times k + 1) k in
    let w' := snd (authorize_request req now w) in
    (ApiKey.times k' = ApiKey.times k + 1 /\ ApiKey.last_used k' = Some now)%Z /\
    api_keys (committed w')
      = ApiKey.update_where_id (ApiKey.id k)
          (ApiKey.set_usage now (ApiKey.times k + 1)) (api_keys (session w)) /\
    In k' (api_keys (committed w')) /\
    (forall u,
        User.get (users (session w)) (ApiKey.user_id k) = Some u ->
        User.disabled u = true ->
        fst (authorize_request req now w)
          = Return (Some (JError "Disabled account", 403))) /\
    (forall u,
        User.get (users (session w)) (ApiKey.user_id k) = Some u ->
        User.disabled u = false -> is_active u = false ->
        fst (authorize_request req now w)
          = Return (Some (JError "Account inactive", 401))).
Proof.
  intros req now w k Hk k' w'. subst k' w'.
  rewrite (authorize_request_bearer _ _ _ _ Hk).
  split; [now split |].
  match goal with
  | |- context [account_status_checks ?a ?w0] =>
      destruct (account_status_checks_db a w0) as [Hc _]; rewrite Hc
  end.
  cbn [committed set_g_user commit with_session session api_keys with_api_keys].
  split; [reflexivity | split].
  - unfold ApiKey.get_by_code in Hk.
    destruct (header_Authentication req) as [c |]; [| discriminate].
    apply find_In in Hk. destruct Hk as [Hin _].
    unfold ApiKey.update_where_id.
    now apply (In_update_where ApiKey.id).
  - split; intros u Hu Hd.
    + unfold account_status_checks. unfold_view. cbn. rewrite Hu, Hd.
      reflexivity.
    + intros Ha. unfold account_status_checks. unfold_view. cbn.
      rewrite Hu, Hd, Ha. reflexivity.
Qed.

End GateProperties.

(** The session of Ann, without a bearer credential, cannot pass a
    sudo-protected view. *)
Lemma require_api_sudo_elevation_required_witness :
  require_api_sudo (H := Demo.collaborators) (ret (JOk, 200))
    (Demo.anonymous []) 5000 5001 (set_login_session (Some 1%Z) Demo.w0)
  = (Return (JError "Sudo required", 440),
     set_g_api_key None
       (set_g_user (Some Demo.ann) (set_login_session (Some 1%Z) Demo.w0))).
Proof.
  refine (proj1 (proj2 (require_api_sudo_elevation_required
                          (H := Demo.collaborators) (ret (JOk, 200))
                          (Demo.anonymous []) 5000 5001
                          (set_login_session (Some 1%Z) Demo.w0) _ _)) _);
    reflexivity.
Defined.

(** Eve is disabled: her request is refused and her key still counts it. *)
Lemma authorize_request_commits_usage_witness :
  In (ApiKey.mk 2 3 "key-eve-laptop" (Some "laptop") 5 (Some 5000%Z) None)
     (api_keys (committed
                  (snd (authorize_request (H := Demo.collaborators)
                          (Demo.bearer "key-eve-laptop" []) 5000 Demo.w0)))) /\
  fst (authorize_request (H := Demo.collaborators)
         (Demo.bearer "key-eve-laptop" []) 5000 Demo.w0)
  = Return (Some (JError "Disabled account", 403)).
Proof.
  pose proof (authorize_request_commits_usage (H := Demo.collaborators)
                (Demo.bearer "key-eve-laptop" []) 5000 Demo.w0
                Demo.eve_laptop eq_refl) as (_ & _ & Hin & Hdis & _).
  split.
  - exact Hin.
  - exact (Hdis Demo.eve eq_refl eq_refl).
Defined.

(** ** Account activation *)

Lemma In_delete_id (i : Z) (tbl : list AccountActivation.t) (a : AccountActivation.t) :
  In a (AccountActivation.delete i tbl) -> AccountActivation.id a <> i.
Proof.
  unfold AccountActivation.delete. intros Hin.
  apply filter_In in Hin. destruct Hin as [_ Hneq].
  apply negb_true_iff, Z.eqb_neq in Hneq. exact Hneq.
Qed.

Section Activation.

Context `{Collaborators}.

(** The view up to the lookup of the activation record. *)
Lemma auth_activate_resolved (req : Request) (e c : string) (w : World)
  (u : User.t) :
  submits req e c ->
  resolved_user w e = Some u ->
  User.activated u = false ->
  auth_activate req w =
    match AccountActivation.get_by_user_id
            (account_activations (session w)) (User.id u) with
    | None => (Return (JError "Wrong email or code", 400), w)
    | Some aa =>
        if negb (AccountActivation.code aa =? c) then
          let tries := (AccountActivation.tries aa - 1)%Z in
          let w1 :=
            commit (with_session
                      (with_account_activations
                         (AccountActivation.update_where_id
                            (AccountActivation.id aa)
                            (AccountActivation.set_tries tries))) w) in
          if (tries =? 0)%Z then
            (Return (JError "Too many wrong tries", 410),
             commit (with_session
                       (with_account_activations
                          (AccountActivation.delete (AccountActivation.id aa)))
                       w1))
          else (Return (JError "Wrong email or code", 400), w1)
        else
          (Return (JMsg "Account is activated, user can login now", 200),
           commit
             (with_session
                (with_account_activations
                   (AccountActivation.delete (AccountActivation.id aa)))
                (push_audit (ActivateUser (User.id u) (User.email u))
                   (with_session
                      (with_users
                         (User.update_where_id (User.id u)
                            (User.set_activated true))) w))))
    end.
Proof.
  intros (Hb & He & Hne & Hc & Hnc) Hu Hact.
  unfold resolved_user in Hu.
  unfold auth_activate. cbv zeta.
  rewrite Hb, He, Hc, (truthy_Some e Hne), (truthy_Some c Hnc).
  cbn [all forallb andb negb]. unfold_view. rewrite Hu, Hact.
  destruct (AccountActivation.get_by_user_id _ _) as [aa |]; [| reflexivity].
  cbn [option_eqb].
  destruct (negb (AccountActivation.code aa =? c)); [| reflexivity].
  cbv zeta. destruct (_ =? 0)%Z; reflexivity.
Qed.

(** The user a submitted email resolves to is a row of the table. *)
Lemma resolved_user_In (w : World) (e : string) (u : User.t) :
  resolved_user w e = Some u -> In u (users (session w)).
Proof.
  unfold resolved_user, or_else, User.get_by_email. intros Hu.
  destruct (sanitize_email (Some e)) as [s |];
    [destruct (find _ _) eqn:Hf |].
  - injection Hu as <-. now apply find_In in Hf.
  - destruct (canonicalize_email (Some s)); [| discriminate].
    now apply find_In in Hu.
  - destruct (canonicalize_email None); [| discriminate].
    now apply find_In in Hu.
Qed.

(** The lookup of a user by email after an update of the found user that
    keeps every email. *)
Lemma get_by_email_update (tbl : list User.t) (e : option string) (i : Z)
  (f : User.t -> User.t) :
  (forall r, User.email (f r) = User.email r) ->
  User.get_by_email (User.update_where_id i f tbl) e
    = option_map (fun u => if (User.id u =? i)%Z then f u else u)
        (User.get_by_email tbl e).
Proof.
  intros Hf. unfold User.get_by_email, User.update_where_id.
  destruct e as [s |]; [| reflexivity].
  induction tbl as [| r tbl IH]; cbn [find map]; [reflexivity |].
  assert (Hr : (User.email (if (User.id r =? i)%Z then f r else r) =? s)
               = (User.email r =? s)).
  { destruct (User.id r =? i)%Z; [rewrite Hf |]; reflexivity. }
  rewrite Hr. destruct (User.email r =? s); [reflexivity | exact IH].
Qed.

Lemma get_by_user_id_update (tbl : list AccountActivation.t) (uid n : Z)
  (aa : AccountActivation.t) :
  AccountActivation.get_by_user_id tbl uid = Some aa ->
  AccountActivation.get_by_user_id
    (AccountActivation.update_where_id (AccountActivation.id aa)
       (AccountActivation.set_tries n) tbl) uid
    = Some (AccountActivation.set_tries n aa).
Proof.
  unfold AccountActivation.get_by_user_id, AccountActivation.update_where_id.
  induction tbl as [| r tbl IH]; cbn [find map]; [discriminate |].
  destruct (AccountActivation.user_id r =? uid)%Z eqn:Hr.
  - intros [= ->]. rewrite Z.eqb_refl. cbn. rewrite Hr. reflexivity.
  - intros Hfind.
    assert (Hr' : (AccountActivation.user_id
                     (if (AccountActivation.id r =? AccountActivation.id aa)%Z
                      then AccountActivation.set_tries n r else r) =? uid)%Z
                  = false).
    { destruct (AccountActivation.id r =? AccountActivation.id aa)%Z; exact Hr. }
    rewrite Hr'. exact (IH Hfind).
Qed.

(** C1. For an unactivated user with a live activation record, a wrong
    code decrements [tries] by one: the committed record of the user has
    one try less and the user stays unactivated; when the tries reach
    zero the record is deleted and the answer is 410 "Too many wrong
    tries", otherwise the answer is the generic 400 "Wrong email or
    code". The right code answers 200, deletes the record and sets
    [activated]: the committed row of the user has [activated = true]
    and is otherwise the row it was, every other row is untouched, and
    the email resolves to an activated user afterwards. *)
Theorem auth_activate_verifies :
  forall (req : Request) (e c : string) (w : World) (u : User.t)
         (aa : AccountActivation.t),
    submits req e c ->
    resolved_user w e = Some u ->
    User.activated u = false ->
    AccountActivation.get_by_user_id
      (account_activations (session w)) (User.id u) = Some aa ->
    let w' := snd (auth_activate req w) in
    let decremented :=
      AccountActivation.update_where_id (AccountActivation.id aa)
        (AccountActivation.set_tries (AccountActivation.tries aa - 1))
        (account_activations (session w)) in
    let spent :=
      AccountActivation.mk (AccountActivation.id aa)
        (AccountActivation.user_id aa) (AccountActivation.code aa)
        (AccountActivation.tries aa - 1) in
    let activated_row :=
      User.mk (User.id u) (User.email u) (User.name u) (User.password u) true
        (User.disabled u) (User.delete_on u) (User.enable_otp u)
        (User.otp_secret u) in
    (c <> AccountActivation.code aa ->
     (AccountActivation.tries aa - 1 = 0 ->
      fst (auth_activate req w) = Return (JError "Too many wrong tries", 410) /\
      account_activations (committed w')
        = AccountActivation.delete (AccountActivation.id aa) decremented /\
      (forall a, In a (account_activations (committed w')) ->
                 AccountActivation.id a <> AccountActivation.id aa)) /\
     (AccountActivation.tries aa - 1 <> 0 ->
      fst (auth_activate req w) = Return (JError "Wrong email or code", 400) /\
      account_activations (committed w') = decremented /\
      In (AccountActivation.set_tries (AccountActivation.tries aa - 1) aa)
         (account_activations (committed w')) /\
      In spent (account_activations (committed w')) /\
      AccountActivation.get_by_user_id
        (account_activations (committed w')) (User.id u) = Some spent /\
      AccountActivation.tries spent = AccountActivation.tries aa - 1) /\
     users (committed w') = users (session w) /\
     resolved_user w' e = Some u /\
     audit_log w' = audit_log w)%Z /\
    (c = AccountActivation.code aa ->
     fst (auth_activate req w)
       = Return (JMsg "Account is activated, user can login now", 200) /\
     account_activations (committed w')
       = AccountActivation.delete (AccountActivation.id aa)
           (account_activations (session w)) /\
     (forall a, In a (account_activations (committed w')) ->
                AccountActivation.id a <> AccountActivation.id aa) /\
     users (committed w')
       = User.update_where_id (User.id u) (User.set_activated true)
           (users (session w)) /\
     In (User.set_activated true u) (users (committed w')) /\
     audit_log w'
       = (audit_log w ++ [ActivateUser (User.id u) (User.email u)])%list /\
     In activated_row (users (committed w')) /\
     User.activated activated_row = true /\
     (forall v, In v (users (committed w')) -> User.id v = User.id u ->
                User.activated v = true) /\
     (forall v, In v (users (committed w')) -> User.id v <> User.id u ->
                In v (users (session w))) /\
     resolved_user w' e = Some activated_row).
Proof.
  intros req e c w u aa Hsub Hu Hact Haa w' decremented spent activated_row.
  pose proof (resolved_user_In w e u Hu) as Hin.
  subst w'. rewrite (auth_activate_resolved req e c w u Hsub Hu Hact), Haa.
  split.
  - intros Hneq.
    destruct (String.eqb_spec (AccountActivation.code aa) c) as [Heq | _];
      [congruence |].
    cbn [negb]. cbv zeta.
    destruct (Z.eqb_spec (AccountActivation.tries aa - 1) 0) as [Hz | Hnz].
    + cbn [fst snd]. split; [| split; [| split; [| split]]];
        try reflexivity; try (intros; contradiction); try exact Hu.
      intros _. split; [reflexivity | split; [reflexivity |]].
      intros a. apply In_delete_id.
    + cbn [fst snd]. split; [| split; [| split; [| split]]];
        try reflexivity; try (intros; contradiction); try exact Hu.
      intros _. split; [reflexivity | split; [reflexivity |]].
      pose proof Haa as Hfound. apply find_In in Hfound.
      destruct Hfound as [Hinaa _].
      split; [now apply (In_update_where AccountActivation.id) |].
      split; [exact (In_update_where AccountActivation.id _ _ _ aa Hinaa eq_refl) |].
      split; [| reflexivity].
      exact (get_by_user_id_update _ _ _ _ Haa).
  - intros ->. rewrite String.eqb_refl. cbn [negb fst snd].
    set (w1 := commit _).
    assert (Husers : users (committed w1)
                     = User.update_where_id (User.id u)
                         (User.set_activated true) (users (session w)))
      by reflexivity.
    assert (Hrow : In activated_row (users (committed w1))).
    { rewrite Husers.
      exact (In_update_where User.id _ _ _ u Hin eq_refl). }
    split; [reflexivity |]. split; [reflexivity |].
    split; [intros a; apply In_delete_id |].
    split; [exact Husers |].
    split; [exact Hrow |].
    split; [reflexivity |].
    split; [exact Hrow |].
    split; [reflexivity |].
    split; [| split].
    + intros v Hv Hid. rewrite Husers in Hv.
      unfold User.update_where_id in Hv. apply in_map_iff in Hv.
      destruct Hv as (r & <- & _).
      destruct (Z.eqb_spec (User.id r) (User.id u)) as [_ | Hne];
        [reflexivity |].
      contradiction.
    + intros v Hv Hid. rewrite Husers in Hv.
      unfold User.update_where_id in Hv. apply in_map_iff in Hv.
      destruct Hv as (r & <- & Hr).
      destruct (Z.eqb_spec (User.id r) (User.id u)) as [Heq | _];
        [| exact Hr].
      exfalso. apply Hid. exact Heq.
    + unfold resolved_user in *.
      change (users (session w1))
        with (User.update_where_id (User.id u) (User.set_activated true)
                (users (session w))).
      rewrite !get_by_email_update by reflexivity.
      destruct (User.get_by_email (users (session w))
                  (sanitize_email (Some e))) as [v |] eqn:Hfirst.
      * cbn [or_else] in Hu. injection Hu as ->.
        cbn [option_map or_else]. rewrite Z.eqb_refl. reflexivity.
      * cbn [or_else] in Hu. rewrite Hu.
        cbn [option_map or_else]. rewrite Z.eqb_refl. reflexivity.
Qed.

End Activation.

(** With one try left a wrong code exhausts Bob's activation record, with
    three tries left it costs him one, and the code of the record
    activates him. *)
Lemma auth_activate_verifies_witness :
  fst (auth_activate (H := Demo.collaborators)
         (Demo.activate "bob@example.org" "000000") Demo.w0)
    = Return (JError "Too many wrong tries", 410) /\
  (fst (auth_activate (H := Demo.collaborators)
          (Demo.activate "bob@example.org" "000000") Demo.w3)
     = Return (JError "Wrong email or code", 400) /\
   account_activations
     (committed (snd (auth_activate (H := Demo.collaborators)
                        (Demo.activate "bob@example.org" "000000") Demo.w3)))
     = [AccountActivation.mk 1 2 "123456" 2]) /\
  fst (auth_activate (H := Demo.collaborators)
         (Demo.activate "bob@example.org" "123456") Demo.w0)
    = Return (JMsg "Account is activated, user can login now", 200) /\
  In (User.mk 2 "bob@example.org" None (Some "correct horse")
        true false None false None)
     (users (committed (snd (auth_activate (H := Demo.collaborators)
                               (Demo.activate "bob@example.org" "123456")
                               Demo.w0)))).
Proof.
  assert (Hsub : forall c, c <> "" ->
                   submits (Demo.activate "bob@example.org" c)
                     "bob@example.org" c).
  { intros c Hc. unfold submits. cbn.
    repeat split; try assumption; discriminate. }
  split; [| split].
  - refine (proj1 (proj1 (proj1 (auth_activate_verifies
                                   (H := Demo.collaborators)
                                   (Demo.activate "bob@example.org" "000000")
                                   "bob@example.org" "000000" Demo.w0 Demo.bob
                                   Demo.bob_activation
                                   (Hsub "000000" ltac:(discriminate))
                                   eq_refl eq_refl eq_refl) _) _)).
    + discriminate.
    + reflexivity.
  - destruct (proj1 (proj2 (proj1 (auth_activate_verifies
                                     (H := Demo.collaborators)
                                     (Demo.activate "bob@example.org" "000000")
                                     "bob@example.org" "000000" Demo.w3 Demo.bob
                                     Demo.bob_activation3
                                     (Hsub "000000" ltac:(discriminate))
                                     eq_refl eq_refl eq_refl)
                                  ltac:(discriminate)))
                ltac:(discriminate)) as (Hresp & Htbl & _).
    split; [exact Hresp | exact Htbl].
  - destruct (proj2 (auth_activate_verifies
                       (H := Demo.collaborators)
                       (Demo.activate "bob@example.org" "123456")
                       "bob@example.org" "123456" Demo.w0 Demo.bob
                       Demo.bob_activation
                       (Hsub "123456" ltac:(discriminate))
                       eq_refl eq_refl eq_refl) eq_refl)
      as (Hresp & _ & _ & _ & _ & _ & Hrow & _).
    split; [exact Hresp | exact Hrow].
Defined.

(** Deleting the only activation record of a user leaves none to find. *)
Lemma get_by_user_id_deleted (uid i : Z) (n : Z) (tbl : list AccountActivation.t) :
  (forall a, In a tbl ->
             AccountActivation.user_id a = uid -> AccountActivation.id a = i) ->
  AccountActivation.get_by_user_id
    (AccountActivation.delete i
       (AccountActivation.update_where_id i (AccountActivation.set_tries n) tbl))
    uid = None.
Proof.
  unfold AccountActivation.get_by_user_id, AccountActivation.delete,
    AccountActivation.update_where_id.
  induction tbl as [| a tbl IH]; intros Honly; [reflexivity |].
  cbn [map filter].
  assert (IH' := IH (fun b Hb => Honly b (or_intror Hb))).
  destruct (Z.eqb_spec (AccountActivation.id a) i) as [Hid | Hid].
  - cbn [AccountActivation.set_tries AccountActivation.id].
    rewrite (proj2 (Z.eqb_eq _ _) Hid). cbn [negb]. exact IH'.
  - rewrite (proj2 (Z.eqb_neq _ _) Hid). cbn [negb find].
    destruct (Z.eqb_spec (AccountActivation.user_id a) uid) as [Hu | _].
    + exfalso. apply Hid. apply Honly; [now left | exact Hu].
    + exact IH'.
Qed.

Section ActivationAfterExhaustion.

Context `{Collaborators}.

(** C4, amended. When a wrong code uses up the last try of the only
    activation record of a user, the answer is 410 "Too many wrong tries"
    and the record is gone; any later submission for that user, the
    right code included, finds no record and gets the generic 400
    "Wrong email or code", the answer of a mismatch. *)
Theorem auth_activate_after_exhaustion :
  forall (req_wrong req_again : Request) (e c c' : string) (w : World)
         (u : User.t) (aa : AccountActivation.t),
    submits req_wrong e c ->
    submits req_again e c' ->
    resolved_user w e = Some u ->
    User.activated u = false ->
    AccountActivation.get_by_user_id
      (account_activations (session w)) (User.id u) = Some aa ->
    (forall a, In a (account_activations (session w)) ->
               AccountActivation.user_id a = User.id u ->
               AccountActivation.id a = AccountActivation.id aa) ->
    c <> AccountActivation.code aa ->
    AccountActivation.tries aa = 1%Z ->
    let w1 := snd (auth_activate req_wrong w) in
    fst (auth_activate req_wrong w)
      = Return (JError "Too many wrong tries", 410) /\
    auth_activate req_again w1
      = (Return (JError "Wrong email or code", 400), w1).
Proof.
  intros req_wrong req_again e c c' w u aa Hw Ha Hu Hact Haa Honly Hneq Htries w1.
  subst w1. rewrite (auth_activate_resolved req_wrong e c w u Hw Hu Hact), Haa.
  destruct (String.eqb_spec (AccountActivation.code aa) c) as [Heq | _];
    [congruence |].
  cbn [negb]. cbv zeta. rewrite Htries. cbn [Z.sub Z.add Z.opp Z.pos_sub Z.eqb fst snd].
  split; [reflexivity |].
  match goal with
  | |- auth_activate _ ?w1 = _ =>
      rewrite (auth_activate_resolved req_again e c' w1 u Ha Hu Hact)
  end.
  cbn [session commit with_session with_account_activations account_activations].
  rewrite (get_by_user_id_deleted _ _ _ _ Honly). reflexivity.
Qed.

End ActivationAfterExhaustion.

(** Bob's last try is used up by a wrong code; the code of his record is
    then answered like any mismatch. *)
Lemma auth_activate_after_exhaustion_witness :
  fst (auth_activate (H := Demo.collaborators)
         (Demo.activate "bob@example.org" "000000") Demo.w0)
    = Return (JError "Too many wrong tries", 410) /\
  fst (auth_activate (H := Demo.collaborators)
         (Demo.activate "bob@example.org" "123456")
         (snd (auth_activate (H := Demo.collaborators)
                 (Demo.activate "bob@example.org" "000000") Demo.w0)))
    = Return (JError "Wrong email or code", 400).
Proof.
  pose proof (auth_activate_after_exhaustion (H := Demo.collaborators)
                (Demo.activate "bob@example.org" "000000")
                (Demo.activate "bob@example.org" "123456")
                "bob@example.org" "000000" "123456" Demo.w0 Demo.bob
                Demo.bob_activation) as Hthm.
  assert (Hwrong : submits (Demo.activate "bob@example.org" "000000")
                     "bob@example.org" "000000").
  { unfold submits. repeat split; try reflexivity; discriminate. }
  assert (Hright : submits (Demo.activate "bob@example.org" "123456")
                     "bob@example.org" "123456").
  { unfold submits. repeat split; try reflexivity; discriminate. }
  assert (Honly : forall a,
             In a (account_activations (session Demo.w0)) ->
             AccountActivation.user_id a = User.id Demo.bob ->
             AccountActivation.id a = AccountActivation.id Demo.bob_activation).
  { intros a [<- | []] _. reflexivity. }
  specialize (Hthm Hwrong Hright eq_refl eq_refl eq_refl Honly
                ltac:(discriminate) eq_refl).
  destruct Hthm as [H410 Hagain]. split.
  - exact H410.
  - rewrite Hagain. reflexivity.
Defined.

(** C4 as stated fails: after the exhausting submission the right code is
    not answered 410 but with the generic 400 of a mismatch. *)
Lemma exhausted_right_code_counterexample :
  fst (auth_activate (H := Demo.collaborators)
         (Demo.activate "bob@example.org" "000000") Demo.w0)
    = Return (JError "Too many wrong tries", 410) /\
  account_activations
    (committed (snd (auth_activate (H := Demo.collaborators)
                       (Demo.activate "bob@example.org" "000000") Demo.w0)))
    = [] /\
  fst (auth_activate (H := Demo.collaborators)
         (Demo.activate "bob@example.org" "123456")
         (snd (auth_activate (H := Demo.collaborators)
                 (Demo.activate "bob@example.org" "000000") Demo.w0)))
    <> Return (JError "Too many wrong tries", 410) /\
  fst (auth_activate (H := Demo.collaborators)
         (Demo.activate "bob@example.org" "123456")
         (snd (auth_activate (H := Demo.collaborators)
                 (Demo.activate "bob@example.org" "000000") Demo.w0)))
    = Return (JError "Wrong email or code", 400).
Proof.
  split; [reflexivity | split; [reflexivity | split; [| reflexivity]]].
  intros Heq. vm_compute in Heq. discriminate Heq.
Qed.

(** C6 as stated fails: the answer for an email nobody has is an error,
    not the success-shaped answer an unactivated account gets. *)
Lemma auth_reactivate_unknown_email_counterexample :
  fst (auth_reactivate (H := Demo.collaborators)
         (Demo.reactivate "nobody@example.org") "654321" Demo.w0)
    = Return (JError "Something went wrong", 400) /\
  fst (auth_reactivate (H := Demo.collaborators)
         (Demo.reactivate "bob@example.org") "654321" Demo.w0)
    = Return (JMsg "User needs to confirm their account", 200) /\
  fst (auth_reactivate (H := Demo.collaborators)
         (Demo.reactivate "nobody@example.org") "654321" Demo.w0)
    <> fst (auth_reactivate (H := Demo.collaborators)
              (Demo.reactivate "bob@example.org") "654321" Demo.w0).
Proof.
  split; [reflexivity | split; [reflexivity |]].
  intros Heq. vm_compute in Heq. discriminate Heq.
Qed.

(** ** Login *)

Section Login.

Context `{Collaborators}.

(** C10. With the three required fields present, [auth_login] gives one
    and the same answer, 400 "Email or password incorrect", and sends
    the same failed-login event, when no user has the submitted email
    and when the password check of that user fails. *)
Theorem auth_login_uniform_failure :
  forall (req : Request) (e pw d new_code : string) (w : World),
    logs_in req e pw d ->
    (resolved_user w e = None ->
     auth_login req new_code w
       = (Return (JError "Email or password incorrect", 400),
          push_login_event LoginEvent.failed w)) /\
    (forall u, resolved_user w e = Some u ->
               check_password u pw = false ->
               auth_login req new_code w
                 = (Return (JError "Email or password incorrect", 400),
                    push_login_event LoginEvent.failed w)).
Proof.
  intros req e pw d new_code w (Hb & He & Hne & Hp & Hnp & Hd & Hnd).
  unfold resolved_user.
  split; [intros Hu | intros u Hu Hpw];
    unfold auth_login; cbv zeta;
    rewrite Hb, He, Hp, Hd,
      (truthy_Some e Hne), (truthy_Some pw Hnp), (truthy_Some d Hnd);
    cbn [all forallb andb negb]; unfold_view; rewrite Hu.
  - reflexivity.
  - rewrite Hpw. reflexivity.
Qed.

End Login.

(** Nobody has the first email; Ann has the second and another password. *)
Lemma auth_login_uniform_failure_witness :
  auth_login (H := Demo.collaborators)
    (Demo.login "nobody@example.org" "hunter22" "phone") "k" Demo.w0
  = auth_login (H := Demo.collaborators)
      (Demo.login "ann@example.org" "letmein" "phone") "k" Demo.w0.
Proof.
  assert (Hfields : forall e pw, e <> "" -> pw <> "" ->
                      logs_in (Demo.login e pw "phone") e pw "phone").
  { intros e pw He Hpw. unfold logs_in, Demo.login, Demo.anonymous. cbn.
    repeat split; try assumption; discriminate. }
  rewrite (proj1 (auth_login_uniform_failure (H := Demo.collaborators)
                    (Demo.login "nobody@example.org" "hunter22" "phone")
                    "nobody@example.org" "hunter22" "phone" "k" Demo.w0
                    (Hfields "nobody@example.org" "hunter22"
                       ltac:(discriminate) ltac:(discriminate)))
                 eq_refl).
  rewrite (proj2 (auth_login_uniform_failure (H := Demo.collaborators)
                    (Demo.login "ann@example.org" "letmein" "phone")
                    "ann@example.org" "letmein" "phone" "k" Demo.w0
                    (Hfields "ann@example.org" "letmein"
                       ltac:(discriminate) ltac:(discriminate)))
                 Demo.ann eq_refl eq_refl).
  reflexivity.
Defined.

(** ** The second factor *)

Section Mfa.

Context `{Collaborators}.

(** The window of [valid_window=2] is the five steps from two before to
    two after the current one. *)
Lemma TOTP_verify_window (secret : option string) (otp : string)
  (t : timestamp) :
  TOTP_verify secret otp t 2 = true <->
  exists i : Z, (-2 <= i <= 2)%Z /\ otp = totp_at secret t i.
Proof.
  unfold TOTP_verify.
  change (window_offsets 2) with [-2; -1; 0; 1; 2]%Z.
  cbn [existsb]. rewrite !orb_true_iff, !String.eqb_eq. split.
  - intros [Hm | [Hm | [Hm | [Hm | [Hm | Hm]]]]]; try discriminate Hm;
      eexists; (split; [| exact Hm]); lia.
  - intros (i & Hi & Hm).
    assert (Hcases : (i = -2 \/ i = -1 \/ i = 0 \/ i = 1 \/ i = 2)%Z) by lia.
    destruct Hcases as [-> | [-> | [-> | [-> | ->]]]]; tauto.
Qed.

(** C7. With its three fields present, [auth_mfa] rejects with a 400
    and changes nothing when the signature of the exchange token does
    not validate, when its payload is not an integer, when no user has
    the referenced id, and when that user has not enabled MFA; when the
    submitted code matches none of the five time steps of the window of
    plus or minus 2, it answers 400 "Wrong TOTP Token" and the outbox
    holds one more mail, the invalid-TOTP notification for that user,
    while the rows, the login session and everything else stay as they
    were. No key is issued and no session is opened in any of these
    cases. *)
Theorem auth_mfa_fails_closed :
  forall (req : Request) (token key d : string) (now : timestamp)
         (new_code : string) (w : World),
    submits_mfa req token key d ->
    (unsign FLASK_SECRET key = None ->
     auth_mfa req now new_code w = (Return (JError "Invalid mfa_key", 400), w)) /\
    (forall payload,
        unsign FLASK_SECRET key = Some payload -> py_int payload = None ->
        auth_mfa req now new_code w = (Return (JError "Invalid mfa_key", 400), w)) /\
    (forall uid,
        unsign_user_id key = Some uid ->
        User.get (users (session w)) uid = None ->
        auth_mfa req now new_code w = (Return (JError "Invalid mfa_key", 400), w)) /\
    (forall uid u,
        unsign_user_id key = Some uid ->
        User.get (users (session w)) uid = Some u ->
        User.enable_otp u = false ->
        auth_mfa req now new_code w
          = (Return (JError "This endpoint should only be used by users who enable MFA",
                     400), w)) /\
    (forall uid u,
        unsign_user_id key = Some uid ->
        User.get (users (session w)) uid = Some u ->
        User.enable_otp u = true ->
        (forall i : Z, (-2 <= i <= 2)%Z ->
                       token <> totp_at (User.otp_secret u) now i) ->
        let w' := snd (auth_mfa req now new_code w) in
        auth_mfa req now new_code w
          = (Return (JError "Wrong TOTP Token", 400),
             push_mail (InvalidTotpLoginMail (User.id u) "TOTP") w) /\
        outbox w'
          = (outbox w ++ [InvalidTotpLoginMail (User.id u) "TOTP"])%list /\
        In (InvalidTotpLoginMail (User.id u) "TOTP") (outbox w') /\
        List.length (outbox w') = S (List.length (outbox w)) /\
        session w' = session w /\
        committed w' = committed w /\
        login_session w' = login_session w /\
        g_user w' = g_user w /\
        g_api_key w' = g_api_key w /\
        login_events w' = login_events w /\
        audit_log w' = audit_log w).
Proof.
  intros req token key d now new_code w (Hb & Ht & Hnt & Hk & Hnk & Hd & Hnd).
  assert (Hfields :
            negb (all [truthy (Some token); truthy (Some key); truthy (Some d)])
            = false).
  { rewrite (truthy_Some token Hnt), (truthy_Some key Hnk),
      (truthy_Some d Hnd). reflexivity. }
  split; [| split; [| split; [| split]]].
  - intros Hu. unfold auth_mfa. cbv zeta. rewrite Hb, Ht, Hk, Hd, Hfields.
    unfold unsign_user_id. rewrite Hu. reflexivity.
  - intros payload Hu Hp. unfold auth_mfa. cbv zeta.
    rewrite Hb, Ht, Hk, Hd, Hfields.
    unfold unsign_user_id. rewrite Hu, Hp. reflexivity.
  - intros uid Hid Hu. unfold auth_mfa. cbv zeta.
    rewrite Hb, Ht, Hk, Hd, Hfields, Hid. unfold_view. rewrite Hu.
    reflexivity.
  - intros uid u Hid Hu Hotp. unfold auth_mfa. cbv zeta.
    rewrite Hb, Ht, Hk, Hd, Hfields, Hid. unfold_view. rewrite Hu, Hotp.
    reflexivity.
  - intros uid u Hid Hu Hotp Hwin.
    assert (Hv : TOTP_verify (User.otp_secret u) token now 2 = false).
    { destruct (TOTP_verify (User.otp_secret u) token now 2) eqn:Hv;
        [| reflexivity].
      apply TOTP_verify_window in Hv. destruct Hv as (i & Hi & Hm).
      exfalso. exact (Hwin i Hi Hm). }
    assert (Hrun : auth_mfa req now new_code w
                   = (Return (JError "Wrong TOTP Token", 400),
                      push_mail (InvalidTotpLoginMail (User.id u) "TOTP") w)).
    { unfold auth_mfa. cbv zeta.
      rewrite Hb, Ht, Hk, Hd, Hfields, Hid. unfold_view.
      rewrite Hu, Hotp, Hv. reflexivity. }
    cbv zeta. rewrite Hrun. cbn [snd].
    split; [reflexivity |].
    split; [reflexivity |].
    split; [cbn [outbox push_mail]; apply in_or_app; right; now left |].
    split; [cbn [outbox push_mail]; rewrite length_app; cbn; lia |].
    repeat split.
Qed.

End Mfa.

(** Ann has no second factor, a forged token has no valid signature, and
    no letter [x] ends a code of Dan's secret. *)
Lemma auth_mfa_fails_closed_witness :
  auth_mfa (H := Demo.collaborators)
    (Demo.mfa "JBSWY3DPx" "forged.4" "tablet") 0 "k9" Demo.w0
    = (Return (JError "Invalid mfa_key", 400), Demo.w0) /\
  auth_mfa (H := Demo.collaborators)
    (Demo.mfa "JBSWY3DPx" "s3cr3t.1" "tablet") 0 "k9" Demo.w0
    = (Return (JError "This endpoint should only be used by users who enable MFA",
               400), Demo.w0) /\
  fst (auth_mfa (H := Demo.collaborators)
         (Demo.mfa "JBSWY3DPx" "s3cr3t.4" "tablet") 0 "k9" Demo.w0)
    = Return (JError "Wrong TOTP Token", 400) /\
  outbox (snd (auth_mfa (H := Demo.collaborators)
                 (Demo.mfa "JBSWY3DPx" "s3cr3t.4" "tablet") 0 "k9" Demo.w0))
    = [InvalidTotpLoginMail 4 "TOTP"].
Proof.
  assert (Hfields : forall key, key <> "" ->
                      submits_mfa (Demo.mfa "JBSWY3DPx" key "tablet")
                        "JBSWY3DPx" key "tablet").
  { intros key Hkey. unfold submits_mfa. cbn.
    repeat split; try assumption; discriminate. }
  split; [| split].
  - exact (proj1 (auth_mfa_fails_closed (H := Demo.collaborators)
                    (Demo.mfa "JBSWY3DPx" "forged.4" "tablet")
                    "JBSWY3DPx" "forged.4" "tablet" 0 "k9" Demo.w0
                    (Hfields "forged.4" ltac:(discriminate))) eq_refl).
  - exact (proj1 (proj2 (proj2 (proj2
             (auth_mfa_fails_closed (H := Demo.collaborators)
                (Demo.mfa "JBSWY3DPx" "s3cr3t.1" "tablet")
                "JBSWY3DPx" "s3cr3t.1" "tablet" 0 "k9" Demo.w0
                (Hfields "s3cr3t.1" ltac:(discriminate))))))
             1%Z Demo.ann eq_refl eq_refl eq_refl).
  - assert (Hwin : forall i : Z, (-2 <= i <= 2)%Z ->
                     "JBSWY3DPx" <> totp_at (Collaborators := Demo.collaborators)
                                      (User.otp_secret Demo.dan) 0 i).
    { intros i _. cbn. unfold Demo.demo_totp.
      destruct (Z.even _); discriminate. }
    destruct (proj2 (proj2 (proj2 (proj2
               (auth_mfa_fails_closed (H := Demo.collaborators)
                  (Demo.mfa "JBSWY3DPx" "s3cr3t.4" "tablet")
                  "JBSWY3DPx" "s3cr3t.4" "tablet" 0 "k9" Demo.w0
                  (Hfields "s3cr3t.4" ltac:(discriminate))))))
               4%Z Demo.dan eq_refl eq_refl eq_refl Hwin)
      as (Hrun & Hout & _).
    split; [exact (f_equal fst Hrun) | exact Hout].
Defined.

(** ** One key per device *)

Lemma option_eqb_string_eq (x y : option string) :
  option_eqb String.eqb x y = true <-> x = y.
Proof.
  destruct x as [a |], y as [b |]; cbn; try (split; congruence).
  rewrite String.eqb_eq. split; congruence.
Qed.

Lemma owned_by_pair (uid : Z) (device : option string) (k : ApiKey.t) :
  ApiKey.owned_by uid device k = true <-> ApiKey.pair_of k = (uid, device).
Proof.
  unfold ApiKey.owned_by, ApiKey.pair_of.
  rewrite andb_true_iff, Z.eqb_eq, option_eqb_string_eq.
  split; [intros [-> ->]; reflexivity | intros [= -> ->]; now split].
Qed.

(** The key a lookup by (user, device) finds is a row of the table, of
    that user and with that device name. *)
Lemma get_by_user_name_owned (tbl : list ApiKey.t) (uid : Z)
  (device : option string) (k : ApiKey.t) :
  ApiKey.get_by_user_name tbl uid device = Some k ->
  In k tbl /\ ApiKey.user_id k = uid /\ ApiKey.name k = device.
Proof.
  unfold ApiKey.get_by_user_name. intros Hfind.
  apply find_In in Hfind. destruct Hfind as [Hin Hown].
  apply owned_by_pair in Hown. unfold ApiKey.pair_of in Hown.
  injection Hown as Hu Hn. repeat split; assumption.
Qed.

(** A lookup by (user, device) that finds nothing: the pair is not in the
    table. *)
Lemma get_by_user_name_None (tbl : list ApiKey.t) (uid : Z)
  (device : option string) :
  ApiKey.get_by_user_name tbl uid device = None ->
  ~ In (uid, device) (map ApiKey.pair_of tbl).
Proof.
  unfold ApiKey.get_by_user_name. intros Hnone Hin.
  apply in_map_iff in Hin. destruct Hin as (k & Hpair & Hk).
  pose proof (find_none _ _ Hnone k Hk) as Hfalse.
  apply owned_by_pair in Hpair. congruence.
Qed.

Lemma one_key_per_device_add (tbl : list ApiKey.t) (i uid : Z)
  (device : option string) (c : string) :
  one_key_per_device tbl ->
  ApiKey.get_by_user_name tbl uid device = None ->
  one_key_per_device (tbl ++ [ApiKey.fresh i uid device c]).
Proof.
  unfold one_key_per_device. intros Hnd Hnone.
  rewrite map_app. apply NoDup_app; [exact Hnd | |].
  - cbn. constructor; [intros [] | constructor].
  - intros p Hp [<- | []].
    exact (get_by_user_name_None _ _ _ Hnone Hp).
Qed.

(** An update of attributes other than the owner and the device name. *)
Lemma pairs_update_where_id (i : Z) (f : ApiKey.t -> ApiKey.t)
  (tbl : list ApiKey.t) :
  (forall k, ApiKey.pair_of (f k) = ApiKey.pair_of k) ->
  map ApiKey.pair_of (ApiKey.update_where_id i f tbl) = map ApiKey.pair_of tbl.
Proof.
  intros Hf. unfold ApiKey.update_where_id. rewrite map_map.
  apply map_ext. intros k. destruct (ApiKey.id k =? i)%Z; [apply Hf | reflexivity].
Qed.

Create HintDb keys discriminated.

Lemma keys_invariant_commit (w : World) :
  keys_invariant w -> keys_invariant (commit w).
Proof. intros [Hs _]. split; exact Hs. Qed.

Lemma keys_invariant_session (f : DB -> DB) (w : World) :
  map ApiKey.pair_of (api_keys (f (session w)))
    = map ApiKey.pair_of (api_keys (session w)) ->
  keys_invariant w -> keys_invariant (with_session f w).
Proof.
  intros Hf [Hs Hc]. split; [| exact Hc].
  unfold one_key_per_device in *. cbn. rewrite Hf. exact Hs.
Qed.

Lemma keys_invariant_set_usage (i : Z) (now : timestamp) (n : Z) (w : World) :
  keys_invariant w ->
  keys_invariant
    (with_session (with_api_keys (ApiKey.update_where_id i (ApiKey.set_usage now n))) w).
Proof.
  apply keys_invariant_session. cbn. now apply pairs_update_where_id.
Qed.

Lemma keys_invariant_set_sudo_mode_at (i : Z) (now : timestamp) (w : World) :
  keys_invariant w ->
  keys_invariant
    (with_session
       (with_api_keys (ApiKey.update_where_id i (ApiKey.set_sudo_mode_at now))) w).
Proof.
  apply keys_invariant_session. cbn. now apply pairs_update_where_id.
Qed.

Lemma keys_invariant_users (f : list User.t -> list User.t) (w : World) :
  keys_invariant w -> keys_invariant (with_session (with_users f) w).
Proof. now apply keys_invariant_session. Qed.

Lemma keys_invariant_account_activations
  (f : list AccountActivation.t -> list AccountActivation.t) (w : World) :
  keys_invariant w ->
  keys_invariant (with_session (with_account_activations f) w).
Proof. now apply keys_invariant_session. Qed.

#[export] Hint Resolve keys_invariant_commit keys_invariant_set_usage
  keys_invariant_set_sudo_mode_at keys_invariant_users
  keys_invariant_account_activations : keys.

(** *** Rules for [preserves] *)

Lemma preserves_ret {A} (I : World -> Prop) (a : A) : preserves I (ret a).
Proof. intros w Hw. exact Hw. Qed.

Lemma preserves_raise {A} (I : World -> Prop) (e : exn) :
  preserves I (@raise A e).
Proof. intros w Hw. exact Hw. Qed.

Lemma preserves_gets {A} (I : World -> Prop) (f : World -> A) :
  preserves I (gets f).
Proof. intros w Hw. exact Hw. Qed.

Lemma preserves_modify (I : World -> Prop) (f : World -> World) :
  (forall w, I w -> I (f w)) -> preserves I (modify f).
Proof. intros Hf w Hw. exact (Hf w Hw). Qed.

Lemma preserves_bind {A B} (I : World -> Prop) (m : M A) (f : A -> M B) :
  preserves I m -> (forall a, preserves I (f a)) -> preserves I (bind m f).
Proof.
  intros Hm Hf w Hw. unfold bind.
  specialize (Hm w Hw). destruct (m w) as [[a | e] w1]; cbn in Hm.
  - exact (Hf a w1 Hm).
  - exact Hm.
Qed.

Lemma keys_invariant_add_account_activation (a : AccountActivation.t) (w : World) :
  keys_invariant w -> keys_invariant (with_session (add_account_activation a) w).
Proof. now apply keys_invariant_session. Qed.

#[export] Hint Resolve keys_invariant_add_account_activation : keys.

Section KeysPreserved.

Context `{Collaborators}.

Lemma preserves_Session_commit : preserves keys_invariant Session_commit.
Proof. apply preserves_modify. auto with keys. Qed.

Lemma preserves_login_user (u : User.t) :
  preserves keys_invariant (login_user u).
Proof. intros w Hw. exact Hw. Qed.

Lemma preserves_LoginEvent_send (a : LoginEvent.ActionType) :
  preserves keys_invariant (LoginEvent_send a).
Proof. intros w Hw. exact Hw. Qed.

Lemma preserves_current_user : preserves keys_invariant current_user.
Proof. apply preserves_gets. Qed.

Lemma preserves_user_by_emails (e c : option string) :
  preserves keys_invariant (user_by_emails e c).
Proof. apply preserves_gets. Qed.

Lemma preserves_AccountActivation_delete (i : Z) :
  preserves keys_invariant (AccountActivation_delete i).
Proof. apply preserves_modify. auto with keys. Qed.

Lemma preserves_AccountActivation_create (uid : Z) (c : string) :
  preserves keys_invariant (AccountActivation_create uid c).
Proof.
  unfold AccountActivation_create.
  apply preserves_bind; [apply preserves_gets | intros i].
  apply preserves_bind; [| intros _; apply preserves_ret].
  apply preserves_modify. auto with keys.
Qed.

(** The lookup by (user, device) followed by a creation only when it
    finds nothing, as [auth_payload] and [auth_mfa] write it. *)
Lemma preserves_get_or_create {A} (uid : Z) (device : option string)
  (new_code : string) (rest : ApiKey.t -> M A) :
  (forall k, preserves keys_invariant (rest k)) ->
  preserves keys_invariant
    (found <- gets (fun w => ApiKey.get_by_user_name (api_keys (session w))
                               uid device) ;;
     api_key <- match found with
                | Some k => ret k
                | None =>
                    k <- ApiKey_create uid device new_code ;;
                    Session_commit ;;
                    ret k
                end ;;
     rest api_key).
Proof.
  intros Hrest w Hw. unfold_view.
  destruct (ApiKey.get_by_user_name (api_keys (session w)) uid device)
    as [k |] eqn:Hfound.
  - apply Hrest. exact Hw.
  - apply Hrest. destruct Hw as [Hs _].
    assert (Hadd := one_key_per_device_add _ (api_key_seq (session w))
                      uid device new_code Hs Hfound).
    split; exact Hadd.
Qed.

Ltac preserve :=
  repeat first
    [ apply preserves_ret
    | apply preserves_raise
    | apply preserves_gets
    | apply preserves_Session_commit
    | apply preserves_login_user
    | apply preserves_LoginEvent_send
    | apply preserves_current_user
    | apply preserves_user_by_emails
    | apply preserves_AccountActivation_delete
    | apply preserves_AccountActivation_create
    | apply preserves_get_or_create; intros
    | apply preserves_bind; [| intros]
    | apply preserves_modify; intros; first [assumption | solve [auto with keys]]
    | match goal with
      | |- preserves _ (if ?b then _ else _) => destruct b
      | |- preserves _ (match ?x with _ => _ end) => destruct x
      end ].

Lemma preserves_account_status_checks (k : option ApiKey.t) :
  preserves keys_invariant (account_status_checks k).
Proof. unfold account_status_checks. preserve. Qed.

Lemma preserves_authorize_request (req : Request) (now : timestamp) :
  preserves keys_invariant (authorize_request req now).
Proof.
  unfold authorize_request. cbv zeta.
  apply preserves_bind; [apply preserves_gets | intros [k |]]; preserve.
Qed.

Lemma preserves_require_api_auth (f : M Response) (req : Request)
  (now : timestamp) :
  preserves keys_invariant f ->
  preserves keys_invariant (require_api_auth f req now).
Proof.
  intros Hf. unfold require_api_auth.
  apply preserves_bind; [apply preserves_authorize_request |].
  intros [e |]; [apply preserves_ret | exact Hf].
Qed.

Lemma preserves_sudo_view (req : Request) (now_auth now : timestamp) :
  preserves keys_invariant (sudo_view req now_auth now).
Proof.
  unfold sudo_view. apply preserves_require_api_auth.
  unfold enter_sudo. cbv zeta. preserve.
Qed.

Lemma preserves_auth_payload (user : User.t) (device : option string)
  (new_code : string) :
  preserves keys_invariant (auth_payload user device new_code).
Proof. unfold auth_payload. preserve. Qed.

Lemma preserves_auth_login (req : Request) (new_code : string) :
  preserves keys_invariant (auth_login req new_code).
Proof.
  unfold auth_login. cbv zeta.
  destruct (empty_body (get_json req)); [apply preserves_ret |].
  destruct (data_get (get_json req) "password") as [pw |]; [| preserve].
  destruct (negb _); [preserve |].
  apply preserves_bind; [apply preserves_user_by_emails | intros [u |]];
    [| preserve].
  repeat match goal with
         | |- preserves _ (if ?b then _ else _) => destruct b; [preserve |]
         end.
  apply preserves_bind; [apply preserves_LoginEvent_send | intros _].
  apply preserves_bind; [apply preserves_auth_payload | intros p].
  apply preserves_ret.
Qed.

Lemma preserves_auth_activate (req : Request) :
  preserves keys_invariant (auth_activate req).
Proof. unfold auth_activate. cbv zeta. preserve. Qed.

Lemma preserves_auth_reactivate (req : Request) (new_code : string) :
  preserves keys_invariant (auth_reactivate req new_code).
Proof. unfold auth_reactivate. cbv zeta. preserve. Qed.

Lemma preserves_auth_mfa (req : Request) (now : timestamp)
  (new_code : string) :
  preserves keys_invariant (auth_mfa req now new_code).
Proof. unfold auth_mfa. cbv zeta. preserve. Qed.

End KeysPreserved.

Lemma get_by_user_name_added (tbl : list ApiKey.t) (i uid : Z)
  (device : option string) (c : string) :
  ApiKey.get_by_user_name tbl uid device = None ->
  ApiKey.get_by_user_name (tbl ++ [ApiKey.fresh i uid device c]) uid device
    = Some (ApiKey.fresh i uid device c).
Proof.
  unfold ApiKey.get_by_user_name.
  induction tbl as [| k tbl IH]; cbn [find app].
  - intros _.
    rewrite (proj2 (owned_by_pair uid device (ApiKey.fresh i uid device c)) eq_refl).
    reflexivity.
  - destruct (ApiKey.owned_by uid device k); [discriminate | exact IH].
Qed.

Section Issuance.

Context `{Collaborators}.

(** [auth_payload] for a user without second factor: the key found for
    the (user, device) pair, or else a new one, committed. *)
Lemma auth_payload_run (user : User.t) (device : option string)
  (new_code : string) (w : World) :
  User.enable_otp user = false ->
  auth_payload user device new_code w =
    match ApiKey.get_by_user_name (api_keys (session w)) (User.id user) device with
    | Some k =>
        (Return (JAuthPayload (User.name_or_empty user) (User.email user)
                   false None (Some (ApiKey.code k))),
         set_login_session (Some (User.id user)) w)
    | None =>
        (Return (JAuthPayload (User.name_or_empty user) (User.email user)
                   false None (Some new_code)),
         set_login_session (Some (User.id user))
           (commit (with_session
                      (add_api_key (ApiKey.fresh (api_key_seq (session w))
                                      (User.id user) device new_code))
                      w)))
    end.
Proof.
  intros Hotp. unfold auth_payload. rewrite Hotp. unfold_view.
  destruct (ApiKey.get_by_user_name _ _ _); reflexivity.
Qed.

(** [auth_login] for an activated, non-disabled user without second
    factor: the password check, the remaining checks, then the key. *)
Lemma auth_login_checked (req : Request) (e pw d new_code : string)
  (w : World) (u : User.t) :
  logs_in req e pw d ->
  resolved_user w e = Some u ->
  User.disabled u = false ->
  User.activated u = true ->
  User.enable_otp u = false ->
  auth_login req new_code w =
    if negb (check_password u pw) then
      (Return (JError "Email or password incorrect", 400),
       push_login_event LoginEvent.failed w)
    else
      match User.delete_on u with
      | Some _ =>
          (Return (JError "Account scheduled for deletion", 400),
           push_login_event LoginEvent.scheduled_to_be_deleted w)
      | None =>
          if fido_enabled u then
            (Return (JError "FIDO authentication is not supported for this application",
                     403), w)
          else
            match ApiKey.get_by_user_name (api_keys (session w)) (User.id u)
                    (Some d) with
            | Some k =>
                (Return (JAuthPayload (User.name_or_empty u) (User.email u)
                           false None (Some (ApiKey.code k)), 200),
                 set_login_session (Some (User.id u))
                   (push_login_event LoginEvent.success w))
            | None =>
                (Return (JAuthPayload (User.name_or_empty u) (User.email u)
                           false None (Some new_code), 200),
                 set_login_session (Some (User.id u))
                   (commit (with_session
                              (add_api_key
                                 (ApiKey.fresh (api_key_seq (session w))
                                    (User.id u) (Some d) new_code))
                              (push_login_event LoginEvent.success w))))
            end
      end.
Proof.
  intros (Hb & He & Hne & Hp & Hnp & Hd & Hnd) Hu Hdis Hact Hotp.
  unfold resolved_user in Hu. unfold auth_login. cbv zeta.
  rewrite Hb, He, Hp, Hd,
    (truthy_Some e Hne), (truthy_Some pw Hnp), (truthy_Some d Hnd).
  cbn [all forallb andb negb]. unfold_view.
  rewrite Hu, Hdis, Hact, Hotp. cbn [negb andb].
  destruct (check_password u pw); cbn [negb]; [| reflexivity].
  destruct (User.delete_on u); [reflexivity |].
  rewrite andb_true_r.
  destruct (fido_enabled u); [reflexivity |].
  rewrite (auth_payload_run u (Some d) new_code _ Hotp).
  cbn [session push_login_event].
  destruct (ApiKey.get_by_user_name _ _ _); reflexivity.
Qed.

(** [auth_mfa] for a valid exchange token and a code of the window. *)
Lemma auth_mfa_success (req : Request) (token key d : string)
  (now : timestamp) (new_code : string) (w : World) (uid : Z) (u : User.t) :
  submits_mfa req token key d ->
  unsign_user_id key = Some uid ->
  User.get (users (session w)) uid = Some u ->
  User.enable_otp u = true ->
  TOTP_verify (User.otp_secret u) token now 2 = true ->
  auth_mfa req now new_code w =
    match ApiKey.get_by_user_name (api_keys (session w)) (User.id u) (Some d) with
    | Some k =>
        (Return (JMfaPayload (User.name_or_empty u) (User.email u)
                   (ApiKey.code k), 200),
         set_login_session (Some (User.id u)) w)
    | None =>
        (Return (JMfaPayload (User.name_or_empty u) (User.email u) new_code, 200),
         set_login_session (Some (User.id u))
           (commit (with_session
                      (add_api_key (ApiKey.fresh (api_key_seq (session w))
                                      (User.id u) (Some d) new_code))
                      w)))
    end.
Proof.
  intros (Hb & Ht & Hnt & Hk & Hnk & Hd & Hnd) Hid Hu Hotp Hv.
  unfold auth_mfa. cbv zeta.
  rewrite Hb, Ht, Hk, Hd,
    (truthy_Some token Hnt), (truthy_Some key Hnk), (truthy_Some d Hnd).
  cbn [all forallb andb negb]. rewrite Hid. unfold_view.
  rewrite Hu, Hotp, Hv. cbn [negb].
  destruct (ApiKey.get_by_user_name _ _ _); reflexivity.
Qed.

(** C5, amended. Every view but [create_api_key] keeps at most one key
    per (user, device-name) pair, in the session and in the committed
    rows: the gate, the sudo entry, activation, re-activation, login and
    the MFA completion; [auth_payload] answers with the key the pair
    already has and adds none. [create_api_key] adds a new key for the
    submitted device name without looking for an existing one. *)
Theorem issuance_keeps_one_key_per_device :
  (forall req now, preserves keys_invariant (authorize_request req now)) /\
  (forall req now_auth now,
      preserves keys_invariant (sudo_view req now_auth now)) /\
  (forall req, preserves keys_invariant (auth_activate req)) /\
  (forall req new_code, preserves keys_invariant (auth_reactivate req new_code)) /\
  (forall req new_code, preserves keys_invariant (auth_login req new_code)) /\
  (forall req now new_code,
      preserves keys_invariant (auth_mfa req now new_code)) /\
  (forall user device new_code,
      preserves keys_invariant (auth_payload user device new_code)) /\
  (forall user device new_code w k,
      User.enable_otp user = false ->
      ApiKey.get_by_user_name (api_keys (session w)) (User.id user) device
        = Some k ->
      auth_payload user device new_code w
        = (Return (JAuthPayload (User.name_or_empty user) (User.email user)
                     false None (Some (ApiKey.code k))),
           set_login_session (Some (User.id user)) w)) /\
  (forall req new_code w user data,
      get_json req = Some data -> data <> [] ->
      dict_contains data "device" = true ->
      g_user w = Some user ->
      create_api_key req new_code w
        = (Return (JApiKey new_code, 201),
           commit (with_session
                     (add_api_key
                        (ApiKey.fresh (api_key_seq (session w)) (User.id user)
                           (dict_get data "device") new_code))
                     w))).
Proof.
  repeat match goal with |- _ /\ _ => split end.
  - apply preserves_authorize_request.
  - apply preserves_sudo_view.
  - apply preserves_auth_activate.
  - apply preserves_auth_reactivate.
  - apply preserves_auth_login.
  - apply preserves_auth_mfa.
  - apply preserves_auth_payload.
  - intros user device new_code w k Hotp Hk.
    rewrite (auth_payload_run _ _ _ _ Hotp), Hk. reflexivity.
  - intros req new_code w user data Hdata Hne Hdev Hg.
    unfold create_api_key. rewrite Hdata.
    destruct data as [| kv data]; [contradiction |].
    rewrite Hdev. cbn [negb]. unfold_view. rewrite Hg. reflexivity.
Qed.

(** C8. For an activated, non-disabled user without second factor, a
    second login with the same email, password and device gets the answer
    of the first, so the same key code, and changes no row; when the
    (user, device) pair already has a key the first login changes no row
    either, so neither the code nor the counters of that key; a login
    that passes the password and the remaining checks answers 200 with
    the code of the key of the pair, a row of the table of that user and
    device: the one the pair had before if it had one, and otherwise one
    new row, committed, with the code drawn by this login. The MFA
    completion resolves the key of the device in the same way, and both
    open the session of the user. *)
Theorem login_issuance_idempotent :
  (forall (req : Request) (e pw d code1 code2 : string) (w : World)
          (u : User.t),
      logs_in req e pw d ->
      resolved_user w e = Some u ->
      User.disabled u = false ->
      User.activated u = true ->
      User.enable_otp u = false ->
      let w1 := snd (auth_login req code1 w) in
      let w2 := snd (auth_login req code2 w1) in
      fst (auth_login req code2 w1) = fst (auth_login req code1 w) /\
      session w2 = session w1 /\ committed w2 = committed w1 /\
      (forall k,
          ApiKey.get_by_user_name (api_keys (session w)) (User.id u) (Some d)
            = Some k ->
          session w1 = session w /\ committed w1 = committed w) /\
      (check_password u pw = true ->
       User.delete_on u = None -> fido_enabled u = false ->
       exists key,
         fst (auth_login req code1 w)
           = Return (JAuthPayload (User.name_or_empty u) (User.email u)
                       false None (Some (ApiKey.code key)), 200) /\
         ApiKey.get_by_user_name (api_keys (session w1)) (User.id u) (Some d)
           = Some key /\
         (forall k,
             ApiKey.get_by_user_name (api_keys (session w)) (User.id u)
               (Some d) = Some k ->
             key = k) /\
         In key (api_keys (session w1)) /\
         ApiKey.user_id key = User.id u /\
         ApiKey.name key = Some d /\
         login_session w1 = Some (User.id u) /\
         (ApiKey.get_by_user_name (api_keys (session w)) (User.id u) (Some d)
            = None ->
          api_keys (session w1) = (api_keys (session w) ++ [key])%list /\
          api_keys (committed w1) = (api_keys (session w) ++ [key])%list /\
          ApiKey.code key = code1) /\
         (api_keys (committed w) = api_keys (session w) ->
          In key (api_keys (committed w1)) /\
          ApiKey.get_by_user_name (api_keys (committed w1)) (User.id u)
            (Some d) = Some key /\
          ApiKey.get_by_user_name (api_keys (committed w2)) (User.id u)
            (Some d) = Some key))) /\
  (forall (req : Request) (token k d code1 code2 : string)
          (now1 now2 : timestamp) (w : World) (uid : Z) (u : User.t),
      submits_mfa req token k d ->
      unsign_user_id k = Some uid ->
      User.get (users (session w)) uid = Some u ->
      User.enable_otp u = true ->
      TOTP_verify (User.otp_secret u) token now1 2 = true ->
      TOTP_verify (User.otp_secret u) token now2 2 = true ->
      let w1 := snd (auth_mfa req now1 code1 w) in
      let w2 := snd (auth_mfa req now2 code2 w1) in
      exists key,
        fst (auth_mfa req now1 code1 w)
          = Return (JMfaPayload (User.name_or_empty u) (User.email u)
                      (ApiKey.code key), 200) /\
        fst (auth_mfa req now2 code2 w1)
          = Return (JMfaPayload (User.name_or_empty u) (User.email u)
                      (ApiKey.code key), 200) /\
        session w2 = session w1 /\ committed w2 = committed w1 /\
        (forall k',
            ApiKey.get_by_user_name (api_keys (session w)) (User.id u) (Some d)
              = Some k' ->
            key = k' /\ session w1 = session w /\ committed w1 = committed w) /\
        ApiKey.get_by_user_name (api_keys (session w1)) (User.id u) (Some d)
          = Some key /\
        In key (api_keys (session w1)) /\
        ApiKey.user_id key = User.id u /\
        ApiKey.name key = Some d /\
        login_session w1 = Some (User.id u) /\
        login_session w2 = Some (User.id u) /\
        (ApiKey.get_by_user_name (api_keys (session w)) (User.id u) (Some d)
           = None ->
         api_keys (session w1) = (api_keys (session w) ++ [key])%list /\
         api_keys (committed w1) = (api_keys (session w) ++ [key])%list /\
         ApiKey.code key = code1) /\
        (api_keys (committed w) = api_keys (session w) ->
         In key (api_keys (committed w1)) /\
         ApiKey.get_by_user_name (api_keys (committed w1)) (User.id u)
           (Some d) = Some key /\
         ApiKey.get_by_user_name (api_keys (committed w2)) (User.id u)
           (Some d) = Some key)).
Proof.
  split.
  - intros req e pw d code1 code2 w u Hreq Hu Hdis Hact Hotp.
    cbv zeta.
    rewrite (auth_login_checked req e pw d code1 w u Hreq Hu Hdis Hact Hotp).
    destruct (check_password u pw) eqn:Hpw; cbn [negb].
    2: { (* wrong password: the same refusal twice *)
      cbn [fst snd].
      set (w1 := push_login_event LoginEvent.failed w).
      assert (Hu1 : resolved_user w1 e = Some u) by exact Hu.
      rewrite (auth_login_checked req e pw d code2 w1 u Hreq Hu1 Hdis Hact Hotp),
        Hpw.
      repeat split; discriminate. }
    destruct (User.delete_on u) as [t |] eqn:Hdel.
    { (* scheduled for deletion: the same refusal twice *)
      cbn [fst snd].
      set (w1 := push_login_event LoginEvent.scheduled_to_be_deleted w).
      assert (Hu1 : resolved_user w1 e = Some u) by exact Hu.
      rewrite (auth_login_checked req e pw d code2 w1 u Hreq Hu1 Hdis Hact Hotp),
        Hpw, Hdel.
      repeat split; discriminate. }
    destruct (fido_enabled u) eqn:Hfido.
    { cbn [fst snd].
      rewrite (auth_login_checked req e pw d code2 w u Hreq Hu Hdis Hact Hotp),
        Hpw, Hdel, Hfido.
      repeat split; discriminate. }
    destruct (ApiKey.get_by_user_name (api_keys (session w)) (User.id u) (Some d))
      as [k |] eqn:Hfound.
    + (* the pair already has a key *)
      cbn [fst snd].
      set (w1 := set_login_session (Some (User.id u))
                   (push_login_event LoginEvent.success w)).
      assert (Hu1 : resolved_user w1 e = Some u) by exact Hu.
      assert (Hfound1 : ApiKey.get_by_user_name (api_keys (session w1))
                          (User.id u) (Some d) = Some k) by exact Hfound.
      rewrite (auth_login_checked req e pw d code2 w1 u Hreq Hu1 Hdis Hact Hotp),
        Hpw, Hdel, Hfido, Hfound1.
      destruct (get_by_user_name_owned _ _ _ _ Hfound) as (Hin & Hown & Hname).
      split; [reflexivity |]. split; [reflexivity |]. split; [reflexivity |].
      split; [intros k' _; split; reflexivity |].
      intros _ _ _. exists k.
      split; [reflexivity |]. split; [first [exact Hfound1 | reflexivity] |].
      split; [congruence |]. split; [exact Hin |].
      split; [exact Hown |]. split; [exact Hname |].
      split; [reflexivity |]. split; [discriminate |].
      intros Hclean. split; [| split].
      * change (In k (api_keys (committed w))). rewrite Hclean. exact Hin.
      * change (ApiKey.get_by_user_name (api_keys (committed w)) (User.id u)
                  (Some d) = Some k).
        rewrite Hclean. exact Hfound.
      * change (ApiKey.get_by_user_name (api_keys (committed w)) (User.id u)
                  (Some d) = Some k).
        rewrite Hclean. exact Hfound.
    + (* the first login creates the key, the second finds it *)
      cbn [fst snd].
      set (key := ApiKey.fresh (api_key_seq (session w)) (User.id u)
                    (Some d) code1).
      set (w1 := set_login_session (Some (User.id u))
                   (commit (with_session (add_api_key key)
                              (push_login_event LoginEvent.success w)))).
      assert (Hu1 : resolved_user w1 e = Some u) by exact Hu.
      assert (Hfound1 : ApiKey.get_by_user_name (api_keys (session w1))
                          (User.id u) (Some d) = Some key)
        by exact (get_by_user_name_added _ _ _ _ code1 Hfound).
      pose proof Hfound1 as Hfound1'.
      rewrite (auth_login_checked req e pw d code2 w1 u Hreq Hu1 Hdis Hact Hotp),
        Hpw, Hdel, Hfido, Hfound1.
      assert (Hin : In key (api_keys (session w1)))
        by (cbn; apply in_or_app; right; now left).
      split; [reflexivity |]. split; [reflexivity |]. split; [reflexivity |].
      split; [discriminate |].
      intros _ _ _. exists key.
      split; [reflexivity |]. split; [first [exact Hfound1 | reflexivity] |].
      split; [discriminate |]. split; [exact Hin |].
      split; [reflexivity |]. split; [reflexivity |].
      split; [reflexivity |].
      split; [intros _; repeat split |].
      intros _. split; [exact Hin | split]; exact Hfound1'.
  - intros req token k d code1 code2 now1 now2 w uid u Hreq Hid Hu Hotp Hv1 Hv2.
    cbv zeta.
    rewrite (auth_mfa_success req token k d now1 code1 w uid u
               Hreq Hid Hu Hotp Hv1).
    destruct (ApiKey.get_by_user_name (api_keys (session w)) (User.id u) (Some d))
      as [k0 |] eqn:Hfound.
    + cbn [fst snd].
      set (w1 := set_login_session (Some (User.id u)) w).
      assert (Hu1 : User.get (users (session w1)) uid = Some u) by exact Hu.
      assert (Hfound1 : ApiKey.get_by_user_name (api_keys (session w1))
                          (User.id u) (Some d) = Some k0) by exact Hfound.
      rewrite (auth_mfa_success req token k d now2 code2 w1 uid u
                 Hreq Hid Hu1 Hotp Hv2), Hfound1.
      destruct (get_by_user_name_owned _ _ _ _ Hfound) as (Hin & Hown & Hname).
      exists k0. cbn [fst snd].
      split; [reflexivity |]. split; [reflexivity |].
      split; [reflexivity |]. split; [reflexivity |].
      split; [intros k' Hk'; repeat split; congruence |].
      split; [first [exact Hfound1 | reflexivity] |]. split; [exact Hin |].
      split; [exact Hown |]. split; [exact Hname |].
      split; [reflexivity |]. split; [reflexivity |].
      split; [discriminate |].
      intros Hclean. split; [| split].
      * change (In k0 (api_keys (committed w))). rewrite Hclean. exact Hin.
      * change (ApiKey.get_by_user_name (api_keys (committed w)) (User.id u)
                  (Some d) = Some k0).
        rewrite Hclean. exact Hfound.
      * change (ApiKey.get_by_user_name (api_keys (committed w)) (User.id u)
                  (Some d) = Some k0).
        rewrite Hclean. exact Hfound.
    + cbn [fst snd].
      set (key := ApiKey.fresh (api_key_seq (session w)) (User.id u)
                    (Some d) code1).
      set (w1 := set_login_session (Some (User.id u))
                   (commit (with_session (add_api_key key) w))).
      assert (Hu1 : User.get (users (session w1)) uid = Some u) by exact Hu.
      assert (Hfound1 : ApiKey.get_by_user_name (api_keys (session w1))
                          (User.id u) (Some d) = Some key)
        by exact (get_by_user_name_added _ _ _ _ code1 Hfound).
      pose proof Hfound1 as Hfound1'.
      rewrite (auth_mfa_success req token k d now2 code2 w1 uid u
                 Hreq Hid Hu1 Hotp Hv2), Hfound1.
      assert (Hin : In key (api_keys (session w1)))
        by (cbn; apply in_or_app; right; now left).
      exists key. cbn [fst snd].
      split; [reflexivity |]. split; [reflexivity |].
      split; [reflexivity |]. split; [reflexivity |].
      split; [discriminate |].
      split; [first [exact Hfound1 | reflexivity] |]. split; [exact Hin |].
      split; [reflexivity |]. split; [reflexivity |].
      split; [reflexivity |]. split; [reflexivity |].
      split; [intros _; repeat split |].
      intros _. split; [exact Hin | split]; exact Hfound1'.
Qed.

End Issuance.

Lemma keys_invariant_w0 : keys_invariant Demo.w0.
Proof.
  assert (Hnd : one_key_per_device (api_keys Demo.db0)).
  { unfold one_key_per_device. cbn.
    repeat constructor; cbn; intuition discriminate. }
  split; exact Hnd.
Qed.

(** Ann logs in from a tablet, a device she has no key for, then is
    answered with the key her phone already has; POST /api_key, once the
    gate has resolved her, adds a key for the phone all the same. *)
Lemma issuance_keeps_one_key_per_device_witness :
  keys_invariant
    (snd (auth_login (H := Demo.collaborators)
            (Demo.login "ann@example.org" "hunter22" "tablet") "k1" Demo.w0)) /\
  fst (auth_payload (H := Demo.collaborators) Demo.ann (Some "phone") "k1" Demo.w0)
    = Return (JAuthPayload "Ann" "ann@example.org" false None
                (Some "key-ann-phone")) /\
  fst (create_api_key (Demo.bearer "key-ann-phone" [("device", "phone")])
         "key-new" (set_g_user (Some Demo.ann) Demo.w0))
    = Return (JApiKey "key-new", 201).
Proof.
  pose proof (issuance_keeps_one_key_per_device (H := Demo.collaborators))
    as (_ & _ & _ & _ & Hlogin & _ & _ & Hexisting & Hcreate).
  split; [| split].
  - exact (Hlogin (Demo.login "ann@example.org" "hunter22" "tablet") "k1"
             Demo.w0 keys_invariant_w0).
  - rewrite (Hexisting Demo.ann (Some "phone") "k1" Demo.w0 Demo.ann_phone
               eq_refl eq_refl).
    reflexivity.
  - rewrite (Hcreate (Demo.bearer "key-ann-phone" [("device", "phone")])
               "key-new" (set_g_user (Some Demo.ann) Demo.w0) Demo.ann
               [("device", "phone")] eq_refl ltac:(discriminate) eq_refl eq_refl).
    reflexivity.
Defined.

(** C5 as stated fails: Ann already has a key for her phone, and POST
    /api_key with that device name answers 201 with a new code and leaves
    two keys for the pair. *)
Lemma create_api_key_second_key_counterexample :
  keys_invariant Demo.w0 /\
  ApiKey.get_by_user_name (api_keys (session Demo.w0)) 1 (Some "phone")
    = Some Demo.ann_phone /\
  fst (api_key_view (H := Demo.collaborators)
         (Demo.bearer "key-ann-phone" [("device", "phone")]) 2000 "key-new"
         Demo.w0)
    = Return (JApiKey "key-new", 201) /\
  ~ keys_invariant
      (snd (api_key_view (H := Demo.collaborators)
              (Demo.bearer "key-ann-phone" [("device", "phone")]) 2000
              "key-new" Demo.w0)).
Proof.
  split; [exact keys_invariant_w0 | split; [reflexivity | split; [reflexivity |]]].
  intros [_ Hc]. unfold one_key_per_device in Hc. vm_compute in Hc.
  apply NoDup_cons_iff in Hc. destruct Hc as [Hnin _].
  apply Hnin. right. left. reflexivity.
Qed.

(** Ann logs in twice from a tablet: the second answer is the first. *)
Lemma login_issuance_idempotent_witness :
  fst (auth_login (H := Demo.collaborators)
         (Demo.login "ann@example.org" "hunter22" "tablet") "k2"
         (snd (auth_login (H := Demo.collaborators)
                 (Demo.login "ann@example.org" "hunter22" "tablet") "k1"
                 Demo.w0)))
  = fst (auth_login (H := Demo.collaborators)
           (Demo.login "ann@example.org" "hunter22" "tablet") "k1" Demo.w0) /\
  fst (auth_mfa (H := Demo.collaborators)
         (Demo.mfa "JBSWY3DPe" "s3cr3t.4" "tablet") 30000000 "k4"
         (snd (auth_mfa (H := Demo.collaborators)
                 (Demo.mfa "JBSWY3DPe" "s3cr3t.4" "tablet") 0 "k3" Demo.w0)))
  = fst (auth_mfa (H := Demo.collaborators)
           (Demo.mfa "JBSWY3DPe" "s3cr3t.4" "tablet") 0 "k3" Demo.w0) /\
  (exists key,
      In key (api_keys
                (committed
                   (snd (auth_mfa (H := Demo.collaborators)
                           (Demo.mfa "JBSWY3DPe" "s3cr3t.4" "tablet") 0 "k3"
                           Demo.w0)))) /\
      ApiKey.user_id key = 4%Z /\ ApiKey.name key = Some "tablet" /\
      ApiKey.code key = "k3").
Proof.
  split.
  - assert (Hreq : logs_in (Demo.login "ann@example.org" "hunter22" "tablet")
                     "ann@example.org" "hunter22" "tablet").
    { unfold logs_in. cbn. repeat split; discriminate. }
    exact (proj1 (proj1 (login_issuance_idempotent (H := Demo.collaborators))
                    (Demo.login "ann@example.org" "hunter22" "tablet")
                    "ann@example.org" "hunter22" "tablet" "k1" "k2" Demo.w0
                    Demo.ann Hreq eq_refl eq_refl eq_refl eq_refl)).
  - assert (Hreq : submits_mfa (Demo.mfa "JBSWY3DPe" "s3cr3t.4" "tablet")
                     "JBSWY3DPe" "s3cr3t.4" "tablet").
    { unfold submits_mfa. cbn. repeat split; discriminate. }
    destruct (proj2 (login_issuance_idempotent (H := Demo.collaborators))
                (Demo.mfa "JBSWY3DPe" "s3cr3t.4" "tablet")
                "JBSWY3DPe" "s3cr3t.4" "tablet" "k3" "k4" 0%Z 30000000%Z
                Demo.w0 4%Z Demo.dan
                Hreq eq_refl eq_refl eq_refl eq_refl eq_refl)
      as (key & H1 & H2 & _ & _ & _ & _ & _ & Hown & Hname & _ & _ & Hnew
          & Hcommitted).
    split; [exact (eq_trans H2 (eq_sym H1)) |].
    exists key.
    split; [exact (proj1 (Hcommitted eq_refl)) |].
    split; [exact Hown |]. split; [exact Hname |].
    exact (proj2 (proj2 (Hnew eq_refl))).
Defined.

(** ** Further properties of the gate *)

(** The lookup by code after an update of the found key that keeps every
    code: the updated key. *)
Lemma get_by_code_update (tbl : list ApiKey.t) (c : option string)
  (k : ApiKey.t) (f : ApiKey.t -> ApiKey.t) :
  (forall r, ApiKey.code (f r) = ApiKey.code r) ->
  ApiKey.get_by_code tbl c = Some k ->
  ApiKey.get_by_code (ApiKey.update_where_id (ApiKey.id k) f tbl) c = Some (f k).
Proof.
  intros Hf. unfold ApiKey.get_by_code, ApiKey.update_where_id.
  destruct c as [s |]; [| discriminate].
  induction tbl as [| r tbl IH]; cbn [find map]; [discriminate |].
  destruct (String.eqb_spec (ApiKey.code r) s) as [Hc | Hc].
  - intros [= ->]. rewrite Z.eqb_refl, Hf.
    rewrite (proj2 (String.eqb_eq _ _) Hc). reflexivity.
  - intros Hfind.
    assert (Hc' : (ApiKey.code (if (ApiKey.id r =? ApiKey.id k)%Z then f r else r)
                   =? s) = false).
    { apply String.eqb_neq. destruct (ApiKey.id r =? ApiKey.id k)%Z;
        [rewrite Hf |]; exact Hc. }
    rewrite Hc'. exact (IH Hfind).
Qed.

Lemma credential_update_where_id (i : Z) (f : ApiKey.t -> ApiKey.t)
  (tbl : list ApiKey.t) :
  (forall k, credential (f k) = credential k) ->
  map credential (ApiKey.update_where_id i f tbl) = map credential tbl.
Proof.
  intros Hf. unfold ApiKey.update_where_id. rewrite map_map.
  apply map_ext. intros k. destruct (ApiKey.id k =? i)%Z; [apply Hf | reflexivity].
Qed.

Lemma last_cons {A} (a d : A) (l : list A) : last (a :: l) d = last l a.
Proof.
  revert a d. induction l as [| b l IH]; intros a d; [reflexivity |].
  change (last (a :: b :: l) d) with (last (b :: l) d).
  rewrite (IH b d), (IH b a). reflexivity.
Qed.

Section GateExtras.

Context `{Collaborators}.

(** The session rows after the gate, for a request whose code matches
    the key [k]: the rows before, with the usage of [k] recorded. *)
Lemma authorize_request_session_rows (req : Request) (now : timestamp)
  (w : World) (k : ApiKey.t) :
  ApiKey.get_by_code (api_keys (session w)) (header_Authentication req)
    = Some k ->
  session (snd (authorize_request req now w))
    = with_api_keys
        (ApiKey.update_where_id (ApiKey.id k)
           (ApiKey.set_usage now (ApiKey.times k + 1))) (session w) /\
  committed (snd (authorize_request req now w))
    = session (snd (authorize_request req now w)).
Proof.
  intros Hk. rewrite (authorize_request_bearer _ _ _ _ Hk).
  match goal with
  | |- context [account_status_checks ?a ?w0] =>
      destruct (account_status_checks_db a w0) as [Hc Hs]; rewrite Hc, Hs
  end.
  split; reflexivity.
Qed.

(** Without a matching key the gate writes no row. *)
Lemma authorize_request_no_key_rows (req : Request) (now : timestamp)
  (w : World) :
  ApiKey.get_by_code (api_keys (session w)) (header_Authentication req)
    = None ->
  session (snd (authorize_request req now w)) = session w /\
  committed (snd (authorize_request req now w)) = committed w.
Proof.
  intros Hk. unfold authorize_request, account_status_checks. unfold_view.
  rewrite Hk.
  destruct (login_session w) as [i |]; cbn; [| now split].
  destruct (User.get (users (session w)) i) as [u |]; cbn; [| now split].
  destruct (User.disabled u); cbn; [now split |].
  destruct (is_active u); cbn; now split.
Qed.

(** The gate for a request that bears no known code, in the session of a
    user who is neither disabled nor inactive. *)
Lemma authorize_request_by_session (req : Request) (now : timestamp)
  (w : World) (i : Z) (u : User.t) :
  ApiKey.get_by_code (api_keys (session w)) (header_Authentication req)
    = None ->
  login_session w = Some i ->
  User.get (users (session w)) i = Some u ->
  User.disabled u = false -> is_active u = true ->
  authorize_request req now w
    = (Return None, set_g_api_key None (set_g_user (Some u) w)).
Proof.
  intros Hk Hi Hu Hd Ha. unfold authorize_request, account_status_checks.
  unfold_view. rewrite Hk, Hi, Hu. cbn. rewrite Hd, Ha. reflexivity.
Qed.

(** X1. The gate resolves the identity of a request: with neither a
    matching key nor an authenticated session it answers 401 "Wrong API
    key" and changes nothing; a matching key makes its owner the acting
    user whatever the session holds, and is published in [g.api_key] with
    its usage recorded; without a matching key the user of the session
    acts, [g.api_key] is [None] and no row is written. *)
Theorem authorize_request_identity :
  forall (req : Request) (now : timestamp) (w : World),
    (ApiKey.get_by_code (api_keys (session w)) (header_Authentication req)
       = None ->
     (forall i, login_session w = Some i ->
                User.get (users (session w)) i = None) ->
     authorize_request req now w
       = (Return (Some (JError "Wrong API key", 401)), w)) /\
    (forall k u,
        ApiKey.get_by_code (api_keys (session w)) (header_Authentication req)
          = Some k ->
        User.get (users (session w)) (ApiKey.user_id k) = Some u ->
        User.disabled u = false -> is_active u = true ->
        exists w',
          authorize_request req now w = (Return None, w') /\
          g_user w' = Some u /\
          g_api_key w' = Some (ApiKey.set_usage now (ApiKey.times k + 1) k) /\
          login_session w' = login_session w) /\
    (forall i u,
        ApiKey.get_by_code (api_keys (session w)) (header_Authentication req)
          = None ->
        login_session w = Some i ->
        User.get (users (session w)) i = Some u ->
        User.disabled u = false -> is_active u = true ->
        authorize_request req now w
          = (Return None, set_g_api_key None (set_g_user (Some u) w))).
Proof.
  intros req now w. split; [| split].
  - intros Hk Hs. unfold authorize_request. unfold_view. rewrite Hk.
    destruct (login_session w) as [i |]; [| reflexivity].
    rewrite (Hs i eq_refl). reflexivity.
  - intros k u Hk Hu Hd Ha. rewrite (authorize_request_bearer _ _ _ _ Hk).
    unfold account_status_checks. unfold_view. cbn. rewrite Hu, Hd, Ha. cbn.
    eexists. repeat split.
  - intros i u. apply authorize_request_by_session.
Qed.

(** X2. Whatever it answers, the gate leaves the users, the activation
    records, the outbox and the session cookie as they are, and of the
    keys it changes the usage telemetry only: no key is added or removed,
    and no code, owner, device name or elevation changes. *)
Theorem authorize_request_frame :
  forall (req : Request) (now : timestamp) (w : World),
    let w' := snd (authorize_request req now w) in
    users (session w') = users (session w) /\
    account_activations (session w') = account_activations (session w) /\
    map credential (api_keys (session w')) = map credential (api_keys (session w)) /\
    login_session w' = login_session w /\
    outbox w' = outbox w.
Proof.
  intros req now w w'. subst w'.
  assert (Hchk : forall a w0,
             login_session (snd (account_status_checks a w0)) = login_session w0 /\
             outbox (snd (account_status_checks a w0)) = outbox w0).
  { intros a w0. unfold account_status_checks. unfold_view.
    destruct (g_user w0) as [u |]; cbn; [| now split].
    destruct (User.disabled u); cbn; [now split |].
    destruct (is_active u); cbn; now split. }
  destruct (ApiKey.get_by_code (api_keys (session w)) (header_Authentication req))
    as [k |] eqn:Hk.
  - destruct (authorize_request_session_rows req now w k Hk) as [Hs _].
    rewrite Hs. cbn [users account_activations api_keys with_api_keys].
    rewrite credential_update_where_id by reflexivity.
    rewrite (authorize_request_bearer _ _ _ _ Hk).
    match goal with
    | |- context [account_status_checks ?a ?w0] =>
        destruct (Hchk a w0) as [Hl Ho]; rewrite Hl, Ho
    end.
    repeat split.
  - destruct (authorize_request_no_key_rows req now w Hk) as [Hs _].
    rewrite Hs. unfold authorize_request, account_status_checks. unfold_view.
    rewrite Hk.
    destruct (login_session w) as [i |] eqn:Hi; cbn;
      [| rewrite Hi; repeat split].
    destruct (User.get (users (session w)) i) as [u |]; cbn;
      [| rewrite Hi; repeat split].
    destruct (User.disabled u); cbn; [rewrite Hi; repeat split |].
    destruct (is_active u); cbn; rewrite Hi; repeat split.
Qed.

(** X3. Every request that bears the code of a key is counted: after the
    gate has handled the request at the clock readings [nows], the key
    found by that code has its counter raised by their number, its last
    use at the last of them, and the credential it had. *)
Theorem authorize_requests_count :
  forall (req : Request) (nows : list timestamp) (w : World) (k : ApiKey.t),
    ApiKey.get_by_code (api_keys (session w)) (header_Authentication req)
      = Some k ->
    exists k',
      ApiKey.get_by_code
        (api_keys (session (authorize_requests req nows w)))
        (header_Authentication req) = Some k' /\
      credential k' = credential k /\
      ApiKey.times k' = (ApiKey.times k + Z.of_nat (List.length nows))%Z /\
      ApiKey.last_used k' = last (map Some nows) (ApiKey.last_used k) /\
      (nows <> [] ->
       committed (authorize_requests req nows w)
         = session (authorize_requests req nows w)).
Proof.
  intros req nows. induction nows as [| now rest IH]; intros w k Hk.
  - exists k. cbn. repeat split; [exact Hk | lia | congruence].
  - cbn [authorize_requests].
    destruct (authorize_request_session_rows req now w k Hk) as [Hs Hc].
    set (w1 := snd (authorize_request req now w)) in *.
    assert (Hk1 : ApiKey.get_by_code (api_keys (session w1))
                    (header_Authentication req)
                  = Some (ApiKey.set_usage now (ApiKey.times k + 1) k)).
    { rewrite Hs. cbn [api_keys with_api_keys].
      now apply get_by_code_update. }
    destruct (IH w1 _ Hk1) as (k' & Hfound & Hcred & Htimes & Hlast & Hcomm).
    exists k'. split; [exact Hfound |].
    split; [rewrite Hcred; reflexivity |].
    split; [rewrite Htimes; cbn [ApiKey.times ApiKey.set_usage List.length]; lia |].
    split.
    + rewrite Hlast. cbn [map ApiKey.last_used ApiKey.set_usage].
      symmetry. apply last_cons.
    + intros _. destruct rest as [| now' rest'].
      * cbn [authorize_requests]. exact Hc.
      * apply Hcomm. discriminate.
Qed.

End GateExtras.

(** ** Sudo mode *)

Lemma get_by_code_update_None (tbl : list ApiKey.t) (c : option string)
  (i : Z) (f : ApiKey.t -> ApiKey.t) :
  (forall r, ApiKey.code (f r) = ApiKey.code r) ->
  ApiKey.get_by_code tbl c = None ->
  ApiKey.get_by_code (ApiKey.update_where_id i f tbl) c = None.
Proof.
  intros Hf. unfold ApiKey.get_by_code, ApiKey.update_where_id.
  destruct c as [s |]; [| reflexivity].
  induction tbl as [| r tbl IH]; cbn [find map]; [reflexivity |].
  destruct (String.eqb_spec (ApiKey.code r) s) as [Hc | Hc]; [discriminate |].
  intros Hfind.
  assert (Hc' : (ApiKey.code (if (ApiKey.id r =? i)%Z then f r else r) =? s)
                = false).
  { apply String.eqb_neq. destruct (ApiKey.id r =? i)%Z; [rewrite Hf |]; exact Hc. }
  rewrite Hc'. exact (IH Hfind).
Qed.

Lemma get_by_code_added (tbl : list ApiKey.t) (c : string) (k : ApiKey.t) :
  ApiKey.get_by_code tbl (Some c) = None ->
  ApiKey.code k = c ->
  ApiKey.get_by_code (tbl ++ [k]) (Some c) = Some k.
Proof.
  unfold ApiKey.get_by_code. intros Hnone Hk.
  induction tbl as [| r tbl IH]; cbn [find app] in *.
  - rewrite Hk, String.eqb_refl. reflexivity.
  - destruct (ApiKey.code r =? c); [discriminate | exact (IH Hnone)].
Qed.

Section SudoExtras.

Context `{Collaborators}.

(** The gate lets through a request that bears the code of a key whose
    owner is neither disabled nor inactive. *)
Lemma authorize_request_passes (req : Request) (now : timestamp) (w : World)
  (k : ApiKey.t) (u : User.t) :
  ApiKey.get_by_code (api_keys (session w)) (header_Authentication req)
    = Some k ->
  User.get (users (session w)) (ApiKey.user_id k) = Some u ->
  User.disabled u = false -> is_active u = true ->
  authorize_request req now w = (Return None, passed_gate now k u w).
Proof.
  intros Hk Hu Hd Ha. rewrite (authorize_request_bearer _ _ _ _ Hk).
  unfold account_status_checks. unfold_view. cbn. rewrite Hu, Hd, Ha.
  reflexivity.
Qed.

(** X4. A sudo entry without password, with the empty password or with a
    password the account does not accept is answered 403, and stamps no
    key: every elevation is what it was. *)
Theorem sudo_view_rejects_password :
  forall (req : Request) (now_auth now : timestamp) (w : World)
         (k : ApiKey.t) (u : User.t),
    ApiKey.get_by_code (api_keys (session w)) (header_Authentication req)
      = Some k ->
    User.get (users (session w)) (ApiKey.user_id k) = Some u ->
    User.disabled u = false -> is_active u = true ->
    (data_get (get_json req) "password" = None \/
     data_get (get_json req) "password" = Some "" \/
     exists p, data_get (get_json req) "password" = Some p /\
               check_password u p = false) ->
    sudo_view req now_auth now w
      = (Return (JError "Invalid password or missing password", 403),
         passed_gate now_auth k u w) /\
    map ApiKey.sudo_mode_at (api_keys (session (passed_gate now_auth k u w)))
      = map ApiKey.sudo_mode_at (api_keys (session w)).
Proof.
  intros req now_auth now w k u Hk Hu Hd Ha Hpw.
  assert (Hv : validate_password u (data_get (get_json req) "password") = false).
  { destruct Hpw as [-> | [-> | (p & -> & Hp)]]; try reflexivity.
    unfold validate_password. rewrite Hp. destruct (p =? ""); reflexivity. }
  split.
  - unfold sudo_view, require_api_auth. unfold_view.
    rewrite (authorize_request_passes req now_auth w k u Hk Hu Hd Ha).
    unfold enter_sudo. unfold_view. cbn [g_user passed_gate set_g_api_key set_g_user].
    rewrite Hv. reflexivity.
  - cbn. unfold ApiKey.update_where_id. rewrite map_map. apply map_ext.
    intros r. destruct (ApiKey.id r =? ApiKey.id k)%Z; reflexivity.
Qed.



(** X6. A sudo entry authenticated by the session alone has no key to
    stamp: with the right password the view raises [AttributeError] on
    [g.api_key], and no row is written. *)
Theorem sudo_view_session_raises :
  forall (req : Request) (now_auth now : timestamp) (w : World) (i : Z)
         (u : User.t),
    ApiKey.get_by_code (api_keys (session w)) (header_Authentication req)
      = None ->
    login_session w = Some i ->
    User.get (users (session w)) i = Some u ->
    User.disabled u = false -> is_active u = true ->
    validate_password u (data_get (get_json req) "password") = true ->
    exists w',
      sudo_view req now_auth now w = (Raise (AttributeError "sudo_mode_at"), w') /\
      session w' = session w /\ committed w' = committed w.
Proof.
  intros req now_auth now w i u Hk Hi Hu Hd Ha Hv.
  unfold sudo_view, require_api_auth. unfold_view.
  rewrite (authorize_request_by_session req now_auth w i u Hk Hi Hu Hd Ha).
  unfold enter_sudo. unfold_view. cbn [g_user set_g_api_key set_g_user g_api_key].
  rewrite Hv. cbn [negb].
  eexists. repeat split.
Qed.

(** [create_api_key] for a body that names a device, once the gate has
    set [g.user]. *)
Lemma create_api_key_creates (req : Request) (new_code : string) (w : World)
  (u : User.t) (data : json) :
  get_json req = Some data -> data <> [] ->
  dict_contains data "device" = true ->
  g_user w = Some u ->
  create_api_key req new_code w
    = (Return (JApiKey new_code, 201),
       commit (with_session
                 (add_api_key
                    (ApiKey.fresh (api_key_seq (session w)) (User.id u)
                       (dict_get data "device") new_code)) w)).
Proof.
  intros Hdata Hne Hdev Hg. unfold create_api_key. rewrite Hdata.
  destruct data as [| kv data]; [contradiction |].
  rewrite Hdev. cbn [negb]. unfold_view. rewrite Hg. reflexivity.
Qed.

(** X7. A key created by POST /api_key carries no elevation: when its
    code is new to the table, the answer is 201 with that code, and a
    sudo-protected view requested with it is answered 440 "Sudo required"
    whatever the clock reads. *)
Theorem created_key_not_elevated :
  forall (req req' : Request) (now now' now_check : timestamp)
         (new_code : string) (f : M Response) (w : World) (k : ApiKey.t)
         (u : User.t) (data : json),
    ApiKey.get_by_code (api_keys (session w)) (header_Authentication req)
      = Some k ->
    User.get (users (session w)) (ApiKey.user_id k) = Some u ->
    User.disabled u = false -> is_active u = true ->
    get_json req = Some data -> data <> [] ->
    dict_contains data "device" = true ->
    ApiKey.get_by_code (api_keys (session w)) (Some new_code) = None ->
    header_Authentication req' = Some new_code ->
    let w1 := snd (api_key_view req now new_code w) in
    fst (api_key_view req now new_code w) = Return (JApiKey new_code, 201) /\
    fst (require_api_sudo f req' now' now_check w1)
      = Return (JError "Sudo required", 440).
Proof.
  intros req req' now now' now_check new_code f w k u data
    Hk Hu Hd Ha Hdata Hne Hdev Hnew Hreq w1.
  subst w1.
  unfold api_key_view, require_api_auth. unfold_view.
  rewrite (authorize_request_passes req now w k u Hk Hu Hd Ha).
  rewrite (create_api_key_creates req new_code (passed_gate now k u w) u data
             Hdata Hne Hdev eq_refl).
  cbn [fst snd]. split; [reflexivity |].
  set (key := ApiKey.fresh _ _ _ _).
  set (w1 := commit _).
  assert (Hk1 : ApiKey.get_by_code (api_keys (session w1))
                  (header_Authentication req') = Some key).
  { rewrite Hreq. subst w1. cbn. apply get_by_code_added; [| reflexivity].
    now apply get_by_code_update_None. }
  assert (Hid : User.id u = ApiKey.user_id k).
  { unfold User.get in Hu. apply find_In in Hu. destruct Hu as [_ Hu].
    now apply Z.eqb_eq in Hu. }
  assert (Hu1 : User.get (users (session w1)) (ApiKey.user_id key) = Some u).
  { subst w1 key. cbn. rewrite Hid. exact Hu. }
  unfold require_api_sudo. unfold_view.
  rewrite (authorize_request_passes req' now' w1 key u Hk1 Hu1 Hd Ha).
  reflexivity.
Qed.

End SudoExtras.

(** ** Further properties of login and of the second factor *)

Section LoginExtras.

Context `{Collaborators}.

(** [auth_payload] always returns, with a payload. *)
Lemma auth_payload_returns (user : User.t) (device : option string)
  (new_code : string) (w : World) :
  exists p w', auth_payload user device new_code w = (Return p, w').
Proof.
  unfold auth_payload. unfold_view.
  destruct (User.enable_otp user); [eexists _, _; reflexivity |].
  destruct (ApiKey.get_by_user_name _ _ _); eexists _, _; reflexivity.
Qed.

(** X8. On a body that is an object of strings, a login that is not
    answered 200 writes no row, opens no session and sends no mail: keys
    are issued and sessions opened only by the answer 200. What such a
    login changes is at most the list of login events, by one event that
    is not the one of a success. *)
Theorem auth_login_refusal_writes_nothing :
  forall (req : Request) (new_code : string) (w : World) (b : Body) (st : Z),
    fst (auth_login req new_code w) = Return (b, st) -> st <> 200%Z ->
    let w' := snd (auth_login req new_code w) in
    session w' = session w /\
    committed w' = committed w /\
    login_session w' = login_session w /\
    outbox w' = outbox w /\
    g_user w' = g_user w /\ g_api_key w' = g_api_key w /\
    audit_log w' = audit_log w /\
    (login_events w' = login_events w \/
     exists a, a <> LoginEvent.success /\
               login_events w' = (login_events w ++ [a])%list).
Proof.
  intros req new_code w b st Hrun Hst. cbv zeta.
  assert (Hcases :
            auth_login req new_code w = (Return (b, st), w) \/
            (exists a, a <> LoginEvent.success /\
                       auth_login req new_code w
                       = (Return (b, st), push_login_event a w))).
  { revert Hrun. unfold auth_login. cbv zeta.
    destruct (empty_body (get_json req));
      [intros [= <- <-]; left; reflexivity |].
    destruct (data_get (get_json req) "password") as [pw |];
      [| intros [= <- <-]; right; eexists; split; [| reflexivity]; discriminate].
    destruct (negb _);
      [intros [= <- <-]; right; eexists; split; [| reflexivity]; discriminate |].
    unfold_view.
    destruct (or_else _ _) as [u |];
      [| intros [= <- <-]; right; eexists; split; [| reflexivity]; discriminate].
    destruct (negb (check_password u pw));
      [intros [= <- <-]; right; eexists; split; [| reflexivity]; discriminate |].
    destruct (User.disabled u);
      [intros [= <- <-]; right; eexists; split; [| reflexivity]; discriminate |].
    destruct (User.delete_on u);
      [intros [= <- <-]; right; eexists; split; [| reflexivity]; discriminate |].
    destruct (negb (User.activated u));
      [intros [= <- <-]; right; eexists; split; [| reflexivity]; discriminate |].
    destruct (fido_enabled u && negb (User.enable_otp u));
      [intros [= <- <-]; left; reflexivity |].
    destruct (auth_payload_returns u (data_get (get_json req) "device") new_code
                (push_login_event LoginEvent.success w)) as (p & w1 & Hp).
    unfold_view. rewrite Hp. cbn [fst]. intros [= _ <-]. contradiction. }
  destruct Hcases as [-> | (a & Ha & ->)]; cbn [snd].
  - repeat split. now left.
  - repeat split. right. exists a. split; [exact Ha | reflexivity].
Qed.

(** [auth_login] for an activated, non-disabled user with a second
    factor and the right password. *)
Lemma auth_login_mfa_run (req : Request) (e pw d new_code : string)
  (w : World) (u : User.t) :
  logs_in req e pw d ->
  resolved_user w e = Some u ->
  check_password u pw = true ->
  User.disabled u = false ->
  User.delete_on u = None ->
  User.activated u = true ->
  User.enable_otp u = true ->
  auth_login req new_code w
    = (Return (JAuthPayload (User.name_or_empty u) (User.email u) true
                 (Some (sign FLASK_SECRET (py_str (User.id u)))) None, 200),
       push_login_event LoginEvent.success w).
Proof.
  intros (Hb & He & Hne & Hp & Hnp & Hd & Hnd) Hu Hpw Hdis Hdel Hact Hotp.
  unfold resolved_user in Hu. unfold auth_login. cbv zeta.
  rewrite Hb, He, Hp, Hd,
    (truthy_Some e Hne), (truthy_Some pw Hnp), (truthy_Some d Hnd).
  cbn [all forallb andb negb]. unfold_view.
  rewrite Hu, Hpw, Hdis, Hdel, Hact, Hotp. cbn [negb andb].
  rewrite andb_false_r. unfold auth_payload. rewrite Hotp. reflexivity.
Qed.


(** X10. The exchange token that login gives is the one the MFA
    completion takes: when the signer returns what it signed and [int]
    reads back what [str] wrote, a submission of that token with a code
    of the window is answered 200 with the code of a key of the same
    user for the submitted device, and opens the session of that user. *)
Theorem mfa_exchange_round_trip :
  forall (req_login req_mfa : Request) (e pw d token d' : string)
         (code_login code_mfa : string) (now : timestamp) (w : World)
         (u : User.t),
    logs_in req_login e pw d ->
    resolved_user w e = Some u ->
    check_password u pw = true ->
    User.disabled u = false ->
    User.delete_on u = None ->
    User.activated u = true ->
    User.enable_otp u = true ->
    User.get (users (session w)) (User.id u) = Some u ->
    unsign FLASK_SECRET (sign FLASK_SECRET (py_str (User.id u)))
      = Some (py_str (User.id u)) ->
    py_int (py_str (User.id u)) = Some (User.id u) ->
    submits_mfa req_mfa token (sign FLASK_SECRET (py_str (User.id u))) d' ->
    TOTP_verify (User.otp_secret u) token now 2 = true ->
    let w1 := snd (auth_login req_login code_login w) in
    fst (auth_login req_login code_login w)
      = Return (JAuthPayload (User.name_or_empty u) (User.email u) true
                  (Some (sign FLASK_SECRET (py_str (User.id u)))) None, 200) /\
    exists key w2,
      auth_mfa req_mfa now code_mfa w1
        = (Return (JMfaPayload (User.name_or_empty u) (User.email u)
                     (ApiKey.code key), 200), w2) /\
      ApiKey.user_id key = User.id u /\
      ApiKey.name key = Some d' /\
      In key (api_keys (session w2)) /\
      login_session w2 = Some (User.id u).
Proof.
  intros req_login req_mfa e pw d token d' code_login code_mfa now w u
    Hreq Hu Hpw Hdis Hdel Hact Hotp Hget Hsign Hint Hmfa Hv w1.
  subst w1.
  rewrite (auth_login_mfa_run req_login e pw d code_login w u
             Hreq Hu Hpw Hdis Hdel Hact Hotp).
  cbn [fst snd]. split; [reflexivity |].
  set (w1 := push_login_event LoginEvent.success w).
  assert (Hid : unsign_user_id (sign FLASK_SECRET (py_str (User.id u)))
                = Some (User.id u)).
  { unfold unsign_user_id. rewrite Hsign. exact Hint. }
  assert (Hget1 : User.get (users (session w1)) (User.id u) = Some u)
    by exact Hget.
  rewrite (auth_mfa_success req_mfa token _ d' now code_mfa w1 (User.id u) u
             Hmfa Hid Hget1 Hotp Hv).
  destruct (ApiKey.get_by_user_name (api_keys (session w1)) (User.id u) (Some d'))
    as [k |] eqn:Hfound.
  - exists k, (set_login_session (Some (User.id u)) w1).
    unfold ApiKey.get_by_user_name in Hfound. apply find_In in Hfound.
    destruct Hfound as [Hin Hown]. apply owned_by_pair in Hown.
    injection Hown as Hown1 Hown2.
    repeat split; assumption.
  - eexists (ApiKey.fresh _ _ _ _), _. split; [reflexivity |].
    repeat split. cbn. apply in_or_app. right. now left.
Qed.

End LoginExtras.

(** ** Further properties of activation *)

Lemma NoDup_map_In_eq {A B} (f : A -> B) (l : list A) (a b : A) :
  NoDup (map f l) -> In a l -> In b l -> f a = f b -> a = b.
Proof.
  induction l as [| x l IH]; cbn [map]; [intros _ [] |].
  intros Hnd Ha Hb Hab. apply NoDup_cons_iff in Hnd. destruct Hnd as [Hx Hnd].
  destruct Ha as [<- | Ha], Hb as [<- | Hb].
  - reflexivity.
  - exfalso. apply Hx. rewrite Hab. now apply in_map.
  - exfalso. apply Hx. rewrite <- Hab. now apply in_map.
  - now apply IH.
Qed.

(** Rows with distinct keys keep distinct keys when some are dropped. *)
Lemma distinct_keys_filter {Row Key} (key : Row -> Key) (keep : Row -> bool) :
  forall rows : list Row,
    NoDup (map key rows) -> NoDup (map key (filter keep rows)).
Proof.
  intros rows. induction rows as [| r rows IH]; intros Hdistinct.
  - exact Hdistinct.
  - apply NoDup_cons_iff in Hdistinct. destruct Hdistinct as [Hfresh Hrest].
    cbn [filter]. destruct (keep r); [| exact (IH Hrest)].
    cbn [map]. apply NoDup_cons; [| exact (IH Hrest)].
    intros Hdup. apply Hfresh. apply in_map_iff in Hdup.
    destruct Hdup as (r' & Hkey & Hkept). apply filter_In in Hkept.
    apply in_map_iff. exists r'. tauto.
Qed.

(** With one record per user, deleting the record found for a user
    leaves that user without record. *)
Lemma no_record_after_delete (tbl : list AccountActivation.t) (uid : Z)
  (aa : AccountActivation.t) :
  one_activation_per_user tbl ->
  AccountActivation.get_by_user_id tbl uid = Some aa ->
  forall a, In a (AccountActivation.delete (AccountActivation.id aa) tbl) ->
            AccountActivation.user_id a <> uid.
Proof.
  unfold one_activation_per_user, AccountActivation.get_by_user_id,
    AccountActivation.delete.
  intros Hnd Hfind a Hin Hu. apply filter_In in Hin. destruct Hin as [Hin Hid].
  apply find_In in Hfind. destruct Hfind as [Haa Huid].
  apply Z.eqb_eq in Huid.
  assert (a = aa)
    by (apply (NoDup_map_In_eq AccountActivation.user_id tbl); congruence).
  subst a. rewrite Z.eqb_refl in Hid. discriminate.
Qed.

Lemma get_by_user_id_added (tbl : list AccountActivation.t) (uid : Z)
  (a : AccountActivation.t) :
  (forall r, In r tbl -> AccountActivation.user_id r <> uid) ->
  AccountActivation.user_id a = uid ->
  AccountActivation.get_by_user_id (tbl ++ [a]) uid = Some a.
Proof.
  unfold AccountActivation.get_by_user_id. intros Hnone Ha.
  induction tbl as [| r tbl IH]; cbn [find app].
  - rewrite Ha, Z.eqb_refl. reflexivity.
  - rewrite (proj2 (Z.eqb_neq _ _) (Hnone r (or_introl eq_refl))).
    apply IH. intros r' Hr'. apply Hnone. now right.
Qed.

Lemma get_by_user_id_None (tbl : list AccountActivation.t) (uid : Z) :
  AccountActivation.get_by_user_id tbl uid = None ->
  forall r, In r tbl -> AccountActivation.user_id r <> uid.
Proof.
  unfold AccountActivation.get_by_user_id. intros Hnone r Hr Hu.
  pose proof (find_none _ _ Hnone r Hr) as Hf. cbn in Hf.
  apply Z.eqb_neq in Hf. contradiction.
Qed.

Section ActivationExtras.

Context `{Collaborators}.

(** X11. [auth_activate] gives one and the same answer, 400 "Wrong email
    or code", and changes nothing, when no user has the submitted email,
    when that user is already activated and when that user has no
    activation record: the answer tells none of the three apart. *)
Theorem auth_activate_generic_failure :
  forall (req : Request) (e c : string) (w : World),
    submits req e c ->
    (resolved_user w e = None ->
     auth_activate req w = (Return (JError "Wrong email or code", 400), w)) /\
    (forall u, resolved_user w e = Some u -> User.activated u = true ->
               auth_activate req w
                 = (Return (JError "Wrong email or code", 400), w)) /\
    (forall u, resolved_user w e = Some u -> User.activated u = false ->
               AccountActivation.get_by_user_id
                 (account_activations (session w)) (User.id u) = None ->
               auth_activate req w
                 = (Return (JError "Wrong email or code", 400), w)).
Proof.
  intros req e c w Hsub. split; [| split].
  - destruct Hsub as (Hb & He & Hne & Hc & Hnc). unfold resolved_user.
    intros Hu. unfold auth_activate. cbv zeta.
    rewrite Hb, He, Hc, (truthy_Some e Hne), (truthy_Some c Hnc).
    cbn [all forallb andb negb]. unfold_view. rewrite Hu. reflexivity.
  - destruct Hsub as (Hb & He & Hne & Hc & Hnc). unfold resolved_user.
    intros u Hu Hact. unfold auth_activate. cbv zeta.
    rewrite Hb, He, Hc, (truthy_Some e Hne), (truthy_Some c Hnc).
    cbn [all forallb andb negb]. unfold_view. rewrite Hu, Hact. reflexivity.
  - intros u Hu Hact Hnone.
    rewrite (auth_activate_resolved req e c w u Hsub Hu Hact), Hnone.
    reflexivity.
Qed.

(** X12. The retry budget is exact: when the record of an unactivated
    user has [n + 1] tries left, [n + 1] submissions of wrong codes are
    answered 400 "Wrong email or code" [n] times and then 410 "Too many
    wrong tries", after which the record is deleted. *)
Theorem retry_budget_exact :
  forall (n : nat) (reqs : list Request) (e : string) (w : World)
         (u : User.t) (aa : AccountActivation.t),
    Forall (fun req => exists c, submits req e c /\
                                 c <> AccountActivation.code aa) reqs ->
    List.length reqs = S n ->
    resolved_user w e = Some u ->
    User.activated u = false ->
    AccountActivation.get_by_user_id
      (account_activations (session w)) (User.id u) = Some aa ->
    AccountActivation.tries aa = Z.of_nat (S n) ->
    fst (auth_activate_each reqs w)
      = (repeat (Return (JError "Wrong email or code", 400)) n
         ++ [Return (JError "Too many wrong tries", 410)])%list /\
    (forall a,
        In a (account_activations (committed (snd (auth_activate_each reqs w)))) ->
        AccountActivation.id a <> AccountActivation.id aa).
Proof.
  induction n as [| n IH]; intros reqs e w u aa Hall Hlen Hu Hact Haa Htries.
  - destruct reqs as [| req [| ? ?]]; try discriminate.
    apply Forall_inv in Hall. destruct Hall as (c & Hsub & Hneq).
    cbn [auth_activate_each].
    rewrite (auth_activate_resolved req e c w u Hsub Hu Hact), Haa.
    destruct (String.eqb_spec (AccountActivation.code aa) c) as [Heq | _];
      [congruence |].
    cbn [negb]. cbv zeta. rewrite Htries. cbn.
    split; [reflexivity |]. intros a. apply In_delete_id.
  - destruct reqs as [| req rest]; [discriminate |].
    injection Hlen as Hlen.
    pose proof (Forall_inv Hall) as (c & Hsub & Hneq).
    pose proof (Forall_inv_tail Hall) as Hrest.
    cbn [auth_activate_each].
    rewrite (auth_activate_resolved req e c w u Hsub Hu Hact), Haa.
    destruct (String.eqb_spec (AccountActivation.code aa) c) as [Heq | _];
      [congruence |].
    cbn [negb]. cbv zeta.
    destruct (Z.eqb_spec (AccountActivation.tries aa - 1) 0) as [Hz | _]; [lia |].
    set (aa1 := AccountActivation.set_tries (AccountActivation.tries aa - 1) aa).
    set (w1 := commit _).
    assert (Hu1 : resolved_user w1 e = Some u) by exact Hu.
    assert (Haa1 : AccountActivation.get_by_user_id
                     (account_activations (session w1)) (User.id u) = Some aa1)
      by (subst w1; cbn; now apply get_by_user_id_update).
    assert (Htries1 : AccountActivation.tries aa1 = Z.of_nat (S n))
      by (subst aa1; cbn; lia).
    destruct (IH rest e w1 u aa1 Hrest Hlen Hu1 Hact Haa1 Htries1) as [Hans Hdel].
    destruct (auth_activate_each rest w1) as [answers w']. cbn [fst snd] in *.
    split; [rewrite Hans; reflexivity | exact Hdel].
Qed.

End ActivationExtras.

Lemma resolved_user_activated `{Collaborators} (w w1 : World) (e : string)
  (u : User.t) :
  resolved_user w e = Some u ->
  users (session w1)
    = User.update_where_id (User.id u) (User.set_activated true)
        (users (session w)) ->
  resolved_user w1 e = Some (User.set_activated true u).
Proof.
  unfold resolved_user. intros Hu Husers. rewrite Husers.
  rewrite !get_by_email_update by reflexivity.
  destruct (User.get_by_email (users (session w)) (sanitize_email (Some e)))
    as [u0 |]; cbn [or_else option_map] in *.
  - injection Hu as ->. rewrite Z.eqb_refl. reflexivity.
  - rewrite Hu. cbn [option_map]. rewrite Z.eqb_refl. reflexivity.
Qed.

Section ActivationFlow.

Context `{Collaborators}.

(** [auth_login] with the right password of a user who is not yet
    activated. *)
Lemma auth_login_not_activated (req : Request) (e pw d new_code : string)
  (w : World) (u : User.t) :
  logs_in req e pw d ->
  resolved_user w e = Some u ->
  check_password u pw = true ->
  User.disabled u = false ->
  User.delete_on u = None ->
  User.activated u = false ->
  auth_login req new_code w
    = (Return (JError "Account not activated", 403),
       push_login_event LoginEvent.not_activated w).
Proof.
  intros (Hb & He & Hne & Hp & Hnp & Hd & Hnd) Hu Hpw Hdis Hdel Hact.
  unfold resolved_user in Hu. unfold auth_login. cbv zeta.
  rewrite Hb, He, Hp, Hd,
    (truthy_Some e Hne), (truthy_Some pw Hnp), (truthy_Some d Hnd).
  cbn [all forallb andb negb]. unfold_view.
  rewrite Hu, Hpw, Hdis, Hdel, Hact. reflexivity.
Qed.

(** X13. Activation unlocks login, once: before it a login with the
    right password is answered 403 "Account not activated"; after the
    code of the record has been accepted the same login is answered 200
    with the code of a key that is a committed row of the table, of that
    user and for the submitted device, and opens the session of the
    user; a second submission of the activation code is answered 400
    "Wrong email or code" and changes nothing. *)
Theorem activation_unlocks_login :
  forall (req_a req_l : Request) (e c pw d new_code : string) (w : World)
         (u : User.t) (aa : AccountActivation.t),
    submits req_a e c ->
    logs_in req_l e pw d ->
    resolved_user w e = Some u ->
    User.activated u = false ->
    AccountActivation.get_by_user_id
      (account_activations (session w)) (User.id u) = Some aa ->
    c = AccountActivation.code aa ->
    check_password u pw = true ->
    check_password (User.set_activated true u) pw = true ->
    User.disabled u = false ->
    User.delete_on u = None ->
    fido_enabled (User.set_activated true u) = false ->
    User.enable_otp u = false ->
    let w1 := snd (auth_activate req_a w) in
    let w2 := snd (auth_login req_l new_code w1) in
    fst (auth_login req_l new_code w)
      = Return (JError "Account not activated", 403) /\
    fst (auth_activate req_a w)
      = Return (JMsg "Account is activated, user can login now", 200) /\
    (exists key,
        fst (auth_login req_l new_code w1)
          = Return (JAuthPayload (User.name_or_empty u) (User.email u) false
                      None (Some (ApiKey.code key)), 200) /\
        In key (api_keys (committed w2)) /\
        In key (api_keys (session w2)) /\
        ApiKey.user_id key = User.id u /\
        ApiKey.name key = Some d /\
        (forall k,
            ApiKey.get_by_user_name (api_keys (session w)) (User.id u)
              (Some d) = Some k -> key = k) /\
        (ApiKey.get_by_user_name (api_keys (session w)) (User.id u) (Some d)
           = None -> ApiKey.code key = new_code)) /\
    login_session w2 = Some (User.id u) /\
    auth_activate req_a w1 = (Return (JError "Wrong email or code", 400), w1).
Proof.
  intros req_a req_l e c pw d new_code w u aa Hsub Hlog Hu Hact Haa Hc
    Hpw Hpw' Hdis Hdel Hfido Hotp w1 w2.
  subst w2 w1.
  rewrite (auth_login_not_activated req_l e pw d new_code w u
             Hlog Hu Hpw Hdis Hdel Hact).
  rewrite (auth_activate_resolved req_a e c w u Hsub Hu Hact), Haa.
  subst c. rewrite String.eqb_refl. cbn [negb fst snd].
  split; [reflexivity | split; [reflexivity |]].
  set (w1 := commit _).
  set (u' := User.set_activated true u).
  assert (Hu1 : resolved_user w1 e = Some u')
    by (apply (resolved_user_activated w w1 e u Hu); reflexivity).
  assert (Hkeys : api_keys (session w1) = api_keys (session w)) by reflexivity.
  assert (Hlogin :
            exists key,
              auth_login req_l new_code w1
              = (Return (JAuthPayload (User.name_or_empty u) (User.email u)
                           false None (Some (ApiKey.code key)), 200),
                 snd (auth_login req_l new_code w1)) /\
              In key (api_keys (committed (snd (auth_login req_l new_code w1)))) /\
              In key (api_keys (session (snd (auth_login req_l new_code w1)))) /\
              ApiKey.user_id key = User.id u /\ ApiKey.name key = Some d /\
              (forall k,
                  ApiKey.get_by_user_name (api_keys (session w)) (User.id u)
                    (Some d) = Some k -> key = k) /\
              (ApiKey.get_by_user_name (api_keys (session w)) (User.id u)
                 (Some d) = None -> ApiKey.code key = new_code) /\
              login_session (snd (auth_login req_l new_code w1))
              = Some (User.id u)).
  { rewrite (auth_login_checked req_l e pw d new_code w1 u'
               Hlog Hu1 Hdis eq_refl Hotp).
    subst u'. rewrite Hpw'. cbn [negb].
    change (User.delete_on (User.set_activated true u)) with (User.delete_on u).
    rewrite Hdel, Hfido.
    change (User.id (User.set_activated true u)) with (User.id u).
    rewrite Hkeys.
    destruct (ApiKey.get_by_user_name (api_keys (session w)) (User.id u) (Some d))
      as [k |] eqn:Hfound.
    - destruct (get_by_user_name_owned _ _ _ _ Hfound) as (Hin & Hown & Hname).
      exists k. cbn [fst snd]. repeat split; try assumption.
      + congruence.
      + discriminate.
    - exists (ApiKey.fresh (api_key_seq (session w1)) (User.id u) (Some d)
                new_code).
      cbn [fst snd]. repeat split; try discriminate.
      + cbn. apply in_or_app. right. now left.
      + cbn. apply in_or_app. right. now left. }
  destruct Hlogin as (key & Hrun & Hc1 & Hc2 & Hown & Hname & Hsame & Hnew
                      & Hsession).
  split; [| split].
  - exists key. rewrite Hrun at 1. cbn [fst]. repeat split; assumption.
  - exact Hsession.
  - destruct Hsub as (Hb & He & Hne & Hcf & Hnc).
    unfold resolved_user in Hu1. unfold auth_activate. cbv zeta.
    rewrite Hb, He, Hcf, (truthy_Some e Hne), (truthy_Some _ Hnc).
    cbn [all forallb andb negb]. unfold_view. rewrite Hu1. reflexivity.
Qed.

(** The rows [auth_reactivate] leaves when it finds a record: the found
    one deleted, or the rows as they were. *)
Lemma auth_reactivate_run (req : Request) (new_code : string) (w : World)
  (u : User.t) :
  empty_body (get_json req) = false ->
  reactivation_user w req = Some u ->
  User.activated u = false ->
  let tbl :=
    match AccountActivation.get_by_user_id
            (account_activations (session w)) (User.id u) with
    | Some aa =>
        AccountActivation.delete (AccountActivation.id aa)
          (account_activations (session w))
    | None => account_activations (session w)
    end in
  let a := AccountActivation.mk (account_activation_seq (session w))
             (User.id u) new_code initial_tries in
  fst (auth_reactivate req new_code w)
    = Return (JMsg "User needs to confirm their account", 200) /\
  account_activations (session (snd (auth_reactivate req new_code w)))
    = (tbl ++ [a])%list /\
  committed (snd (auth_reactivate req new_code w))
    = session (snd (auth_reactivate req new_code w)) /\
  users (session (snd (auth_reactivate req new_code w))) = users (session w) /\
  api_keys (session (snd (auth_reactivate req new_code w)))
    = api_keys (session w).
Proof.
  intros Hb Hu Hact. unfold reactivation_user in Hu.
  unfold auth_reactivate. cbv zeta. rewrite Hb. unfold_view.
  rewrite Hu, Hact.
  destruct (AccountActivation.get_by_user_id _ _); cbn; repeat split.
Qed.

Lemma reactivated_rows (tbl : list AccountActivation.t)
  (a : AccountActivation.t) :
  one_activation_per_user tbl ->
  let tbl' :=
    match AccountActivation.get_by_user_id tbl (AccountActivation.user_id a) with
    | Some aa => AccountActivation.delete (AccountActivation.id aa) tbl
    | None => tbl
    end in
  one_activation_per_user (tbl' ++ [a]) /\
  AccountActivation.get_by_user_id (tbl' ++ [a]) (AccountActivation.user_id a)
    = Some a.
Proof.
  intros Hnd tbl'.
  assert (Hnone : forall r, In r tbl' ->
                    AccountActivation.user_id r <> AccountActivation.user_id a).
  { subst tbl'.
    destruct (AccountActivation.get_by_user_id tbl (AccountActivation.user_id a))
      as [aa |] eqn:Hfind.
    - now apply no_record_after_delete.
    - now apply get_by_user_id_None. }
  assert (Hnd' : one_activation_per_user tbl').
  { subst tbl'. destruct (AccountActivation.get_by_user_id _ _); [| exact Hnd].
    now apply distinct_keys_filter. }
  split.
  - unfold one_activation_per_user in *. rewrite map_app.
    apply NoDup_app; [exact Hnd' | |].
    + cbn. constructor; [intros [] | constructor].
    + intros x Hx [<- | []]. apply in_map_iff in Hx.
      destruct Hx as (r & Hr & Hin). exact (Hnone r Hin Hr).
  - now apply get_by_user_id_added.
Qed.

(** A row is in the table after a deletion by primary key exactly when
    it was in the table and has another key. *)
Lemma In_delete_iff (i : Z) (tbl : list AccountActivation.t)
  (r : AccountActivation.t) :
  In r (AccountActivation.delete i tbl)
  <-> In r tbl /\ AccountActivation.id r <> i.
Proof.
  unfold AccountActivation.delete. rewrite filter_In, negb_true_iff, Z.eqb_neq.
  reflexivity.
Qed.

(** C6, amended. With a non-empty body, [auth_reactivate] answers the
    same generic 400 "Something went wrong" when no user has the
    submitted email and when that user is already activated, and changes
    nothing; for a user not yet activated it answers 200 after replacing
    the activation record and sending the new code: the committed records
    are those it found, without the one it found for the user, and one
    new record for the user with the new code and the full retry budget;
    when each user had at most one record, the new one is the only record
    of the user; the outbox holds one more mail, with the new code. *)
Theorem auth_reactivate_uniform_failure :
  forall (req : Request) (new_code : string) (w : World),
    empty_body (get_json req) = false ->
    (reactivation_user w req = None ->
     auth_reactivate req new_code w
       = (Return (JError "Something went wrong", 400), w)) /\
    (forall u, reactivation_user w req = Some u ->
               User.activated u = true ->
               auth_reactivate req new_code w
                 = (Return (JError "Something went wrong", 400), w)) /\
    (forall u, reactivation_user w req = Some u ->
               User.activated u = false ->
               let w' := snd (auth_reactivate req new_code w) in
               let found :=
                 AccountActivation.get_by_user_id
                   (account_activations (session w)) (User.id u) in
               let issued :=
                 AccountActivation.mk (account_activation_seq (session w))
                   (User.id u) new_code initial_tries in
               fst (auth_reactivate req new_code w)
                 = Return (JMsg "User needs to confirm their account", 200) /\
               (exists i,
                   In (AccountActivation.mk i (User.id u) new_code initial_tries)
                      (account_activations (committed w'))) /\
               outbox w'
                 = (outbox w ++
                    [CodeActivationMail
                       (sanitize_email (data_get (get_json req) "email"))
                       (User.id u) new_code])%list /\
               (forall r,
                   In r (account_activations (committed w'))
                   <-> (In r (account_activations (session w)) /\
                        forall old, found = Some old ->
                                    AccountActivation.id r
                                    <> AccountActivation.id old)
                       \/ r = issued) /\
               (forall old,
                   found = Some old ->
                   AccountActivation.id old
                     <> account_activation_seq (session w) ->
                   ~ In old (account_activations (committed w'))) /\
               (found = None ->
                account_activations (committed w')
                  = (account_activations (session w) ++ [issued])%list) /\
               (one_activation_per_user (account_activations (session w)) ->
                AccountActivation.get_by_user_id
                  (account_activations (committed w')) (User.id u)
                  = Some issued /\
                (forall r, In r (account_activations (committed w')) ->
                           AccountActivation.user_id r = User.id u ->
                           r = issued) /\
                one_activation_per_user (account_activations (committed w'))) /\
               account_activations (session w')
                 = account_activations (committed w') /\
               users (committed w') = users (session w)).
Proof.
  intros req new_code w Hb.
  split; [| split].
  - unfold reactivation_user. intros Hu. unfold auth_reactivate. cbv zeta.
    rewrite Hb. unfold_view. rewrite Hu. reflexivity.
  - unfold reactivation_user. intros u Hu Hact. unfold auth_reactivate.
    cbv zeta. rewrite Hb. unfold_view. rewrite Hu, Hact. reflexivity.
  - intros u Hu Hact w' found issued.
    destruct (auth_reactivate_run req new_code w u Hb Hu Hact)
      as (Hresp & Hrows & Hcommit & Husers & _).
    fold w' in Hrows, Hcommit, Husers. fold found issued in Hrows.
    assert (Hcrows : account_activations (committed w')
                     = account_activations (session w'))
      by (rewrite Hcommit; reflexivity).
    assert (Hmail : outbox w'
                    = (outbox w ++
                       [CodeActivationMail
                          (sanitize_email (data_get (get_json req) "email"))
                          (User.id u) new_code])%list).
    { subst w'. unfold reactivation_user in Hu. unfold auth_reactivate.
      cbv zeta. rewrite Hb. unfold_view. rewrite Hu, Hact.
      destruct (AccountActivation.get_by_user_id _ _); reflexivity. }
    assert (Hin : forall r,
               In r (account_activations (committed w'))
               <-> (In r (account_activations (session w)) /\
                    forall old, found = Some old ->
                                AccountActivation.id r
                                <> AccountActivation.id old)
                   \/ r = issued).
    { intros r. rewrite Hcrows, Hrows, in_app_iff. cbn [In].
      destruct found as [aa |].
      - rewrite In_delete_iff. split.
        + intros [[Hr Hne] | [<- | []]]; [left | right; reflexivity].
          split; [exact Hr |]. intros old [= <-]. exact Hne.
        + intros [[Hr Hne] | ->]; [left | right; left; reflexivity].
          split; [exact Hr | exact (Hne aa eq_refl)].
      - split.
        + intros [Hr | [<- | []]]; [left | right; reflexivity].
          split; [exact Hr | discriminate].
        + intros [[Hr _] | ->]; [left; exact Hr | right; left; reflexivity]. }
    split; [exact Hresp |].
    split; [exists (account_activation_seq (session w));
            apply Hin; right; reflexivity |].
    split; [exact Hmail |].
    split; [exact Hin |].
    split; [| split; [| split; [| split]]].
    + intros old Hold Hfresh Hstill. apply Hin in Hstill.
      destruct Hstill as [[_ Hne] | Heq].
      * exact (Hne old Hold eq_refl).
      * apply Hfresh. rewrite Heq. reflexivity.
    + intros Hnone. rewrite Hcrows, Hrows, Hnone. reflexivity.
    + intros Hone.
      destruct (reactivated_rows (account_activations (session w)) issued Hone)
        as [Hone' Hfind].
      change (AccountActivation.user_id issued) with (User.id u) in Hone', Hfind.
      fold found in Hone', Hfind. rewrite <- Hrows, <- Hcrows in Hone', Hfind.
      split; [exact Hfind |]. split; [| exact Hone'].
      intros r Hr Huid.
      apply (NoDup_map_In_eq AccountActivation.user_id
               (account_activations (committed w')) r issued Hone' Hr).
      * apply Hin. right. reflexivity.
      * exact Huid.
    + symmetry. exact Hcrows.
    + rewrite Hcommit. exact Husers.
Qed.


End ActivationFlow.

(** Nobody has the first email; Bob, not yet activated, has the second:
    his record with the code 123456 is replaced by one with the new
    code. *)
Lemma auth_reactivate_uniform_failure_witness :
  auth_reactivate (H := Demo.collaborators)
    (Demo.reactivate "nobody@example.org") "654321" Demo.w0
    = (Return (JError "Something went wrong", 400), Demo.w0) /\
  auth_reactivate (H := Demo.collaborators)
    (Demo.reactivate "ann@example.org") "654321" Demo.w0
    = (Return (JError "Something went wrong", 400), Demo.w0) /\
  fst (auth_reactivate (H := Demo.collaborators)
         (Demo.reactivate "bob@example.org") "654321" Demo.w0)
    = Return (JMsg "User needs to confirm their account", 200) /\
  AccountActivation.get_by_user_id
    (account_activations
       (committed (snd (auth_reactivate (H := Demo.collaborators)
                          (Demo.reactivate "bob@example.org") "654321"
                          Demo.w0)))) 2
    = Some (AccountActivation.mk 2 2 "654321" 3) /\
  ~ In Demo.bob_activation
      (account_activations
         (committed (snd (auth_reactivate (H := Demo.collaborators)
                            (Demo.reactivate "bob@example.org") "654321"
                            Demo.w0)))).
Proof.
  split; [| split].
  - exact (proj1 (auth_reactivate_uniform_failure (H := Demo.collaborators)
                    (Demo.reactivate "nobody@example.org") "654321" Demo.w0
                    eq_refl) eq_refl).
  - exact (proj1 (proj2 (auth_reactivate_uniform_failure
                           (H := Demo.collaborators)
                           (Demo.reactivate "ann@example.org") "654321" Demo.w0
                           eq_refl)) Demo.ann eq_refl eq_refl).
  - destruct (proj2 (proj2 (auth_reactivate_uniform_failure
                              (H := Demo.collaborators)
                              (Demo.reactivate "bob@example.org") "654321"
                              Demo.w0 eq_refl)) Demo.bob eq_refl eq_refl)
      as (Hresp & _ & _ & _ & Hgone & _ & Hone & _).
    split; [exact Hresp |]. split.
    + refine (proj1 (Hone _)).
      unfold one_activation_per_user. cbn.
      constructor; [intros [] | constructor].
    + refine (Hgone Demo.bob_activation eq_refl _). discriminate.
Defined.

(** ** One activation record per user *)

Lemma activations_invariant_commit (w : World) :
  activations_invariant w -> activations_invariant (commit w).
Proof. intros [Hs _]. split; exact Hs. Qed.

Lemma activations_invariant_session (f : DB -> DB) (w : World) :
  map AccountActivation.user_id (account_activations (f (session w)))
    = map AccountActivation.user_id (account_activations (session w)) ->
  activations_invariant w -> activations_invariant (with_session f w).
Proof.
  intros Hf [Hs Hc]. split; [| exact Hc].
  unfold one_activation_per_user in *. cbn. rewrite Hf. exact Hs.
Qed.

Lemma activations_invariant_api_keys (f : list ApiKey.t -> list ApiKey.t)
  (w : World) :
  activations_invariant w -> activations_invariant (with_session (with_api_keys f) w).
Proof. now apply activations_invariant_session. Qed.

Lemma activations_invariant_users (f : list User.t -> list User.t) (w : World) :
  activations_invariant w -> activations_invariant (with_session (with_users f) w).
Proof. now apply activations_invariant_session. Qed.

Lemma activations_invariant_add_api_key (k : ApiKey.t) (w : World) :
  activations_invariant w -> activations_invariant (with_session (add_api_key k) w).
Proof. now apply activations_invariant_session. Qed.

Lemma activations_invariant_set_tries (i n : Z) (w : World) :
  activations_invariant w ->
  activations_invariant
    (with_session
       (with_account_activations
          (AccountActivation.update_where_id i (AccountActivation.set_tries n))) w).
Proof.
  apply activations_invariant_session. cbn.
  unfold AccountActivation.update_where_id. rewrite map_map. apply map_ext.
  intros a. destruct (AccountActivation.id a =? i)%Z; reflexivity.
Qed.

Lemma activations_invariant_delete (i : Z) (w : World) :
  activations_invariant w ->
  activations_invariant
    (with_session (with_account_activations (AccountActivation.delete i)) w).
Proof.
  intros [Hs Hc]. split; [| exact Hc]. cbn.
  unfold one_activation_per_user, AccountActivation.delete in *.
  now apply distinct_keys_filter.
Qed.

Create HintDb activations discriminated.

#[export] Hint Resolve activations_invariant_commit
  activations_invariant_api_keys activations_invariant_users
  activations_invariant_add_api_key activations_invariant_set_tries
  activations_invariant_delete : activations.

Ltac preserve_activations :=
  unfold Session_commit, login_user, LoginEvent_send, current_user,
    user_by_emails, AccountActivation_delete, ApiKey_create;
  repeat first
    [ apply preserves_ret
    | apply preserves_raise
    | apply preserves_gets
    | apply preserves_bind; [| intros]
    | apply preserves_modify; intros;
      first [assumption | solve [auto with activations]]
    | match goal with
      | |- preserves _ (if ?b then _ else _) => destruct b
      | |- preserves _ (match ?x with _ => _ end) => destruct x
      end ].

Section ActivationInvariant.

Context `{Collaborators}.

Lemma preserves_activations_auth_reactivate (req : Request) (new_code : string) :
  preserves activations_invariant (auth_reactivate req new_code).
Proof.
  intros w Hw.
  destruct (empty_body (get_json req)) eqn:Hb.
  { unfold auth_reactivate. cbv zeta. rewrite Hb. exact Hw. }
  destruct (reactivation_user w req) as [u |] eqn:Hu.
  2: { unfold reactivation_user in Hu. unfold auth_reactivate. cbv zeta.
       rewrite Hb. unfold_view. rewrite Hu. exact Hw. }
  destruct (User.activated u) eqn:Hact.
  { unfold reactivation_user in Hu. unfold auth_reactivate. cbv zeta.
    rewrite Hb. unfold_view. rewrite Hu, Hact. exact Hw. }
  destruct (auth_reactivate_run req new_code w u Hb Hu Hact)
    as (_ & Htbl & Hcomm & _).
  destruct Hw as [Hs _].
  destruct (reactivated_rows (account_activations (session w))
              (AccountActivation.mk (account_activation_seq (session w))
                 (User.id u) new_code initial_tries) Hs) as [Hnd _].
  unfold activations_invariant. rewrite Hcomm, Htbl. split; exact Hnd.
Qed.

(** X15. Every view keeps at most one activation record per user, in the
    session and in the committed rows: the gate, the sudo entry, the
    creation of a key, login, the MFA completion, activation, and
    re-activation, which deletes the record it finds before it adds
    one. *)
Theorem views_keep_one_activation_per_user :
  (forall req now, preserves activations_invariant (authorize_request req now)) /\
  (forall req now_auth now,
      preserves activations_invariant (sudo_view req now_auth now)) /\
  (forall req now new_code,
      preserves activations_invariant (api_key_view req now new_code)) /\
  (forall req new_code, preserves activations_invariant (auth_login req new_code)) /\
  (forall req now new_code,
      preserves activations_invariant (auth_mfa req now new_code)) /\
  (forall req, preserves activations_invariant (auth_activate req)) /\
  (forall req new_code,
      preserves activations_invariant (auth_reactivate req new_code)).
Proof.
  assert (Hgate : forall req now,
             preserves activations_invariant (authorize_request req now)).
  { intros req now. unfold authorize_request, account_status_checks. cbv zeta.
    preserve_activations. }
  repeat match goal with |- _ /\ _ => split end.
  - exact Hgate.
  - intros req now_auth now. unfold sudo_view, require_api_auth.
    apply preserves_bind; [apply Hgate | intros [e |]; [apply preserves_ret |]].
    unfold enter_sudo. cbv zeta. preserve_activations.
  - intros req now new_code. unfold api_key_view, require_api_auth.
    apply preserves_bind; [apply Hgate | intros [e |]; [apply preserves_ret |]].
    unfold create_api_key. preserve_activations.
  - intros req new_code. unfold auth_login, auth_payload. cbv zeta.
    preserve_activations.
  - intros req now new_code. unfold auth_mfa. cbv zeta. preserve_activations.
  - intros req. unfold auth_activate. cbv zeta. preserve_activations.
  - apply preserves_activations_auth_reactivate.
Qed.

End ActivationInvariant.

(** ** Malformed requests, and the key of a login at the gate *)

Lemma get_by_code_In (tbl : list ApiKey.t) (k : ApiKey.t) :
  NoDup (map ApiKey.code tbl) -> In k tbl ->
  ApiKey.get_by_code tbl (Some (ApiKey.code k)) = Some k.
Proof.
  intros Hnd Hin. unfold ApiKey.get_by_code.
  destruct (find _ tbl) as [k' |] eqn:Hfind.
  - apply find_In in Hfind. destruct Hfind as [Hin' Hc].
    apply String.eqb_eq in Hc. f_equal.
    now apply (NoDup_map_In_eq ApiKey.code tbl).
  - pose proof (find_none _ _ Hfind k Hin) as Hc. cbn in Hc.
    rewrite String.eqb_refl in Hc. discriminate.
Qed.

Section Malformed.

Context `{Collaborators}.


End Malformed.

Section LoginThenGate.

Context `{Collaborators}.

(** X17. The code a login answers with opens the gate for its user: when
    the codes of the table are distinct and the code drawn for a new key
    is new to the table, a request that bears the answered code passes
    the gate as the user who logged in, with the key of the submitted
    device published in [g.api_key]. *)
Theorem login_key_passes_gate :
  forall (req_l : Request) (e pw d new_code : string) (w : World) (u : User.t),
    logs_in req_l e pw d ->
    resolved_user w e = Some u ->
    check_password u pw = true ->
    User.disabled u = false ->
    User.delete_on u = None ->
    User.activated u = true ->
    fido_enabled u = false ->
    User.enable_otp u = false ->
    User.get (users (session w)) (User.id u) = Some u ->
    is_active u = true ->
    NoDup (map ApiKey.code (api_keys (session w))) ->
    ApiKey.get_by_code (api_keys (session w)) (Some new_code) = None ->
    exists c,
      fst (auth_login req_l new_code w)
        = Return (JAuthPayload (User.name_or_empty u) (User.email u) false
                    None (Some c), 200) /\
      forall (req : Request) (now : timestamp),
        header_Authentication req = Some c ->
        exists w2 k,
          authorize_request req now (snd (auth_login req_l new_code w))
            = (Return None, w2) /\
          g_user w2 = Some u /\
          g_api_key w2 = Some k /\
          ApiKey.code k = c /\
          ApiKey.user_id k = User.id u /\
          ApiKey.name k = Some d.
Proof.
  intros req_l e pw d new_code w u Hlog Hu Hpw Hdis Hdel Hact Hfido Hotp
    Hget Hactive Hnd Hnew.
  rewrite (auth_login_checked req_l e pw d new_code w u Hlog Hu Hdis Hact Hotp).
  rewrite Hpw, Hdel, Hfido. cbn [negb].
  destruct (ApiKey.get_by_user_name (api_keys (session w)) (User.id u) (Some d))
    as [k |] eqn:Hfound.
  - exists (ApiKey.code k). cbn [fst snd]. split; [reflexivity |].
    intros req now Hreq.
    unfold ApiKey.get_by_user_name in Hfound. apply find_In in Hfound.
    destruct Hfound as [Hin Hown]. apply owned_by_pair in Hown.
    injection Hown as Hown1 Hown2.
    set (w1 := set_login_session _ _).
    assert (Hk1 : ApiKey.get_by_code (api_keys (session w1))
                    (header_Authentication req) = Some k)
      by (rewrite Hreq; now apply get_by_code_In).
    assert (Hu1 : User.get (users (session w1)) (ApiKey.user_id k) = Some u)
      by (rewrite Hown1; exact Hget).
    exists (passed_gate now k u w1), (ApiKey.set_usage now (ApiKey.times k + 1) k).
    split; [now apply authorize_request_passes |].
    repeat split; assumption.
  - exists new_code. cbn [fst snd]. split; [reflexivity |].
    intros req now Hreq.
    set (key := ApiKey.fresh _ _ _ _).
    set (w1 := set_login_session _ _).
    assert (Hk1 : ApiKey.get_by_code (api_keys (session w1))
                    (header_Authentication req) = Some key)
      by (rewrite Hreq; subst w1; cbn; now apply get_by_code_added).
    assert (Hu1 : User.get (users (session w1)) (ApiKey.user_id key) = Some u)
      by exact Hget.
    exists (passed_gate now key u w1),
           (ApiKey.set_usage now (ApiKey.times key + 1) key).
    split; [now apply authorize_request_passes |].
    repeat split.
Qed.

End LoginThenGate.

(** ** The further properties at work *)

(** A request with neither code nor session is answered 401. *)
Lemma authorize_request_identity_witness :
  authorize_request (H := Demo.collaborators) (Demo.anonymous []) 5000 Demo.w0
  = (Return (Some (JError "Wrong API key", 401)), Demo.w0).
Proof.
  refine (proj1 (authorize_request_identity (H := Demo.collaborators)
                   (Demo.anonymous []) 5000 Demo.w0) eq_refl _).
  intros i Hi. discriminate Hi.
Defined.

(** Three requests with the code of Ann's phone raise its counter from 7
    to 10 and leave its last use at the third. *)
Lemma authorize_requests_count_witness :
  option_map (fun k => (ApiKey.times k, ApiKey.last_used k))
    (ApiKey.get_by_code
       (api_keys (session (authorize_requests (H := Demo.collaborators)
                             (Demo.bearer "key-ann-phone" []) [10; 20; 30]%Z
                             Demo.w0)))
       (Some "key-ann-phone"))
  = Some (10%Z, Some 30%Z).
Proof.
  destruct (authorize_requests_count (H := Demo.collaborators)
              (Demo.bearer "key-ann-phone" []) [10; 20; 30]%Z Demo.w0
              Demo.ann_phone eq_refl) as (k' & Hfound & _ & Htimes & Hlast & _).
  change (header_Authentication (Demo.bearer "key-ann-phone" []))
    with (Some "key-ann-phone") in Hfound.
  rewrite Hfound. cbn [option_map]. rewrite Htimes, Hlast. reflexivity.
Defined.

(** Ann's phone asks for sudo mode with a wrong password. *)
Lemma sudo_view_rejects_password_witness :
  fst (sudo_view (H := Demo.collaborators)
         (Demo.bearer "key-ann-phone" [("password", "letmein")]) 1000 1001
         Demo.w0)
  = Return (JError "Invalid password or missing password", 403).
Proof.
  rewrite (proj1 (sudo_view_rejects_password (H := Demo.collaborators)
                    (Demo.bearer "key-ann-phone" [("password", "letmein")])
                    1000 1001 Demo.w0 Demo.ann_phone Demo.ann
                    eq_refl eq_refl eq_refl eq_refl
                    (or_intror (or_intror
                       (ex_intro _ "letmein" (conj eq_refl eq_refl)))))).
  reflexivity.
Defined.


(** Ann asks for sudo mode from her web session. *)
Lemma sudo_view_session_raises_witness :
  fst (sudo_view (H := Demo.collaborators)
         (Demo.anonymous [("password", "hunter22")]) 1000 1001
         Demo2.w_ann_session)
  = Raise (AttributeError "sudo_mode_at").
Proof.
  destruct (sudo_view_session_raises (H := Demo.collaborators)
              (Demo.anonymous [("password", "hunter22")]) 1000 1001
              Demo2.w_ann_session 1%Z Demo.ann
              eq_refl eq_refl eq_refl eq_refl eq_refl eq_refl)
    as (w' & Hrun & _).
  rewrite Hrun. reflexivity.
Defined.

(** Ann's phone creates a key for her watch; the new key has no sudo
    mode. *)
Lemma created_key_not_elevated_witness :
  fst (api_key_view (H := Demo.collaborators)
         (Demo.bearer "key-ann-phone" [("device", "watch")]) 2000 "key-watch"
         Demo.w0)
    = Return (JApiKey "key-watch", 201) /\
  fst (require_api_sudo (H := Demo.collaborators) (ret (JOk, 200%Z))
         (Demo.bearer "key-watch" []) 2001 2002
         (snd (api_key_view (H := Demo.collaborators)
                 (Demo.bearer "key-ann-phone" [("device", "watch")]) 2000
                 "key-watch" Demo.w0)))
    = Return (JError "Sudo required", 440).
Proof.
  exact (created_key_not_elevated (H := Demo.collaborators)
           (Demo.bearer "key-ann-phone" [("device", "watch")])
           (Demo.bearer "key-watch" []) 2000 2001 2002 "key-watch"
           (ret (JOk, 200%Z)) Demo.w0 Demo.ann_phone Demo.ann
           [("device", "watch")]
           eq_refl eq_refl eq_refl eq_refl eq_refl ltac:(discriminate)
           eq_refl eq_refl eq_refl).
Defined.

(** Bob, not yet activated, logs in with his password: no row changes. *)
Lemma auth_login_refusal_writes_nothing_witness :
  session (snd (auth_login (H := Demo.collaborators)
                  (Demo.login "bob@example.org" "correct horse" "phone") "k"
                  Demo.w0))
  = session Demo.w0.
Proof.
  exact (proj1 (auth_login_refusal_writes_nothing
                  (H := Demo.collaborators)
                  (Demo.login "bob@example.org" "correct horse" "phone")
                  "k" Demo.w0
                  (JError "Account not activated") 403%Z eq_refl
                  ltac:(discriminate))).
Defined.

Lemma logs_in_demo (e pw d : string) :
  e <> "" -> pw <> "" -> d <> "" -> logs_in (Demo.login e pw d) e pw d.
Proof.
  intros He Hpw Hd. unfold logs_in, Demo.login, Demo.anonymous. cbn.
  repeat split; assumption.
Qed.


(** Dan completes his login with the token it gave and a code of the
    current time step. *)
Lemma mfa_exchange_round_trip_witness :
  fst (auth_mfa (H := Demo.collaborators)
         (Demo.mfa "JBSWY3DPe" "s3cr3t.4" "tablet") 0 "k9"
         (snd (auth_login (H := Demo.collaborators)
                 (Demo.login "dan@example.org" "pa55word" "tablet") "k"
                 Demo.w0)))
  = Return (JMfaPayload "" "dan@example.org" "k9", 200).
Proof.
  assert (Hmfa : submits_mfa (Demo.mfa "JBSWY3DPe" "s3cr3t.4" "tablet")
                   "JBSWY3DPe" "s3cr3t.4" "tablet").
  { unfold submits_mfa. cbn. repeat split; discriminate. }
  destruct (mfa_exchange_round_trip (H := Demo.collaborators)
              (Demo.login "dan@example.org" "pa55word" "tablet")
              (Demo.mfa "JBSWY3DPe" "s3cr3t.4" "tablet")
              "dan@example.org" "pa55word" "tablet" "JBSWY3DPe" "tablet"
              "k" "k9" 0%Z Demo.w0 Demo.dan
              (logs_in_demo "dan@example.org" "pa55word" "tablet"
                 ltac:(discriminate) ltac:(discriminate) ltac:(discriminate))
              eq_refl eq_refl eq_refl eq_refl eq_refl eq_refl eq_refl
              eq_refl eq_refl Hmfa eq_refl)
    as (_ & key & w2 & Hrun & _).
  rewrite Hrun. cbn [fst].
  assert (Hcode : fst (auth_mfa (H := Demo.collaborators)
                         (Demo.mfa "JBSWY3DPe" "s3cr3t.4" "tablet") 0 "k9"
                         (snd (auth_login (H := Demo.collaborators)
                                 (Demo.login "dan@example.org" "pa55word" "tablet")
                                 "k" Demo.w0)))
                  = Return (JMfaPayload "" "dan@example.org" "k9", 200))
    by reflexivity.
  rewrite Hrun in Hcode. exact Hcode.
Defined.

Lemma submits_demo (e c : string) :
  e <> "" -> c <> "" -> submits (Demo.activate e c) e c.
Proof.
  intros He Hc. unfold submits, Demo.activate, Demo.anonymous. cbn.
  repeat split; assumption.
Qed.

(** Nobody has the first email, Ann is activated, and Bob's record is
    gone: one answer for the three. *)
Lemma auth_activate_generic_failure_witness :
  auth_activate (H := Demo.collaborators)
    (Demo.activate "nobody@example.org" "123456") Demo.w0
    = (Return (JError "Wrong email or code", 400), Demo.w0) /\
  auth_activate (H := Demo.collaborators)
    (Demo.activate "ann@example.org" "123456") Demo.w0
    = (Return (JError "Wrong email or code", 400), Demo.w0) /\
  auth_activate (H := Demo.collaborators)
    (Demo.activate "bob@example.org" "123456") Demo2.w_no_record
    = (Return (JError "Wrong email or code", 400), Demo2.w_no_record).
Proof.
  split; [| split].
  - exact (proj1 (auth_activate_generic_failure (H := Demo.collaborators)
                    (Demo.activate "nobody@example.org" "123456")
                    "nobody@example.org" "123456" Demo.w0
                    (submits_demo "nobody@example.org" "123456" ltac:(discriminate)
                       ltac:(discriminate)))
             eq_refl).
  - exact (proj1 (proj2 (auth_activate_generic_failure (H := Demo.collaborators)
                           (Demo.activate "ann@example.org" "123456")
                           "ann@example.org" "123456" Demo.w0
                           (submits_demo "ann@example.org" "123456" ltac:(discriminate)
                       ltac:(discriminate))))
             Demo.ann eq_refl eq_refl).
  - exact (proj2 (proj2 (auth_activate_generic_failure (H := Demo.collaborators)
                           (Demo.activate "bob@example.org" "123456")
                           "bob@example.org" "123456" Demo2.w_no_record
                           (submits_demo "bob@example.org" "123456" ltac:(discriminate)
                       ltac:(discriminate))))
             Demo.bob eq_refl eq_refl eq_refl).
Defined.

(** Bob has three tries and submits three wrong codes. *)
Lemma retry_budget_exact_witness :
  fst (auth_activate_each (H := Demo.collaborators)
         [Demo.activate "bob@example.org" "000000";
          Demo.activate "bob@example.org" "111111";
          Demo.activate "bob@example.org" "222222"] Demo.w3)
  = [Return (JError "Wrong email or code", 400);
     Return (JError "Wrong email or code", 400);
     Return (JError "Too many wrong tries", 410)].
Proof.
  refine (proj1 (retry_budget_exact (H := Demo.collaborators) 2
                   [Demo.activate "bob@example.org" "000000";
                    Demo.activate "bob@example.org" "111111";
                    Demo.activate "bob@example.org" "222222"]
                   "bob@example.org" Demo.w3 Demo.bob Demo.bob_activation3
                   _ eq_refl eq_refl eq_refl eq_refl eq_refl)).
  repeat constructor.
  - exists "000000". split; [apply submits_demo |]; discriminate.
  - exists "111111". split; [apply submits_demo |]; discriminate.
  - exists "222222". split; [apply submits_demo |]; discriminate.
Defined.

(** Bob cannot log in, activates his account, and can. *)
Lemma activation_unlocks_login_witness :
  fst (auth_login (H := Demo.collaborators)
         (Demo.login "bob@example.org" "correct horse" "phone") "k" Demo.w0)
    = Return (JError "Account not activated", 403) /\
  fst (auth_login (H := Demo.collaborators)
         (Demo.login "bob@example.org" "correct horse" "phone") "k"
         (snd (auth_activate (H := Demo.collaborators)
                 (Demo.activate "bob@example.org" "123456") Demo.w0)))
    = Return (JAuthPayload "" "bob@example.org" false None (Some "k"), 200).
Proof.
  destruct (activation_unlocks_login (H := Demo.collaborators)
              (Demo.activate "bob@example.org" "123456")
              (Demo.login "bob@example.org" "correct horse" "phone")
              "bob@example.org" "123456" "correct horse" "phone" "k"
              Demo.w0 Demo.bob Demo.bob_activation
              (submits_demo "bob@example.org" "123456" ltac:(discriminate)
                       ltac:(discriminate))
              (logs_in_demo "bob@example.org" "correct horse" "phone"
                 ltac:(discriminate) ltac:(discriminate) ltac:(discriminate))
              eq_refl eq_refl eq_refl eq_refl eq_refl eq_refl eq_refl
              eq_refl eq_refl eq_refl)
    as (Hbefore & _ & (key & Hafter & _) & _).
  split; [exact Hbefore |].
  assert (Hcode : fst (auth_login (H := Demo.collaborators)
                         (Demo.login "bob@example.org" "correct horse" "phone")
                         "k"
                         (snd (auth_activate (H := Demo.collaborators)
                                 (Demo.activate "bob@example.org" "123456")
                                 Demo.w0)))
                  = Return (JAuthPayload "" "bob@example.org" false None
                              (Some "k"), 200))
    by reflexivity.
  rewrite Hafter in *. exact Hcode.
Defined.


(** Bob asks for a new code: he still has one record. *)
Lemma views_keep_one_activation_per_user_witness :
  activations_invariant
    (snd (auth_reactivate (H := Demo.collaborators)
            (Demo.reactivate "bob@example.org") "654321" Demo.w0)).
Proof.
  refine (proj2 (proj2 (proj2 (proj2 (proj2 (proj2
            (views_keep_one_activation_per_user (H := Demo.collaborators)))))))
            (Demo.reactivate "bob@example.org") "654321" Demo.w0 _).
  assert (Hnd : one_activation_per_user (account_activations Demo.db0)).
  { unfold one_activation_per_user. cbn. repeat constructor. intros []. }
  split; exact Hnd.
Defined.


(** Ann logs in from a tablet and uses the code she got. *)
Lemma login_key_passes_gate_witness :
  fst (authorize_request (H := Demo.collaborators) (Demo.bearer "k1" []) 3000
         (snd (auth_login (H := Demo.collaborators)
                 (Demo.login "ann@example.org" "hunter22" "tablet") "k1"
                 Demo.w0)))
  = Return None.
Proof.
  assert (Hnd : NoDup (map ApiKey.code (api_keys (session Demo.w0)))).
  { cbn. repeat constructor; cbn; intuition discriminate. }
  destruct (login_key_passes_gate (H := Demo.collaborators)
              (Demo.login "ann@example.org" "hunter22" "tablet")
              "ann@example.org" "hunter22" "tablet" "k1" Demo.w0 Demo.ann
              (logs_in_demo "ann@example.org" "hunter22" "tablet"
                 ltac:(discriminate) ltac:(discriminate) ltac:(discriminate))
              eq_refl eq_refl eq_refl eq_refl eq_refl eq_refl eq_refl
              eq_refl eq_refl Hnd eq_refl) as (c & Hlogin & Hgate).
  assert (Hc : c = "k1").
  { assert (Hcode : fst (auth_login (H := Demo.collaborators)
                           (Demo.login "ann@example.org" "hunter22" "tablet")
                           "k1" Demo.w0)
                    = Return (JAuthPayload "Ann" "ann@example.org" false None
                                (Some "k1"), 200)) by reflexivity.
    rewrite Hlogin in Hcode. now injection Hcode as <-. }
  subst c.
  destruct (Hgate (Demo.bearer "k1" []) 3000%Z eq_refl) as (w2 & k & Hrun & _).
  rewrite Hrun. reflexivity.
Defined.

(** ** The views outside the login flows *)

Ltac unfold_site :=
  cbv beta delta
    [vbind vret vraise vgets vmodify vcatch lift Job_create
     ApiToCookieToken_create RegisterEvent_send send_reset_password_email
     User_create get_reservation_for_user get_messages_for_reservation
     bind ret raise gets modify Session_commit login_user current_user
     LoginEvent_send AccountActivation_delete AccountActivation_create
     ApiKey_create user_by_emails] in *.

Section AccountViews.

Context `{Collaborators} `{SiteCollaborators}.

(** The gate, run inside the site, for a request that bears the code of
    a key whose owner is neither disabled nor inactive. *)
Lemma site_gate_passes (req : Request) (now : timestamp) (s : Site)
  (k : ApiKey.t) (u : User.t) :
  ApiKey.get_by_code (api_keys (session (core s))) (header_Authentication req)
    = Some k ->
  User.get (users (session (core s))) (ApiKey.user_id k) = Some u ->
  User.disabled u = false -> is_active u = true ->
  lift (authorize_request req now) s
    = (Return None, with_core (fun _ => passed_gate now k u (core s)) s).
Proof.
  intros Hk Hu Hd Ha. unfold lift.
  rewrite (authorize_request_passes req now (core s) k u Hk Hu Hd Ha).
  reflexivity.
Qed.

(** The same for a request authenticated by the session alone. *)
Lemma site_gate_by_session (req : Request) (now : timestamp) (s : Site)
  (i : Z) (u : User.t) :
  ApiKey.get_by_code (api_keys (session (core s))) (header_Authentication req)
    = None ->
  login_session (core s) = Some i ->
  User.get (users (session (core s))) i = Some u ->
  User.disabled u = false -> is_active u = true ->
  lift (authorize_request req now) s
    = (Return None,
       with_core (fun _ => set_g_api_key None (set_g_user (Some u) (core s))) s).
Proof.
  intros Hk Hi Hu Hd Ha. unfold lift.
  rewrite (authorize_request_by_session req now (core s) i u Hk Hi Hu Hd Ha).
  reflexivity.
Qed.

(** The site after the gate has let a key through. *)
Lemma site_require_api_sudo_by_key (f : V SiteResponse) (req : Request)
  (now now_check : timestamp) (s : Site) (k : ApiKey.t) (u : User.t) :
  ApiKey.get_by_code (api_keys (session (core s))) (header_Authentication req)
    = Some k ->
  User.get (users (session (core s))) (ApiKey.user_id k) = Some u ->
  User.disabled u = false -> is_active u = true ->
  site_require_api_sudo f req now now_check s
    = if check_sudo now_check (Some k)
      then f (with_core (fun _ => passed_gate now k u (core s)) s)
      else (Return (Core (JError "Sudo required"), 440%Z),
            with_core (fun _ => passed_gate now k u (core s)) s).
Proof.
  intros Hk Hu Hd Ha. unfold site_require_api_sudo, vbind.
  rewrite (site_gate_passes req now s k u Hk Hu Hd Ha).
  unfold lift, gets, vret.
  change (g_api_key (core (with_core (fun _ => passed_gate now k u (core s)) s)))
    with (Some (ApiKey.set_usage now (ApiKey.times k + 1) k)).
  change (check_sudo now_check
            (Some (ApiKey.set_usage now (ApiKey.times k + 1) k)))
    with (check_sudo now_check (Some k)).
  destruct (check_sudo now_check (Some k)); reflexivity.
Qed.

Lemma site_require_api_auth_by_key (f : V SiteResponse) (req : Request)
  (now : timestamp) (s : Site) (k : ApiKey.t) (u : User.t) :
  ApiKey.get_by_code (api_keys (session (core s))) (header_Authentication req)
    = Some k ->
  User.get (users (session (core s))) (ApiKey.user_id k) = Some u ->
  User.disabled u = false -> is_active u = true ->
  site_require_api_auth f req now s
    = f (with_core (fun _ => passed_gate now k u (core s)) s).
Proof.
  intros Hk Hu Hd Ha. unfold site_require_api_auth, vbind.
  rewrite (site_gate_passes req now s k u Hk Hu Hd Ha). reflexivity.
Qed.

Lemma site_require_api_auth_by_session (f : V SiteResponse) (req : Request)
  (now : timestamp) (s : Site) (i : Z) (u : User.t) :
  ApiKey.get_by_code (api_keys (session (core s))) (header_Authentication req)
    = None ->
  login_session (core s) = Some i ->
  User.get (users (session (core s))) i = Some u ->
  User.disabled u = false -> is_active u = true ->
  site_require_api_auth f req now s
    = f (with_core
           (fun _ => set_g_api_key None (set_g_user (Some u) (core s))) s).
Proof.
  intros Hk Hi Hu Hd Ha. unfold site_require_api_auth, vbind.
  rewrite (site_gate_by_session req now s i u Hk Hi Hu Hd Ha). reflexivity.
Qed.

(** X18. The deletion of an account is scheduled by an elevated request
    only. For a request that bears the code of a key of a user in good
    standing: without live elevation the answer is 440 "Sudo required",
    and no job and no audit entry is added; with it, one job
    [JOB_DELETE_ACCOUNT] for the user is added, to run now, with the audit
    entry, the answer is [HTTP_STATUS_OK], and the row of the user is in
    the table as it was. *)
Theorem delete_user_needs_elevation :
  forall (req : Request) (now_auth now_check now : timestamp) (s : Site)
         (k : ApiKey.t) (u : User.t),
    ApiKey.get_by_code (api_keys (session (core s))) (header_Authentication req)
      = Some k ->
    User.get (users (session (core s))) (ApiKey.user_id k) = Some u ->
    User.disabled u = false -> is_active u = true ->
    let s' := snd (delete_user_view req now_auth now_check now s) in
    (check_sudo now_check (Some k) = false ->
     fst (delete_user_view req now_auth now_check now s)
       = Return (Core (JError "Sudo required"), 440%Z) /\
     jobs s' = jobs s /\ deletion_audit_log s' = deletion_audit_log s) /\
    (check_sudo now_check (Some k) = true ->
     fst (delete_user_view req now_auth now_check now s)
       = Return (Core JOk, HTTP_STATUS_OK) /\
     jobs s' = (jobs s ++ [Job.mk JOB_DELETE_ACCOUNT (User.id u) now])%list /\
     deletion_audit_log s'
       = (deletion_audit_log s ++ [(User.id u, LOG_DELETE_USER u)])%list /\
     users (committed (core s')) = users (session (core s))).
Proof.
  intros req now_auth now_check now s k u Hk Hu Hd Ha s'. subst s'.
  unfold delete_user_view.
  rewrite (site_require_api_sudo_by_key _ req now_auth now_check s k u
             Hk Hu Hd Ha).
  split; intros Hsudo; rewrite Hsudo.
  - repeat split.
  - unfold delete_user. unfold_site. cbn. repeat split.
Qed.

(** X19. The token for a cookie session is bound to the key of the
    request: a request that bears the code of a key gets a token for its
    user and that key with [HTTP_STATUS_OK]; a request authenticated by
    the session alone has no key, the view fails on [g.api_key], and the
    answer is "Failed to generate session token" with
    [HTTP_STATUS_SERVER_ERROR] and no token. *)
Theorem cookie_token_bound_to_key :
  forall (req : Request) (now : timestamp) (new_code : string) (s : Site)
         (u : User.t),
    User.disabled u = false -> is_active u = true ->
    let s' := snd (cookie_token_view req now new_code s) in
    (forall k,
        ApiKey.get_by_code (api_keys (session (core s)))
          (header_Authentication req) = Some k ->
        User.get (users (session (core s))) (ApiKey.user_id k) = Some u ->
        fst (cookie_token_view req now new_code s)
          = Return (JToken new_code, HTTP_STATUS_OK) /\
        api_to_cookie_tokens s'
          = (api_to_cookie_tokens s
             ++ [ApiToCookieToken.mk (User.id u) (ApiKey.id k) new_code])%list) /\
    (forall i,
        ApiKey.get_by_code (api_keys (session (core s)))
          (header_Authentication req) = None ->
        login_session (core s) = Some i ->
        User.get (users (session (core s))) i = Some u ->
        fst (cookie_token_view req now new_code s)
          = Return (Core (JError "Failed to generate session token"),
                    HTTP_STATUS_SERVER_ERROR) /\
        api_to_cookie_tokens s' = api_to_cookie_tokens s).
Proof.
  intros req now new_code s u Hd Ha s'. subst s'.
  unfold cookie_token_view. split.
  - intros k Hk Hu.
    rewrite (site_require_api_auth_by_key _ req now s k u Hk Hu Hd Ha).
    unfold get_api_session_token. unfold_site. cbn. repeat split.
  - intros i Hk Hi Hu.
    rewrite (site_require_api_auth_by_session _ req now s i u Hk Hi Hu Hd Ha).
    unfold get_api_session_token. unfold_site. cbn. repeat split.
Qed.

(** X20. A forgotten-password request with an email is answered 200 with
    [ok] whether or not a user has that email; when none has, nothing
    changes; when one has, the reset mail is for that user, and no row of
    the login flows changes. Without body or email the answer is 400
    "Email is required". *)
Theorem forgot_password_uniform :
  forall (req : Request) (s : Site),
    (empty_body (get_json req) = true \/
     truthy (data_get (get_json req) "email") = false ->
     handle_forgot_password req s
       = (Return (Core (JError "Email is required"), 400%Z), s)) /\
    (empty_body (get_json req) = false ->
     truthy (data_get (get_json req) "email") = true ->
     fst (handle_forgot_password req s) = Return (Core JOk, 200%Z) /\
     core (snd (handle_forgot_password req s)) = core s /\
     reset_password_mails (snd (handle_forgot_password req s))
       = match or_else
                 (User.get_by_email (users (session (core s)))
                    (sanitize_email (data_get (get_json req) "email")))
                 (User.get_by_email (users (session (core s)))
                    (canonicalize_email
                       (sanitize_email (data_get (get_json req) "email"))))
         with
         | Some u => (reset_password_mails s ++ [User.id u])%list
         | None => reset_password_mails s
         end).
Proof.
  intros req s. split.
  - intros Hbad. unfold handle_forgot_password. cbv zeta.
    destruct Hbad as [-> | ->]; [reflexivity |].
    rewrite orb_true_r. reflexivity.
  - intros Hb He. unfold handle_forgot_password. cbv zeta.
    rewrite Hb, He. cbn [orb negb]. unfold_site.
    destruct (or_else _ _) as [u |]; cbn; (split; [reflexivity | split]);
      try reflexivity; destruct s as [w ? ? ? ? ? ? ? ?]; destruct w; reflexivity.
Qed.

End AccountViews.

Section Registration.

Context `{Collaborators} `{SiteCollaborators}.




(** X21. A registration that is refused writes nothing: whenever
    [auth_register] answers with a status other than 200, no user, no
    activation record and no mail is added, and the event it sends, if
    any, is not the one of a success. *)
Theorem auth_register_refusal_writes_nothing :
  forall (req : Request) (new_code : string) (s : Site) (b : SiteBody)
         (status : Z),
    fst (auth_register req new_code s) = Return (b, status) ->
    status <> 200%Z ->
    let s' := snd (auth_register req new_code s) in
    core s' = core s /\
    (register_events s' = register_events s \/
     register_events s'
       = (register_events s ++ [RegisterEvent.failed])%list \/
     register_events s'
       = (register_events s ++ [RegisterEvent.invalid_email])%list).
Proof.
  intros req new_code s b status Hrun Hstatus. cbv zeta.
  unfold auth_register in *. cbv zeta in *.
  destruct (empty_body (get_json req)); [cbn; auto |].
  destruct (data_get (get_json req) "email") as [dirty |];
    destruct (data_get (get_json req) "password") as [pw |];
    try (unfold_site; cbn; auto; fail).
  destruct (negb (all _)); [unfold_site; cbn; auto |].
  destruct DISABLE_REGISTRATION; [unfold_site; cbn; auto |].
  unfold_site. cbn [fst snd core with_core] in *.
  destruct (negb _ || _); [cbn; auto |].
  destruct (py_len pw <? 8)%nat; [cbn; auto |].
  destruct (100 <? py_len pw)%nat; [cbn; auto |].
  destruct (canonicalize_email (Some dirty)) as [address |]; cbn in Hrun.
  - injection Hrun as _ Hst. congruence.
  - discriminate Hrun.
Qed.


End Registration.

(** ** Notifications and phone messages *)

Lemma insert_length (n : Notification.t) (l : list Notification.t) :
  List.length (Notification.insert n l) = S (List.length l).
Proof.
  induction l as [| m l IH]; cbn [Notification.insert]; [reflexivity |].
  destruct (Notification.precedes n m); cbn [List.length]; [reflexivity |].
  now rewrite IH.
Qed.

Lemma ordered_length (l : list Notification.t) :
  List.length (Notification.ordered l) = List.length l.
Proof.
  induction l as [| n l IH]; [reflexivity |].
  cbn [Notification.ordered fold_right]. fold (Notification.ordered l).
  rewrite insert_length, IH. reflexivity.
Qed.

Lemma insert_In (n x : Notification.t) (l : list Notification.t) :
  In x (Notification.insert n l) <-> x = n \/ In x l.
Proof.
  induction l as [| m l IH]; cbn [Notification.insert].
  - cbn. intuition.
  - destruct (Notification.precedes n m); cbn [In].
    + intuition.
    + rewrite IH. intuition.
Qed.

Lemma ordered_In (x : Notification.t) (l : list Notification.t) :
  In x (Notification.ordered l) <-> In x l.
Proof.
  induction l as [| n l IH]; [reflexivity |].
  cbn [Notification.ordered fold_right]. fold (Notification.ordered l).
  rewrite insert_In, IH. cbn. intuition.
Qed.

Lemma precedes_total (a b : Notification.t) :
  Notification.precedes a b = false -> Notification.precedes b a = true.
Proof.
  unfold Notification.precedes.
  destruct (Notification.read a), (Notification.read b); cbn;
    try discriminate; try reflexivity.
  all: intros Hle; apply Z.leb_gt in Hle; apply Z.leb_le; lia.
Qed.

Lemma precedes_trans (a b c : Notification.t) :
  Notification.precedes a b = true -> Notification.precedes b c = true ->
  Notification.precedes a c = true.
Proof.
  unfold Notification.precedes.
  destruct (Notification.read a), (Notification.read b),
    (Notification.read c); cbn; try discriminate; try reflexivity.
  all: intros H1 H2; apply Z.leb_le in H1, H2; apply Z.leb_le; lia.
Qed.

Lemma insert_in_query_order (n : Notification.t) (l : list Notification.t) :
  in_query_order l -> in_query_order (Notification.insert n l).
Proof.
  induction l as [| m l IH]; cbn [Notification.insert].
  - intros _. split; [intros ? [] | exact I].
  - intros [Hm Hl].
    destruct (Notification.precedes n m) eqn:Hnm.
    + split; [| split; assumption].
      intros x [<- | Hx]; [exact Hnm |].
      exact (precedes_trans n m x Hnm (Hm x Hx)).
    + split; [| exact (IH Hl)].
      intros x Hx. apply insert_In in Hx. destruct Hx as [-> | Hx].
      * exact (precedes_total n m Hnm).
      * exact (Hm x Hx).
Qed.

Lemma ordered_in_query_order (l : list Notification.t) :
  in_query_order (Notification.ordered l).
Proof.
  induction l as [| n l IH]; [exact I |].
  cbn [Notification.ordered fold_right]. fold (Notification.ordered l).
  exact (insert_in_query_order n _ IH).
Qed.

Lemma in_query_order_skipn (k : nat) (l : list Notification.t) :
  in_query_order l -> in_query_order (skipn k l).
Proof.
  revert l. induction k as [| k IH]; intros l Hl; [exact Hl |].
  destruct l as [| n l]; [exact I |].
  cbn [skipn]. destruct Hl as [_ Hl]. exact (IH l Hl).
Qed.

Lemma in_query_order_firstn (k : nat) (l : list Notification.t) :
  in_query_order l -> in_query_order (firstn k l).
Proof.
  revert l. induction k as [| k IH]; intros l Hl; [exact I |].
  destruct l as [| n l]; [exact I |].
  cbn [firstn]. destruct Hl as [Hn Hl]. split; [| exact (IH l Hl)].
  intros m Hm. apply Hn. revert Hm. clear. revert l.
  induction k as [| k IHk]; intros [| x l]; cbn [firstn In]; try tauto.
  intros [-> | Hm]; [now left | right; exact (IHk l Hm)].
Qed.

Lemma In_firstn_skipn {A} (x : A) (limit offset : nat) (l : list A) :
  In x (firstn limit (skipn offset l)) -> In x l.
Proof.
  intros Hx.
  assert (Hs : In x (skipn offset l)).
  { rewrite <- (firstn_skipn limit (skipn offset l)).
    apply in_or_app. now left. }
  rewrite <- (firstn_skipn offset l). apply in_or_app. now right.
Qed.

Section Listings.

Context `{Collaborators} `{SiteCollaborators}.

(** X23. A page of notifications. For a request that bears the code of a
    key of a user in good standing and a page number that parses and is
    not negative, the answer is 200 with the rows of the user from
    position [page * PAGE_LIMIT] of the query on, at most [PAGE_LIMIT] of
    them: the extra row the query loads is never shown. [more] is set
    exactly when the user has more than [(page + 1) * PAGE_LIMIT]
    notifications. The view writes nothing but the usage of the key. A
    page that does not parse, or a negative one, is answered 400. *)
Theorem notifications_page :
  forall (req : Request) (page_arg : option string) (now_auth now : timestamp)
         (s : Site) (k : ApiKey.t) (u : User.t),
    ApiKey.get_by_code (api_keys (session (core s))) (header_Authentication req)
      = Some k ->
    User.get (users (session (core s))) (ApiKey.user_id k) = Some u ->
    User.disabled u = false -> is_active u = true ->
    let mine := Notification.filter_by_user_id (notifications s) (User.id u) in
    let s1 := with_core (fun _ => passed_gate now_auth k u (core s)) s in
    (forall page,
        parse_page page_arg = Some page -> (0 <= page)%Z ->
        let shown := firstn PAGE_LIMIT
                       (skipn (Z.to_nat page * PAGE_LIMIT)
                          (Notification.ordered mine)) in
        notifications_view req page_arg now_auth now s
          = (Return (JNotifications
                       ((Z.to_nat page + 1) * PAGE_LIMIT <? List.length mine)%nat
                       (map (notification_item now) shown), 200%Z), s1) /\
        (List.length shown <= PAGE_LIMIT)%nat) /\
    (parse_page page_arg = None \/
     (exists page, parse_page page_arg = Some page /\ (page < 0)%Z) ->
     notifications_view req page_arg now_auth now s
       = (Return (Core (JError "Page must be a non-negative integer"), 400%Z),
          s1)).
Proof.
  intros req page_arg now_auth now s k u Hk Hu Hd Ha mine s1.
  unfold notifications_view.
  rewrite (site_require_api_auth_by_key _ req now_auth s k u Hk Hu Hd Ha).
  fold s1. unfold get_notifications. split.
  - intros page Hpage Hpos.
    set (shown := firstn PAGE_LIMIT
                    (skipn (Z.to_nat page * PAGE_LIMIT)
                       (Notification.ordered mine))).
    split.
    + unfold_site. cbn [fst snd core with_core s1 g_user passed_gate
                        set_g_api_key set_g_user].
      rewrite Hpage. destruct (Z.ltb_spec page 0) as [Hneg |]; [lia |].
      unfold notifications_query. cbn [notifications with_core s1].
      fold mine. rewrite firstn_firstn.
      replace (Nat.min PAGE_LIMIT (PAGE_LIMIT + 1)) with PAGE_LIMIT by lia.
      fold shown.
      assert (Hmore : (PAGE_LIMIT
                       <? List.length
                            (firstn (PAGE_LIMIT + 1)
                               (skipn (Z.to_nat page * PAGE_LIMIT)
                                  (Notification.ordered mine))))%nat
                      = ((Z.to_nat page + 1) * PAGE_LIMIT
                         <? List.length mine)%nat).
      { rewrite length_firstn, length_skipn, ordered_length.
        destruct (Nat.ltb_spec ((Z.to_nat page + 1) * PAGE_LIMIT)
                    (List.length mine));
          destruct (Nat.ltb_spec PAGE_LIMIT
                      (Nat.min (PAGE_LIMIT + 1)
                         (List.length mine - Z.to_nat page * PAGE_LIMIT)));
          try reflexivity; nia. }
      rewrite Hmore. destruct s as [w ? ? ? ? ? ? ? ?]. reflexivity.
    + subst shown. rewrite length_firstn. lia.
  - intros Hbad. unfold_site.
    cbn [fst snd core with_core s1 g_user passed_gate set_g_api_key set_g_user].
    destruct Hbad as [-> | (page & -> & Hneg)].
    + destruct s as [w ? ? ? ? ? ? ? ?]. reflexivity.
    + destruct (Z.ltb_spec page 0); [| lia].
      destruct s as [w ? ? ? ? ? ? ? ?]. reflexivity.
Qed.

(** X24. The rows of the query of [get_notifications] are rows of the
    table that belong to the user, whatever the limit and the offset, and
    they come in the order of the query: every row precedes the rows
    after it, so no read row is before an unread one and, among rows with
    the same flag, no older row is before a newer one. Without limit and
    offset every notification of the user is among them. *)
Theorem notifications_query_order :
  forall (tbl : list Notification.t) (uid : Z) (limit offset : nat),
    in_query_order (notifications_query tbl uid limit offset) /\
    (forall n, In n (notifications_query tbl uid limit offset) ->
               In n tbl /\ Notification.user_id n = uid) /\
    (forall n, In n tbl -> Notification.user_id n = uid ->
               In n (notifications_query tbl uid (List.length tbl) 0)) /\
    (forall a b rest,
        notifications_query tbl uid limit offset = (a :: rest)%list ->
        In b rest ->
        (Notification.read a = true -> Notification.read b = true) /\
        (Notification.read a = Notification.read b ->
         (Notification.created_at b <= Notification.created_at a)%Z)).
Proof.
  intros tbl uid limit offset.
  assert (Hord : in_query_order (notifications_query tbl uid limit offset)).
  { unfold notifications_query.
    apply in_query_order_firstn, in_query_order_skipn, ordered_in_query_order. }
  split; [exact Hord |]. split; [| split].
  - intros n Hn. unfold notifications_query in Hn.
    apply In_firstn_skipn in Hn. apply (proj1 (ordered_In _ _)) in Hn.
    unfold Notification.filter_by_user_id in Hn.
    apply filter_In in Hn. destruct Hn as [Hin Huid].
    split; [exact Hin | now apply Z.eqb_eq].
  - intros n Hin Huid. unfold notifications_query. cbn [skipn].
    rewrite firstn_all2.
    + apply ordered_In. unfold Notification.filter_by_user_id.
      apply filter_In. split; [exact Hin | now apply Z.eqb_eq].
    + rewrite ordered_length. unfold Notification.filter_by_user_id.
      apply filter_length_le.
  - intros a b rest Heq Hb. rewrite Heq in Hord. destruct Hord as [Ha _].
    specialize (Ha b Hb). unfold Notification.precedes in Ha.
    destruct (Notification.read a), (Notification.read b); cbn in Ha;
      try discriminate; split; intros; try reflexivity; try discriminate;
      now apply Z.leb_le.
Qed.

End Listings.





Section Marking.

Context `{Collaborators} `{SiteCollaborators}.

Lemma with_core_same (s : Site) : with_core (fun _ => core s) s = s.
Proof. destruct s. reflexivity. Qed.



End Marking.

Section Phone.

Context `{Collaborators} `{SiteCollaborators}.

(** The run of the body of [phone_messages] for the acting user [u]. *)
Lemma phone_messages_run (rid : Z) (now_humanize now : timestamp) (s : Site)
  (u : User.t) :
  g_user (core s) = Some u ->
  phone_messages_body rid now_humanize now s
    = (match PhoneReservation.get (phone_reservations s) rid with
       | None =>
           Return (Core (JError "Invalid reservation or unauthorized access"),
                   403%Z)
       | Some r =>
           if negb (PhoneReservation.user_id r =? User.id u)%Z then
             Return (Core (JError "Invalid reservation or unauthorized access"),
                     403%Z)
           else
             match fst (get_messages_for_reservation r s) with
             | Return (m :: ms) =>
                 Return (JMessages
                           (map (message_item now_humanize) (m :: ms))
                           (PhoneReservation.end_ r <? now)%Z, 200%Z)
             | _ =>
                 Return (Core (JError "No messages found for this reservation"),
                         404%Z)
             end
       end, s).
Proof.
  intros Hg. unfold phone_messages_body. unfold_site. rewrite Hg.
  rewrite with_core_same. cbn [fst].
  destruct (PhoneReservation.get (phone_reservations s) rid) as [r |];
    [| reflexivity].
  destruct (negb _); [reflexivity |].
  destruct (filter _ _); reflexivity.
Qed.

(** X26. The messages of a reservation. For a request that bears the
    code of a key of a user in good standing: a reservation that does not
    exist and one of another user get the same answer, 403; a reservation
    of the user without message in its window is answered 404; otherwise
    the answer is 200 with exactly the messages of the number of the
    reservation that came strictly after its start and strictly before
    its end, and [ended] is set exactly when
    the end is before the clock. The view writes nothing but the usage of
    the key. *)
Theorem phone_messages_window :
  forall (req : Request) (rid : Z) (now_auth now_humanize now : timestamp)
         (s : Site) (k : ApiKey.t) (u : User.t),
    ApiKey.get_by_code (api_keys (session (core s))) (header_Authentication req)
      = Some k ->
    User.get (users (session (core s))) (ApiKey.user_id k) = Some u ->
    User.disabled u = false -> is_active u = true ->
    let run := phone_messages_view req rid now_auth now_humanize now s in
    snd run = with_core (fun _ => passed_gate now_auth k u (core s)) s /\
    (PhoneReservation.get (phone_reservations s) rid = None \/
     (exists r, PhoneReservation.get (phone_reservations s) rid = Some r /\
                PhoneReservation.user_id r <> User.id u) ->
     fst run
       = Return (Core (JError "Invalid reservation or unauthorized access"),
                 403%Z)) /\
    (forall r,
        PhoneReservation.get (phone_reservations s) rid = Some r ->
        PhoneReservation.user_id r = User.id u ->
        exists shown,
          (forall m, In m shown <->
                     In m (phone_messages s) /\
                     PhoneMessage.number_id m = PhoneReservation.number_id r /\
                     (PhoneReservation.start r < PhoneMessage.created_at m
                      < PhoneReservation.end_ r)%Z) /\
          (shown = [] ->
           fst run
             = Return (Core (JError "No messages found for this reservation"),
                       404%Z)) /\
          (shown <> [] ->
           exists ended,
             fst run
               = Return (JMessages (map (message_item now_humanize) shown)
                           ended, 200%Z) /\
             (ended = true <-> (PhoneReservation.end_ r < now)%Z))).
Proof.
  intros req rid now_auth now_humanize now s k u Hk Hu Hd Ha run. subst run.
  unfold phone_messages_view.
  rewrite (site_require_api_auth_by_key _ req now_auth s k u Hk Hu Hd Ha).
  set (s1 := with_core (fun _ => passed_gate now_auth k u (core s)) s).
  assert (Hg1 : g_user (core s1) = Some u) by reflexivity.
  rewrite (phone_messages_run rid now_humanize now s1 u Hg1).
  change (phone_reservations s1) with (phone_reservations s).
  cbn [fst snd]. split; [reflexivity |]. split.
  - intros [-> | (r & -> & Hother)]; [reflexivity |].
    destruct (Z.eqb_spec (PhoneReservation.user_id r) (User.id u));
      [contradiction | reflexivity].
  - intros r -> Hmine. rewrite Hmine, Z.eqb_refl. cbn [negb].
    unfold get_messages_for_reservation, vgets. cbn [fst].
    change (phone_messages s1) with (phone_messages s).
    set (keep := fun m : PhoneMessage.t =>
                   (PhoneMessage.number_id m =? PhoneReservation.number_id r)%Z
                   && (PhoneReservation.start r <? PhoneMessage.created_at m)%Z
                   && (PhoneMessage.created_at m <? PhoneReservation.end_ r)%Z).
    exists (filter keep (phone_messages s)). split; [| split].
    + intros m. rewrite filter_In. subst keep. cbv beta.
      rewrite !andb_true_iff, Z.eqb_eq, !Z.ltb_lt. tauto.
    + intros ->. reflexivity.
    + intros Hsome. exists (PhoneReservation.end_ r <? now)%Z.
      split; [| apply Z.ltb_lt].
      destruct (filter keep (phone_messages s)); [contradiction | reflexivity].
Qed.

End Phone.

Section Refusals.

Context `{Collaborators} `{SiteCollaborators}.

(** X27. A request the gate refuses reaches no view. Whenever
    [authorize_request] answers with an error, each of the five views
    behind it gives that error as its answer, and the site is the one the
    gate left: no job, token, audit entry or mark is written, and no
    notification or message is read. *)
Theorem gate_refusal_stops_site_views :
  forall (req : Request) (now t1 t2 : timestamp) (s : Site) (b : Body)
         (status : Z) (page_arg : option string) (id : Z) (code : string),
    fst (authorize_request req now (core s)) = Return (Some (b, status)) ->
    let refused :=
      (Return (Core b, status),
       with_core (fun _ => snd (authorize_request req now (core s))) s) in
    delete_user_view req now t1 t2 s = refused /\
    cookie_token_view req now code s = refused /\
    notifications_view req page_arg now t1 s = refused /\
    mark_as_read_view req id now s = refused /\
    phone_messages_view req id now t1 t2 s = refused.
Proof.
  intros req now t1 t2 s b status page_arg id code Hgate. cbv zeta.
  unfold delete_user_view, cookie_token_view, notifications_view,
    mark_as_read_view, phone_messages_view, site_require_api_sudo,
    site_require_api_auth, vbind, lift.
  destruct (authorize_request req now (core s)) as [r w1].
  cbn [fst snd] in *. subst r. repeat split.
Qed.

End Refusals.

(** ** The properties above on the deployment of [SiteDemo] *)

(** Ann's phone is not elevated and is answered 440; her laptop is, and
    the job is scheduled. *)
Lemma delete_user_needs_elevation_witness :
  fst (delete_user_view (H := Demo.collaborators)
         (H0 := SiteDemo.site_collaborators)
         (Demo.bearer "key-ann-phone" []) 2000 2001 2002 SiteDemo.s0)
    = Return (Core (JError "Sudo required"), 440%Z) /\
  jobs (snd (delete_user_view (H := Demo.collaborators)
               (H0 := SiteDemo.site_collaborators)
               (Demo.bearer "key-ann-laptop" []) 2000 2001 2002
               SiteDemo.s_sudo))
    = [Job.mk "delete-account" 1 2002].
Proof.
  split.
  - exact (proj1 (proj1 (delete_user_needs_elevation
                           (H := Demo.collaborators)
                           (H0 := SiteDemo.site_collaborators)
                           (Demo.bearer "key-ann-phone" []) 2000 2001 2002
                           SiteDemo.s0 Demo.ann_phone Demo.ann
                           eq_refl eq_refl eq_refl eq_refl) eq_refl)).
  - exact (proj1 (proj2 (proj2 (delete_user_needs_elevation
                                  (H := Demo.collaborators)
                                  (H0 := SiteDemo.site_collaborators)
                                  (Demo.bearer "key-ann-laptop" []) 2000 2001
                                  2002 SiteDemo.s_sudo SiteDemo.ann_laptop
                                  Demo.ann eq_refl eq_refl eq_refl eq_refl)
                           eq_refl))).
Defined.

(** Ann's phone gets a token bound to its key; her web session gets
    none. *)
Lemma cookie_token_bound_to_key_witness :
  api_to_cookie_tokens
    (snd (cookie_token_view (H := Demo.collaborators)
            (H0 := SiteDemo.site_collaborators)
            (Demo.bearer "key-ann-phone" []) 2000 "tok-1" SiteDemo.s0))
    = [ApiToCookieToken.mk 1 1 "tok-1"] /\
  fst (cookie_token_view (H := Demo.collaborators)
         (H0 := SiteDemo.site_collaborators)
         (Demo.anonymous []) 2000 "tok-1" SiteDemo.s_session)
    = Return (Core (JError "Failed to generate session token"), 500%Z).
Proof.
  split.
  - exact (proj2 (proj1 (cookie_token_bound_to_key
                           (H := Demo.collaborators)
                           (H0 := SiteDemo.site_collaborators)
                           (Demo.bearer "key-ann-phone" []) 2000 "tok-1"
                           SiteDemo.s0 Demo.ann eq_refl eq_refl)
                    Demo.ann_phone eq_refl eq_refl)).
  - exact (proj1 (proj2 (cookie_token_bound_to_key
                           (H := Demo.collaborators)
                           (H0 := SiteDemo.site_collaborators)
                           (Demo.anonymous []) 2000 "tok-1"
                           SiteDemo.s_session Demo.ann eq_refl eq_refl)
                    1%Z eq_refl eq_refl eq_refl)).
Defined.

(** Ann exists, nobody has the second email: one answer for both, and a
    mail for Ann only. *)
Lemma forgot_password_uniform_witness :
  fst (handle_forgot_password (H := Demo.collaborators)
         (SiteDemo.forgot "ann@example.org") SiteDemo.s0)
    = fst (handle_forgot_password (H := Demo.collaborators)
             (SiteDemo.forgot "nobody@example.org") SiteDemo.s0) /\
  reset_password_mails
    (snd (handle_forgot_password (H := Demo.collaborators)
            (SiteDemo.forgot "ann@example.org") SiteDemo.s0)) = [1%Z] /\
  reset_password_mails
    (snd (handle_forgot_password (H := Demo.collaborators)
            (SiteDemo.forgot "nobody@example.org") SiteDemo.s0)) = [].
Proof.
  pose proof (proj2 (forgot_password_uniform (H := Demo.collaborators)
                       (SiteDemo.forgot "ann@example.org") SiteDemo.s0)
                eq_refl eq_refl) as (Hann & _ & Hmail).
  pose proof (proj2 (forgot_password_uniform (H := Demo.collaborators)
                       (SiteDemo.forgot "nobody@example.org") SiteDemo.s0)
                eq_refl eq_refl) as (Hnobody & _ & Hnone).
  split; [| split].
  - exact (eq_trans Hann (eq_sym Hnobody)).
  - exact Hmail.
  - exact Hnone.
Defined.

(** A password of six Cyrillic letters, twelve bytes long, is refused as
    too short, and no row is written. *)
Lemma auth_register_refusal_writes_nothing_witness :
  fst (auth_register (H := Demo.collaborators)
         (H0 := SiteDemo.site_collaborators)
         (SiteDemo.register "new@example.org" "пароль") "654321"
         SiteDemo.s0)
    = Return (Core (JError "Password must be at least 8 characters long"),
              400%Z) /\
  core (snd (auth_register (H := Demo.collaborators)
               (H0 := SiteDemo.site_collaborators)
               (SiteDemo.register "new@example.org" "пароль") "654321"
               SiteDemo.s0))
    = core SiteDemo.s0.
Proof.
  split; [reflexivity |].
  exact (proj1 (auth_register_refusal_writes_nothing
                  (H := Demo.collaborators)
                  (H0 := SiteDemo.site_collaborators)
                  (SiteDemo.register "new@example.org" "пароль") "654321"
                  SiteDemo.s0
                  (Core (JError "Password must be at least 8 characters long"))
                  400%Z eq_refl ltac:(discriminate))).
Defined.



(** Ann's first page: her two unread notifications, the newer first, and
    more to load. *)
Lemma notifications_page_witness :
  fst (notifications_view (H := Demo.collaborators)
         (H0 := SiteDemo.site_collaborators)
         (Demo.bearer "key-ann-phone" []) None 2000 2001 SiteDemo.s0)
    = Return (JNotifications true
                [ mkNotificationItem 4 "alias created" None false "just now";
                  mkNotificationItem 1 "welcome" None false "just now" ],
              200%Z).
Proof.
  exact (f_equal fst
           (proj1 (proj1 (notifications_page (H := Demo.collaborators)
                            (H0 := SiteDemo.site_collaborators)
                            (Demo.bearer "key-ann-phone" []) None 2000 2001
                            SiteDemo.s0 Demo.ann_phone Demo.ann
                            eq_refl eq_refl eq_refl eq_refl)
                     0%Z eq_refl ltac:(lia)))).
Defined.



(** Dan's reservation is refused to Ann's phone. *)
Lemma phone_messages_window_witness :
  fst (phone_messages_view (H := Demo.collaborators)
         (H0 := SiteDemo.site_collaborators)
         (Demo.bearer "key-ann-phone" []) 2 2000 2001 2002 SiteDemo.s0)
    = Return (Core (JError "Invalid reservation or unauthorized access"),
              403%Z).
Proof.
  refine (proj1 (proj2 (phone_messages_window (H := Demo.collaborators)
                          (H0 := SiteDemo.site_collaborators)
                          (Demo.bearer "key-ann-phone" []) 2 2000 2001 2002
                          SiteDemo.s0 Demo.ann_phone Demo.ann
                          eq_refl eq_refl eq_refl eq_refl))
            (or_intror
               (ex_intro _ (PhoneReservation.mk 2 4 8 1000 2000)
                  (conj eq_refl _)))).
  discriminate.
Defined.

(** Eve is disabled: her laptop is answered 403 by the view of the
    notifications. *)
Lemma gate_refusal_stops_site_views_witness :
  fst (notifications_view (H := Demo.collaborators)
         (H0 := SiteDemo.site_collaborators)
         (Demo.bearer "key-eve-laptop" []) None 2000 2001 SiteDemo.s0)
    = Return (Core (JError "Disabled account"), 403%Z).
Proof.
  exact (f_equal fst
           (proj1 (proj2 (proj2
              (gate_refusal_stops_site_views (H := Demo.collaborators)
                 (H0 := SiteDemo.site_collaborators)
                 (Demo.bearer "key-eve-laptop" []) 2000 2001 2002 SiteDemo.s0
                 (JError "Disabled account") 403%Z None 1%Z "tok-1"
                 eq_refl))))).
Defined.
